(** * fastlesson: the lesson-generation core

    A shallow embedding of the generation core of the fastlesson
    repository:

    - [core/services/ai.py]: the provider catalog [AI_MODELS], the JSON
      extractor [extract_json] and the dispatcher [generate_text];
    - [core/models.py]: [GenerationStatus] with [progress_percent],
      [ImproveStatus], [LessonBlock];
    - [core/tasks.py]: [generate_lesson_task] and [improve_block_task].

    Conventions of the embedding.

    - Python [int] is [Z]; Python [str] is [string] (its UTF-8 bytes);
      a decoded JSON document is a [json] tree, a Python [dict] being an
      association list in insertion order.
    - [json.loads], [str()] of a non-string value, the random permutation
      drawn by [random.shuffle], the replies of the two provider clients,
      [uuid4] and storage failures are the environment: they are
      parameters of the definitions.  A raised exception is a [None],
      [RuntimeError] or [Exc] result.
    - Rows of [GenerationStatus] and [ImproveStatus] are written by
      [save(update_fields=...)]: only the named columns are copied from
      the in-memory object to the stored row, so the object and the row
      are kept apart.
    - Storage failures are modelled wherever a handler of the task goes on
      with the work after one: creating a block, saving [completed] after
      it (both inside the second [try] of the loop body), saving the order
      of a block, and saving the content of a block and the DONE status
      after it (both inside the [try] of [improve_block_task]).  The other
      writes of a status row (at the start, after the outline, in the
      handlers, and the closing ones) are taken to be accepted by the
      store: a run in which one of them raises ends there or in the outer
      handler, and is not described here.
    - Timestamps ([created_at], [updated_at]) and the text of the prompts
      are left out: no provider reply depends on them in the model, the
      replies being the environment's. *)

From Stdlib Require Import ZArith Lia Ascii String DecimalString DecimalZ DecimalPos.
From Stdlib Require Import Floats.SpecFloat.
From stdpp Require Import gmap strings list sorting.

Open Scope Z_scope.

#[local] Set Warnings "-register-all".

(** * Python values *)

(** ** Strings: [str.find], [str.rfind] and slicing *)

Module PyStr.

Fixpoint index (c : ascii) (s : string) : option nat :=
  match s with
  | EmptyString => None
  | String a r =>
      if Ascii.eqb a c then Some O
      else match index c r with
           | Some i => Some (S i)
           | None => None
           end
  end.

Fixpoint rindex (c : ascii) (s : string) : option nat :=
  match s with
  | EmptyString => None
  | String a r =>
      match rindex c r with
      | Some i => Some (S i)
      | None => if Ascii.eqb a c then Some O else None
      end
  end.

(** [text.find(c)]: the lowest index of [c], or [-1]. *)
Definition find (c : ascii) (s : string) : Z :=
  match index c s with
  | Some i => Z.of_nat i
  | None => -1
  end.

(** [text.rfind(c)]: the highest index of [c], or [-1]. *)
Definition rfind (c : ascii) (s : string) : Z :=
  match rindex c s with
  | Some i => Z.of_nat i
  | None => -1
  end.

Fixpoint take (n : nat) (s : string) : string :=
  match n, s with
  | S n', String a r => String a (take n' r)
  | _, _ => EmptyString
  end.

Fixpoint drop (n : nat) (s : string) : string :=
  match n, s with
  | S n', String _ r => drop n' r
  | _, _ => s
  end.

Definition len (s : string) : Z := Z.of_nat (String.length s).

(** A slice bound as Python clamps it: negative bounds count from the
    end, and everything is cut to [0 .. len]. *)
Definition clamp (s : string) (i : Z) : Z :=
  if i <? 0 then Z.max 0 (len s + i) else Z.min i (len s).

(** [text[start:stop]] *)
Definition slice (s : string) (start stop : Z) : string :=
  let a := clamp s start in
  let b := clamp s stop in
  take (Z.to_nat (b - a)) (drop (Z.to_nat a) s).

Definition starts_with (c : ascii) (s : string) : bool :=
  match s with
  | String a _ => Ascii.eqb a c
  | EmptyString => false
  end.

Fixpoint ends_with (c : ascii) (s : string) : bool :=
  match s with
  | EmptyString => false
  | String a EmptyString => Ascii.eqb a c
  | String _ r => ends_with c r
  end.

(** [c in text] *)
Definition contains (c : ascii) (s : string) : bool :=
  match index c s with Some _ => true | None => false end.

End PyStr.

(** ** Decoded JSON documents *)

(** A Python [float] as [json.loads] produces it: the decimal numeral
    [m * 10^e] before rounding, or one of the constants [NaN], [Infinity],
    [-Infinity] that the decoder accepts. *)
Inductive pyfloat : Type :=
| FDec (m e : Z)
| FNaN
| FInf (negative : bool).

Inductive json : Type :=
| JNull
| JBool (b : bool)
| JInt (z : Z)
| JFloat (f : pyfloat)
| JStr (s : string)
| JArr (items : list json)
| JObj (members : list (string * json)).

(** [float(x) != 0.0] for the numeral [m * 10^e]: binary64 rounds to
    nearest even, so exactly the numerals of magnitude at most [2^-1075]
    become zero. *)
Definition float_nonzero (f : pyfloat) : bool :=
  match f with
  | FDec m e =>
      if 0 <=? e then negb (m =? 0)
      else 10 ^ (- e) <? Z.abs m * 2 ^ 1075
  | FNaN | FInf _ => true
  end.

(** [bool(v)] *)
Definition truthy (v : json) : bool :=
  match v with
  | JNull => false
  | JBool b => b
  | JInt z => negb (z =? 0)
  | JFloat f => float_nonzero f
  | JStr s => negb (String.eqb s EmptyString)
  | JArr l => match l with [] => false | _ => true end
  | JObj m => match m with [] => false | _ => true end
  end.

(** [a or b] *)
Definition py_or (a b : json) : json := if truthy a then a else b.

Definition is_dict (v : json) : bool :=
  match v with JObj _ => true | _ => false end.

Definition is_list (v : json) : bool :=
  match v with JArr _ => true | _ => false end.

Definition is_str (v : json) : bool :=
  match v with JStr _ => true | _ => false end.

(** Dictionaries keep one entry per key, in insertion order. *)
Fixpoint dict_lookup (k : string) (m : list (string * json)) : option json :=
  match m with
  | [] => None
  | (k', v) :: r => if String.eqb k' k then Some v else dict_lookup k r
  end.

Fixpoint dict_remove (k : string) (m : list (string * json)) : list (string * json) :=
  match m with
  | [] => []
  | (k', v) :: r =>
      if String.eqb k' k then dict_remove k r else (k', v) :: dict_remove k r
  end.

(** [d.get(k)] (default [None]) and [d.get(k, default)] *)
Definition dict_get (k : string) (m : list (string * json)) : json :=
  match dict_lookup k m with Some v => v | None => JNull end.

Definition dict_get_default (k : string) (d : json) (m : list (string * json)) : json :=
  match dict_lookup k m with Some v => v | None => d end.

(** [str(i)] for a loop index. *)
Definition str_of_nat (n : nat) : string :=
  NilEmpty.string_of_uint (Nat.to_uint n).

(** * The JSON decoder

    [json.loads] belongs to Python's standard library, not to the
    repository.  The functions of the repository take the decoder as a
    parameter; [JsonDecoder.loads] is a decoder for the grammar the
    standard one accepts (RFC 8259 plus the constants [NaN], [Infinity]
    and [-Infinity]), used to run the functions on concrete texts.  A
    result of [None] stands for [json.JSONDecodeError]. *)

Module JsonDecoder.

Definition is_ws (c : ascii) : bool :=
  match nat_of_ascii c with
  | 32%nat | 9%nat | 10%nat | 13%nat => true
  | _ => false
  end.

Fixpoint skip_ws (s : string) : string :=
  match s with
  | String c r => if is_ws c then skip_ws r else s
  | EmptyString => s
  end.

Definition digit_val (c : ascii) : option Z :=
  let n := nat_of_ascii c in
  if (48 <=? n)%nat && (n <=? 57)%nat then Some (Z.of_nat (n - 48)) else None.

Definition hex_val (c : ascii) : option N :=
  let n := nat_of_ascii c in
  if (48 <=? n)%nat && (n <=? 57)%nat then Some (N.of_nat (n - 48))
  else if (65 <=? n)%nat && (n <=? 70)%nat then Some (N.of_nat (n - 55))
  else if (97 <=? n)%nat && (n <=? 102)%nat then Some (N.of_nat (n - 87))
  else None.

Definition hex4 (a b c d : ascii) : option N :=
  match hex_val a, hex_val b, hex_val c, hex_val d with
  | Some x, Some y, Some z, Some w => Some (((x * 16 + y) * 16 + z) * 16 + w)%N
  | _, _, _, _ => None
  end.

Definition byte (n : N) : ascii := ascii_of_N n.

(** The UTF-8 bytes of a code point. *)
Definition utf8 (cp : N) : string :=
  (if cp <? 128 then String (byte cp) EmptyString
   else if cp <? 2048 then
     String (byte (192 + cp / 64)) (String (byte (128 + cp mod 64)) EmptyString)
   else if cp <? 65536 then
     String (byte (224 + cp / 4096))
       (String (byte (128 + (cp / 64) mod 64))
          (String (byte (128 + cp mod 64)) EmptyString))
   else
     String (byte (240 + cp / 262144))
       (String (byte (128 + (cp / 4096) mod 64))
          (String (byte (128 + (cp / 64) mod 64))
             (String (byte (128 + cp mod 64)) EmptyString))))%N.

Definition unescape (c : ascii) : option ascii :=
  match nat_of_ascii c with
  | 34%nat => Some (ascii_of_nat 34)    (* quotation mark *)
  | 92%nat => Some (ascii_of_nat 92)    (* reverse solidus *)
  | 47%nat => Some (ascii_of_nat 47)    (* solidus *)
  | 98%nat => Some (ascii_of_nat 8)     (* b: backspace *)
  | 102%nat => Some (ascii_of_nat 12)   (* f: form feed *)
  | 110%nat => Some (ascii_of_nat 10)   (* n: line feed *)
  | 114%nat => Some (ascii_of_nat 13)   (* r: carriage return *)
  | 116%nat => Some (ascii_of_nat 9)    (* t: tab *)
  | _ => None
  end.

Definition is_high_surrogate (cp : N) : bool := ((55296 <=? cp) && (cp <=? 56319))%N.
Definition is_low_surrogate (cp : N) : bool := ((56320 <=? cp) && (cp <=? 57343))%N.

(** The text of a string literal after its opening quote, up to the
    closing quote: the decoded text and what follows the literal.
    Control characters are refused (strict mode). *)
Fixpoint scan_string (s : string) : option (string * string) :=
  match s with
  | EmptyString => None
  | String c r =>
      match nat_of_ascii c with
      | 34%nat => Some (EmptyString, r)
      | 92%nat =>
          match r with
          | String "u" (String h1 (String h2 (String h3 (String h4 r1)))) =>
              match hex4 h1 h2 h3 h4 with
              | None => None
              | Some hi =>
                  match r1 with
                  | String "\" (String "u" (String l1 (String l2 (String l3 (String l4 r2))))) =>
                      match hex4 l1 l2 l3 l4 with
                      | Some lo =>
                          if is_high_surrogate hi && is_low_surrogate lo then
                            match scan_string r2 with
                            | Some (t, rest) =>
                                Some (utf8 (65536 + (hi - 55296) * 1024 + (lo - 56320))%N ++ t, rest)%string
                            | None => None
                            end
                          else
                            match scan_string r1 with
                            | Some (t, rest) => Some (utf8 hi ++ t, rest)%string
                            | None => None
                            end
                      | None =>
                          match scan_string r1 with
                          | Some (t, rest) => Some (utf8 hi ++ t, rest)%string
                          | None => None
                          end
                      end
                  | _ =>
                      match scan_string r1 with
                      | Some (t, rest) => Some (utf8 hi ++ t, rest)%string
                      | None => None
                      end
                  end
              end
          | String e r1 =>
              match unescape e with
              | Some ch =>
                  match scan_string r1 with
                  | Some (t, rest) => Some (String ch t, rest)
                  | None => None
                  end
              | None => None
              end
          | EmptyString => None
          end
      | n =>
          if (n <? 32)%nat then None
          else match scan_string r with
               | Some (t, rest) => Some (String c t, rest)
               | None => None
               end
      end
  end.

Fixpoint scan_digits (s : string) (acc : Z) (n : nat) : Z * nat * string :=
  match s with
  | String c r =>
      match digit_val c with
      | Some d => scan_digits r (acc * 10 + d) (S n)
      | None => (acc, n, s)
      end
  | EmptyString => (acc, n, s)
  end.

(** The integer part of a numeral: [0], or a digit from 1 to 9 followed
    by digits. *)
Definition scan_int (s : string) : option (Z * string) :=
  match s with
  | String c r =>
      match digit_val c with
      | Some 0 => Some (0, r)
      | Some d => let '(v, _, rest) := scan_digits r d 1 in Some (v, rest)
      | None => None
      end
  | EmptyString => None
  end.

(** An optional fraction: a dot followed by at least one digit.  The
    result is the mantissa with the fraction digits appended, the decimal
    exponent, and whether a fraction was read. *)
Definition scan_frac (m : Z) (s : string) : Z * Z * bool * string :=
  match s with
  | String "." r =>
      let '(v, n, rest) := scan_digits r m 0 in
      match n with
      | O => (m, 0, false, s)
      | _ => (v, - Z.of_nat n, true, rest)
      end
  | _ => (m, 0, false, s)
  end.

(** An optional exponent: [e] or [E], an optional sign, at least one
    digit. *)
Definition scan_exp (s : string) : option (Z * string) :=
  match s with
  | String c r =>
      if Ascii.eqb c "e" || Ascii.eqb c "E" then
        let '(sign, r') :=
          match r with
          | String "+" r' => (1, r')
          | String "-" r' => (-1, r')
          | _ => (1, r)
          end in
        let '(v, n, rest) := scan_digits r' 0 0 in
        match n with
        | O => None
        | _ => Some (sign * v, rest)
        end
      else None
  | EmptyString => None
  end.

Definition scan_number (s : string) : option (json * string) :=
  let '(sign, s1) :=
    match s with
    | String "-" r => (-1, r)
    | _ => (1, s)
    end in
  match scan_int s1 with
  | None => None
  | Some (i, s2) =>
      let '(m, e, has_frac, s3) := scan_frac i s2 in
      match scan_exp s3 with
      | Some (x, s4) => Some (JFloat (FDec (sign * m) (e + x)), s4)
      | None =>
          if has_frac then Some (JFloat (FDec (sign * m) e), s3)
          else Some (JInt (sign * i), s2)
      end
  end.

(** [s] without its prefix [p], when it has that prefix. *)
Fixpoint strip_prefix (p s : string) : option string :=
  match p, s with
  | EmptyString, _ => Some s
  | String a p', String b s' => if Ascii.eqb a b then strip_prefix p' s' else None
  | String _ _, EmptyString => None
  end.

Definition scan_constant (s : string) : option (json * string) :=
  match strip_prefix "null" s with
  | Some r => Some (JNull, r)
  | None =>
  match strip_prefix "true" s with
  | Some r => Some (JBool true, r)
  | None =>
  match strip_prefix "false" s with
  | Some r => Some (JBool false, r)
  | None =>
  match scan_number s with
  | Some res => Some res
  | None =>
  match strip_prefix "NaN" s with
  | Some r => Some (JFloat FNaN, r)
  | None =>
  match strip_prefix "Infinity" s with
  | Some r => Some (JFloat (FInf false), r)
  | None =>
  match strip_prefix "-Infinity" s with
  | Some r => Some (JFloat (FInf true), r)
  | None => None
  end end end end end end end.

(** [dict(pairs)] one pair at a time, from the right: a key met again
    further right keeps its first position and takes the later value. *)
Definition dict_cons (k : string) (v : json) (m : list (string * json)) :
    list (string * json) :=
  match dict_lookup k m with
  | Some v' => (k, v') :: dict_remove k m
  | None => (k, v) :: m
  end.

(** The recursive descent.  [fuel] bounds the nesting depth (the
    interpreter's recursion limit); the length of the text is always
    enough. *)
Fixpoint parse_value (fuel : nat) (s : string) {struct fuel} : option (json * string) :=
  match fuel with
  | O => None
  | S fuel' =>
      match s with
      | EmptyString => None
      | String c r =>
          match nat_of_ascii c with
          | 34%nat =>
              match scan_string r with
              | Some (t, rest) => Some (JStr t, rest)
              | None => None
              end
          | 123%nat =>
              match skip_ws r with
              | String "}" rest => Some (JObj [], rest)
              | r' =>
                  match parse_members fuel' r' with
                  | Some (m, rest) => Some (JObj m, rest)
                  | None => None
                  end
              end
          | 91%nat =>
              match skip_ws r with
              | String "]" rest => Some (JArr [], rest)
              | r' =>
                  match parse_elements fuel' r' with
                  | Some (l, rest) => Some (JArr l, rest)
                  | None => None
                  end
              end
          | _ => scan_constant s
          end
      end
  end
with parse_members (fuel : nat) (s : string) {struct fuel} :
    option (list (string * json) * string) :=
  match fuel with
  | O => None
  | S fuel' =>
      match s with
      | String c r =>
          match nat_of_ascii c with
          | 34%nat =>
              match scan_string r with
              | Some (k, r1) =>
                  match skip_ws r1 with
                  | String ":" r2 =>
                      match parse_value fuel' (skip_ws r2) with
                      | Some (v, r3) =>
                          match skip_ws r3 with
                          | String "}" rest => Some ([(k, v)], rest)
                          | String "," r4 =>
                              match parse_members fuel' (skip_ws r4) with
                              | Some (m, rest) => Some (dict_cons k v m, rest)
                              | None => None
                              end
                          | _ => None
                          end
                      | None => None
                      end
                  | _ => None
                  end
              | None => None
              end
          | _ => None
          end
      | EmptyString => None
      end
  end
with parse_elements (fuel : nat) (s : string) {struct fuel} :
    option (list json * string) :=
  match fuel with
  | O => None
  | S fuel' =>
      match parse_value fuel' s with
      | Some (v, r1) =>
          match skip_ws r1 with
          | String "]" rest => Some ([v], rest)
          | String "," r2 =>
              match parse_elements fuel' (skip_ws r2) with
              | Some (l, rest) => Some (v :: l, rest)
              | None => None
              end
          | _ => None
          end
      | None => None
      end
  end.

(** [json.loads(text)]: one value, surrounded by white space only. *)
Definition loads (text : string) : option json :=
  match parse_value (S (S (String.length text))) (skip_ws text) with
  | Some (v, rest) =>
      match skip_ws rest with
      | EmptyString => Some v
      | _ => None
      end
  | None => None
  end.

(** Texts are written below with apostrophes where JSON has quotation
    marks. *)
Fixpoint dq (s : string) : string :=
  match s with
  | EmptyString => EmptyString
  | String c r => String (if Ascii.eqb c "'" then ascii_of_nat 34 else c) (dq r)
  end.

End JsonDecoder.

(** * core/services/ai.py *)

(** ** The provider catalog *)

Record ModelCfg : Type := {
  name : string;
  day_limit_requests : Z;
  is_visual : bool;
  provider : string;
  type : string
}.

#[global] Instance ModelCfg_eq_dec : EqDecision ModelCfg.
Proof. solve_decision. Defined.

Definition AI_MODELS : list ModelCfg := [
  {| name := "gemma-3-27b-it"; day_limit_requests := 14400; is_visual := true;
     provider := "Google"; type := "premium" |};
  {| name := "gemma-3-12b-it"; day_limit_requests := 14400; is_visual := false;
     provider := "Google"; type := "basic" |};
  {| name := "gemini-2.0-flash-lite"; day_limit_requests := 1500; is_visual := false;
     provider := "Google"; type := "premium" |};
  {| name := "gemini-2.0-flash"; day_limit_requests := 1500; is_visual := false;
     provider := "Google"; type := "premium" |};
  {| name := "llama-3.3-70b-versatile"; day_limit_requests := 1000; is_visual := false;
     provider := "Groq"; type := "premium" |};
  {| name := "qwen/qwen3-32b"; day_limit_requests := 1000; is_visual := false;
     provider := "Groq"; type := "premium" |}
].

(** ** The state the dispatcher works on *)

(** The list objects of the interpreter, by address, and what the
    dispatcher writes to its logs.  The module-level list [AI_MODELS] is the
    object at address [AI_MODELS_ref]; every importer of the module shares
    it. *)
Record World : Type := {
  lists : list (list ModelCfg);
  usage : list string;              (* [incr_usage]: one entry per answered call *)
  trying : list (string * nat);     (* the "Trying model ..." lines: model, attempt *)
  calls : nat                       (* invocations of [generate_text] *)
}.

Definition AI_MODELS_ref : nat := 0%nat.

Definition initial_world : World :=
  {| lists := [AI_MODELS]; usage := []; trying := []; calls := 0%nat |}.

(** [l.copy()]: a new list object with the same elements. *)
Definition list_copy (r : nat) (w : World) : nat * World :=
  (length (lists w),
   {| lists := lists w ++ [lists w !!! r]; usage := usage w;
      trying := trying w; calls := calls w |}).

(** [random.shuffle(l)]: the object at address [r] is permuted in place;
    [perm] is the permutation drawn. *)
Definition random_shuffle (perm : list ModelCfg -> list ModelCfg) (r : nat) (w : World) : World :=
  {| lists := <[r := perm (lists w !!! r)]> (lists w); usage := usage w;
     trying := trying w; calls := calls w |}.

Definition incr_usage (model_name : string) (w : World) : World :=
  {| lists := lists w; usage := usage w ++ [model_name];
     trying := trying w; calls := calls w |}.

Definition log_trying (model : string) (attempt : nat) (w : World) : World :=
  {| lists := lists w; usage := usage w;
     trying := trying w ++ [(model, attempt)]; calls := calls w |}.

Definition count_call (w : World) : World :=
  {| lists := lists w; usage := usage w; trying := trying w; calls := S (calls w) |}.

(** What a provider client does when called: it raises, or it answers
    with a text, which may be missing ([None]). *)
Inductive reply : Type :=
| ApiError
| ApiText (text : option string).

(** The environment of one call of [generate_text]: the permutation
    [random.shuffle] draws, and what each client does for a model on a given
    attempt (0 or 1). *)
Record Backend : Type := {
  shuffle : list ModelCfg -> list ModelCfg;
  google : string -> nat -> reply;
  groq : string -> nat -> reply
}.

Inductive gen_result : Type :=
| Ok (v : json)
| RuntimeError.

(** How one attempt ends: [generate_text] returns, or the loop goes on. *)
Inductive flow : Type :=
| Return (v : json)
| Continue.

Section Dispatcher.

Variable json_loads : string -> option json.

Definition extract_json (text : string) : option json :=
  let start := PyStr.find "{" text in
  let stop := PyStr.rfind "}" text + 1 in
  if (start =? -1) || (stop =? -1) then None
  else json_loads (PyStr.slice text start stop).

(** The part of an attempt after the client has answered. *)
Definition handle_text (text : option string) : flow :=
  match text with
  | None => Continue                       (* [text[:500]] raises on [None] *)
  | Some text =>
      match extract_json text with
      | None => Continue
      | Some parsed =>
          if is_dict parsed then Return parsed
          else
            match parsed with
            | JStr s =>
                match json_loads s with
                | Some v => Return v
                | None => Continue
                end
            | _ => Continue                (* unexpected parsed type *)
            end
      end
  end.

(** The body of [for attempt in range(2)], with its [try]. *)
Definition attempt (B : Backend) (model_cfg : ModelCfg) (n : nat) (w : World) :
    flow * World :=
  let model := name model_cfg in
  let w := log_trying model n w in
  if String.eqb (provider model_cfg) "Google" then
    match google B model n with
    | ApiError => (Continue, w)
    | ApiText text => (handle_text text, incr_usage model w)
    end
  else if String.eqb (provider model_cfg) "Groq" then
    match groq B model n with
    | ApiError => (Continue, w)
    | ApiText text => (handle_text text, incr_usage model w)
    end
  else (Continue, w).                      (* unknown provider *)

Fixpoint attempts (B : Backend) (model_cfg : ModelCfg) (ns : list nat) (w : World) :
    flow * World :=
  match ns with
  | [] => (Continue, w)
  | n :: rest =>
      match attempt B model_cfg n w with
      | (Return v, w') => (Return v, w')
      | (Continue, w') => attempts B model_cfg rest w'
      end
  end.

Fixpoint models_loop (B : Backend) (models : list ModelCfg) (w : World) :
    gen_result * World :=
  match models with
  | [] => (RuntimeError, w)
  | model_cfg :: rest =>
      match attempts B model_cfg (seq 0 2) w with
      | (Return v, w') => (Ok v, w')
      | (Continue, w') => models_loop B rest w'
      end
  end.

Definition generate_text (B : Backend) (w : World) : gen_result * World :=
  let w := count_call w in
  let '(models, w) := list_copy AI_MODELS_ref w in
  let w := random_shuffle (shuffle B) models w in
  models_loop B (lists w !!! models) w.

End Dispatcher.

(** * Python floats

    binary64 through the Standard Library's executable specification of
    IEEE 754 ([SpecFloat]).  [None] stands for a raised [ZeroDivisionError],
    [OverflowError] or [ValueError]. *)

Module PyFloat.

Definition prec : Z := 53.
Definition emax : Z := 1024.

(** An integer as the exact binary number [n * 2^0]. *)
Definition exact (n : Z) : spec_float :=
  match n with
  | Z0 => S754_zero false
  | Zpos p => S754_finite false p 0
  | Zneg p => S754_finite true p 0
  end.

(** [float(n)] *)
Definition of_int (n : Z) : option spec_float :=
  match binary_normalize prec emax n 0 false with
  | S754_infinity _ | S754_nan => None
  | f => Some f
  end.

(** [a / b] on two ints: the exact quotient rounded once, to nearest
    even. *)
Definition truediv (a b : Z) : option spec_float :=
  if b =? 0 then None
  else
    match SFdiv prec emax (exact a) (exact b) with
    | S754_infinity _ | S754_nan => None
    | f => Some f
    end.

(** [x * y] on two floats. *)
Definition mul (x y : spec_float) : spec_float := SFmul prec emax x y.

(** [int(x)]: truncation toward zero. *)
Definition to_int (x : spec_float) : option Z :=
  match x with
  | S754_zero _ => Some 0
  | S754_finite s m e =>
      Some (cond_Zopp s (if 0 <=? e then Z.pos m * 2 ^ e else Z.pos m / 2 ^ (- e)))
  | S754_infinity _ | S754_nan => None
  end.

End PyFloat.

(** * core/models.py *)

(** Primary keys ([UUIDField]) are [N]; the key of a row is the key of the
    table, not a field of the record.  [PositiveIntegerField] holds the
    integers from 0 to 2147483647. *)
Definition positive_integer_field (n : Z) : Prop := 0 <= n <= 2147483647.

Module Lesson.
Record t : Type := {
  title : string;
  subject : option string;
  level : option string
}.
End Lesson.

Module GenerationStatus.

Inductive Status : Type := PENDING | IN_PROGRESS | DONE | FAILED.

#[global] Instance Status_eq_dec : EqDecision Status.
Proof. solve_decision. Defined.

(** The row of a lesson; the lesson (one-to-one) is the key of the
    table. *)
Record t : Type := {
  total : Z;
  completed : Z;
  status : Status
}.

(** [min(100, int((self.completed / self.total) * 100))] *)
Definition progress_percent (self : t) : option Z :=
  if total self =? 0 then Some 0
  else
    match PyFloat.truediv (completed self) (total self), PyFloat.of_int 100 with
    | Some q, Some hundred =>
        match PyFloat.to_int (PyFloat.mul q hundred) with
        | Some p => Some (Z.min 100 p)
        | None => None
        end
    | _, _ => None
    end.

End GenerationStatus.

Module ImproveStatus.

Inductive Status : Type := PENDING | IN_PROGRESS | DONE | FAILED.

#[global] Instance Status_eq_dec : EqDecision Status.
Proof. solve_decision. Defined.

Record t : Type := {
  block : N;
  mode : string;
  status : Status;
  task_id : option string;
  result_content : option string
}.

End ImproveStatus.

Module LessonBlock.
Record t : Type := {
  lesson : N;
  order : Z;
  title : string;
  content : string;
  has_task : bool
}.

Definition set_order (idx : Z) (b : t) : t :=
  {| lesson := lesson b; order := idx; title := title b;
     content := content b; has_task := has_task b |}.

Definition set_content (c : string) (b : t) : t :=
  {| lesson := lesson b; order := order b; title := title b;
     content := c; has_task := has_task b |}.
End LessonBlock.

(** * The stored state *)

Record Db : Type := {
  lessons : gmap N Lesson.t;
  generation_statuses : gmap N GenerationStatus.t;   (* by lesson: one-to-one *)
  lesson_blocks : gmap N LessonBlock.t;
  improve_statuses : gmap Z ImproveStatus.t
}.

(** The places of [generate_lesson_task] that write the [GenerationStatus]
    row. *)
Inductive Site : Type :=
| AtCreate       (* [get_or_create] inserting the row *)
| AtStart        (* status, completed := IN_PROGRESS, 0 *)
| AtBadJson      (* the outline is not JSON: FAILED *)
| AtBadBlocks    (* 'blocks' is not a list: FAILED *)
| AtOutline      (* total := len(blocks_hints) *)
| AtSkip         (* a block was not generated: total decremented *)
| AtSaved        (* a block was created: completed incremented *)
| AtNotSaved     (* the handler of the second [try]: the block was not created,
                    or the write of completed was refused; total decremented *)
| AtFinal        (* the final status *)
| AtError.       (* the outer handler: FAILED *)

#[global] Instance Site_eq_dec : EqDecision Site.
Proof. solve_decision. Defined.

(** One write of the row, as a reader polling the table may observe it:
    where it was made, the columns named in [update_fields], and the row
    it left. *)
Record Write : Type := {
  site : Site;
  fields : list string;
  row : GenerationStatus.t
}.

Record Sys : Type := {
  db : Db;
  world : World;
  journal : list Write
}.

Definition with_generation_statuses (t : gmap N GenerationStatus.t) (d : Db) : Db :=
  {| lessons := lessons d; generation_statuses := t;
     lesson_blocks := lesson_blocks d; improve_statuses := improve_statuses d |}.

Definition with_lesson_blocks (t : gmap N LessonBlock.t) (d : Db) : Db :=
  {| lessons := lessons d; generation_statuses := generation_statuses d;
     lesson_blocks := t; improve_statuses := improve_statuses d |}.

Definition with_improve_statuses (t : gmap Z ImproveStatus.t) (d : Db) : Db :=
  {| lessons := lessons d; generation_statuses := generation_statuses d;
     lesson_blocks := lesson_blocks d; improve_statuses := t |}.

Definition with_db (d : Db) (s : Sys) : Sys :=
  {| db := d; world := world s; journal := journal s |}.

Definition with_world (w : World) (s : Sys) : Sys :=
  {| db := db s; world := w; journal := journal s |}.

Definition has_field (f : string) (fs : list string) : bool :=
  existsb (String.eqb f) fs.

(** ** Writing a [GenerationStatus] row *)

(** [obj.save(update_fields=fs)]: the named columns of the stored row take
    the values of the in-memory object. *)
Definition generation_status_columns (fs : list string)
    (obj stored : GenerationStatus.t) : GenerationStatus.t :=
  {| GenerationStatus.total :=
       if has_field "total" fs then GenerationStatus.total obj
       else GenerationStatus.total stored;
     GenerationStatus.completed :=
       if has_field "completed" fs then GenerationStatus.completed obj
       else GenerationStatus.completed stored;
     GenerationStatus.status :=
       if has_field "status" fs then GenerationStatus.status obj
       else GenerationStatus.status stored |}.

(** The row exists from [get_or_create] on and the task never deletes it,
    so the update always finds it. *)
Definition save_generation_status (at_ : Site) (fs : list string) (k : N)
    (obj : GenerationStatus.t) (s : Sys) : Sys :=
  match generation_statuses (db s) !! k with
  | Some stored =>
      let r := generation_status_columns fs obj stored in
      {| db := with_generation_statuses (<[k := r]> (generation_statuses (db s))) (db s);
         world := world s;
         journal := journal s ++ [{| site := at_; fields := fs; row := r |}] |}
  | None => s
  end.

(** [GenerationStatus.objects.get_or_create(lesson=lesson, defaults=...)] *)
Definition get_or_create (lesson_id : N) (s : Sys) : GenerationStatus.t * Sys :=
  match generation_statuses (db s) !! lesson_id with
  | Some stored => (stored, s)
  | None =>
      let r := {| GenerationStatus.total := 0;
                  GenerationStatus.completed := 0;
                  GenerationStatus.status := GenerationStatus.IN_PROGRESS |} in
      (r,
       {| db := with_generation_statuses (<[lesson_id := r]> (generation_statuses (db s))) (db s);
          world := world s;
          journal := journal s ++
            [{| site := AtCreate; fields := ["lesson"; "status"; "total"; "completed"];
                row := r |}] |})
  end.

(** ** Reading the blocks of a lesson in order *)

(** [order_by('order', 'id')] *)
Definition block_le (a b : N * LessonBlock.t) : Prop :=
  LessonBlock.order a.2 < LessonBlock.order b.2 \/
  (LessonBlock.order a.2 = LessonBlock.order b.2 /\ (a.1 <= b.1)%N).

#[global] Instance block_le_dec : RelDecision block_le.
Proof. intros a b. unfold block_le. apply _. Defined.

(** [list(LessonBlock.objects.filter(lesson=lesson).order_by('order', 'id'))] *)
Definition blocks_of_lesson (lesson_id : N) (tbl : gmap N LessonBlock.t) :
    list (N * LessonBlock.t) :=
  merge_sort block_le
    (filter (fun kb => LessonBlock.lesson kb.2 = lesson_id) (map_to_list tbl)).

(** * core/tasks.py *)

(** The running task: its in-memory [status] object (the row of lesson
    [status_key]) and the system it works on. *)
Record Job : Type := {
  status_key : N;
  status_obj : GenerationStatus.t;
  sys : Sys
}.

(** How a block of statements ends. *)
Inductive outcome (A : Type) : Type :=
| Val (a : A) (j : Job)      (* it falls through *)
| Returned (j : Job)         (* the task returns *)
| Exc (j : Job).             (* an exception leaves the block *)

Arguments Val {A} a j.
Arguments Returned {A} j.
Arguments Exc {A} j.

(** The environment of one run of [generate_lesson_task]. *)
Record JobEnv : Type := {
  backend : nat -> Backend;        (* for the outline (0) and for hint i (i >= 1) *)
  uuid4 : nat -> N;                (* the key drawn for the block of hint i *)
  create_fails : nat -> bool;      (* storage error while creating the block of hint i *)
  completed_save_fails : nat -> bool;
                                   (* storage error while saving [completed] after the
                                      block of hint i was created *)
  order_save_fails : N -> bool     (* storage error while saving the order of a block *)
}.

Definition set_status (st : GenerationStatus.Status) (j : Job) : Job :=
  {| status_key := status_key j;
     status_obj :=
       {| GenerationStatus.total := GenerationStatus.total (status_obj j);
          GenerationStatus.completed := GenerationStatus.completed (status_obj j);
          GenerationStatus.status := st |};
     sys := sys j |}.

Definition set_total (n : Z) (j : Job) : Job :=
  {| status_key := status_key j;
     status_obj :=
       {| GenerationStatus.total := n;
          GenerationStatus.completed := GenerationStatus.completed (status_obj j);
          GenerationStatus.status := GenerationStatus.status (status_obj j) |};
     sys := sys j |}.

Definition set_completed (n : Z) (j : Job) : Job :=
  {| status_key := status_key j;
     status_obj :=
       {| GenerationStatus.total := GenerationStatus.total (status_obj j);
          GenerationStatus.completed := n;
          GenerationStatus.status := GenerationStatus.status (status_obj j) |};
     sys := sys j |}.

(** [status.save(update_fields=fs)] *)
Definition save (at_ : Site) (fs : list string) (j : Job) : Job :=
  {| status_key := status_key j;
     status_obj := status_obj j;
     sys := save_generation_status at_ fs (status_key j) (status_obj j) (sys j) |}.

Definition set_sys (s : Sys) (j : Job) : Job :=
  {| status_key := status_key j; status_obj := status_obj j; sys := s |}.

(** [hint[:200]] is defined on strings and lists only. *)
Definition sliceable (v : json) : bool := is_str v || is_list v.

(** The status the task ends on. *)
Definition final_status (completed total : Z) : GenerationStatus.Status :=
  if completed =? total then GenerationStatus.DONE
  else if completed =? 0 then GenerationStatus.FAILED
  else GenerationStatus.IN_PROGRESS.

Section Tasks.

Variable json_loads : string -> option json.
(** [str(v)] for a value that is not a string. *)
Variable py_str : json -> string.

Definition str_ (v : json) : string :=
  match v with
  | JStr s => s
  | _ => py_str v
  end.

(** ** generate_lesson_task *)

(** [generate_text(query=...)], the [k]-th call of the job. *)
Definition call_generate_text (E : JobEnv) (k : nat) (j : Job) : gen_result * Job :=
  let '(r, w) := generate_text json_loads (backend E k) (world (sys j)) in
  (r, set_sys (with_world w (sys j)) j).

(** Step 1: the structure (the hints). *)
Definition outline_phase (E : JobEnv) (j : Job) : outcome (list json) :=
  let '(r, j) := call_generate_text E 0 j in
  match r with
  | RuntimeError => Exc j
  | Ok structure_json =>
      let structure :=
        if is_dict structure_json then Some structure_json
        else
          match structure_json with
          | JStr s => json_loads s
          | _ => None                       (* [json.loads] of a non-string *)
          end in
      match structure with
      | None =>
          Returned (save AtBadJson ["status"; "updated_at"]
                      (set_status GenerationStatus.FAILED j))
      | Some (JObj m) =>
          match dict_get_default "blocks" (JArr []) m with
          | JArr blocks_hints =>
              let total_blocks := Z.of_nat (length blocks_hints) in
              Val blocks_hints
                (save AtOutline ["total"; "updated_at"] (set_total total_blocks j))
          | _ =>
              Returned (save AtBadBlocks ["status"; "updated_at"]
                          (set_status GenerationStatus.FAILED j))
          end
      | Some _ => Exc j                     (* [structure.get]: no such attribute *)
      end
  end.

(** The hint of one entry of the structure. *)
Definition hint_of (block_topic : json) : json :=
  match block_topic with
  | JObj m =>
      py_or (dict_get "block_topic" m)
        (py_or (dict_get "prompt" m) (JStr (str_ block_topic)))
  | _ => JStr (str_ block_topic)
  end.

(** The first [try] of the loop body: the title, content and task flag
    of the block, or [None] when an exception is raised. *)
Definition block_fields (i : nat) (r : gen_result) : option (json * json * bool) :=
  match r with
  | RuntimeError => None
  | Ok block_data =>
      let block_data :=
        match block_data with
        | JStr s => json_loads s
        | _ => Some block_data
        end in
      match block_data with
      | Some (JObj m) =>
          Some (py_or (dict_get "title" m) (JStr ("Блок " ++ str_of_nat i)),
                py_or (dict_get "content" m) (JStr EmptyString),
                truthy (dict_get_default "has_task" (JBool false) m))
      | _ => None
      end
  end.

(** The handler of both [try] blocks of the loop body. *)
Definition decrement_total (at_ : Site) (j : Job) : Job :=
  if 0 <? GenerationStatus.total (status_obj j) then
    save at_ ["total"; "updated_at"]
      (set_total (Z.max 0 (GenerationStatus.total (status_obj j) - 1)) j)
  else j.

(** [LessonBlock.objects.create(...)] inside [transaction.atomic()]: the
    table with the new row, or [None] when storage raises (an error of the
    store, or a key already taken). *)
Definition create_block (E : JobEnv) (i : nat) (b : LessonBlock.t)
    (tbl : gmap N LessonBlock.t) : option (gmap N LessonBlock.t) :=
  if create_fails E i then None
  else
    match tbl !! uuid4 E i with
    | Some _ => None
    | None => Some (<[uuid4 E i := b]> tbl)
    end.

(** The body of [for i, block_topic in enumerate(blocks_hints, start=1)].
    In the second [try] the block is created inside [transaction.atomic()]
    and [completed] is incremented and saved after it: when that write
    raises, the block stays stored, the object keeps the incremented
    [completed], and the handler decrements [total]. *)
Definition section_step (E : JobEnv) (lesson_id : N) (i : nat) (block_topic : json)
    (j : Job) : outcome unit :=
  let hint := hint_of block_topic in
  if negb (sliceable hint) then Exc j        (* the log line, outside the [try] *)
  else
    let '(r, j) := call_generate_text E i j in
    match block_fields i r with
    | None => Val tt (decrement_total AtSkip j)
    | Some (title, content, has_task) =>
        let b := {| LessonBlock.lesson := lesson_id;
                    LessonBlock.order := Z.of_nat i;
                    LessonBlock.title := str_ title;
                    LessonBlock.content := str_ content;
                    LessonBlock.has_task := has_task |} in
        match create_block E i b (lesson_blocks (db (sys j))) with
        | Some tbl =>
            let j := set_sys (with_db (with_lesson_blocks tbl (db (sys j))) (sys j)) j in
            let j := set_completed (GenerationStatus.completed (status_obj j) + 1) j in
            if completed_save_fails E i then Val tt (decrement_total AtNotSaved j)
            else Val tt (save AtSaved ["completed"; "updated_at"] j)
        | None => Val tt (decrement_total AtNotSaved j)
        end
    end.

Fixpoint sections_loop (E : JobEnv) (lesson_id : N) (i : nat) (blocks_hints : list json)
    (j : Job) : outcome unit :=
  match blocks_hints with
  | [] => Val tt j
  | block_topic :: rest =>
      match section_step E lesson_id i block_topic j with
      | Val _ j' => sections_loop E lesson_id (S i) rest j'
      | Returned j' => Returned j'
      | Exc j' => Exc j'
      end
  end.

(** The renumbering loop: the table it leaves and the writes it made
    (key, new order).  An exception in [block.save] ends the loop; the
    handler around it only logs. *)
Fixpoint fix_orders (fails : N -> bool) (idx : Z) (blocks : list (N * LessonBlock.t))
    (tbl : gmap N LessonBlock.t) : gmap N LessonBlock.t * list (N * Z) :=
  match blocks with
  | [] => (tbl, [])
  | (k, block) :: rest =>
      if LessonBlock.order block =? idx then fix_orders fails (idx + 1) rest tbl
      else if fails k then (tbl, [])
      else
        let '(tbl', ws) :=
          fix_orders fails (idx + 1) rest (alter (LessonBlock.set_order idx) k tbl) in
        (tbl', (k, idx) :: ws)
  end.

Definition reconcile (fails : N -> bool) (lesson_id : N) (tbl : gmap N LessonBlock.t) :
    gmap N LessonBlock.t * list (N * Z) :=
  fix_orders fails 1 (blocks_of_lesson lesson_id tbl) tbl.

Definition reconcile_orders (E : JobEnv) (lesson_id : N) (j : Job) : Job :=
  let tbl := (reconcile (order_save_fails E) lesson_id (lesson_blocks (db (sys j)))).1 in
  set_sys (with_db (with_lesson_blocks tbl (db (sys j))) (sys j)) j.

Definition finalize (j : Job) : Job :=
  save AtFinal ["status"; "updated_at"]
    (set_status
       (final_status (GenerationStatus.completed (status_obj j))
          (GenerationStatus.total (status_obj j))) j).

(** The statements inside the outer [try]. *)
Definition job_body (E : JobEnv) (lesson_id : N) (j : Job) : outcome unit :=
  match outline_phase E j with
  | Val blocks_hints j1 =>
      match sections_loop E lesson_id 1 blocks_hints j1 with
      | Val _ j2 => Val tt (finalize (reconcile_orders E lesson_id j2))
      | Returned j2 => Returned j2
      | Exc j2 => Exc j2
      end
  | Returned j1 => Returned j1
  | Exc j1 => Exc j1
  end.

(** The task up to the outer [try]: [None] when the lesson is missing. *)
Definition start_job (lesson_id : N) (s : Sys) : option Job :=
  match lessons (db s) !! lesson_id with
  | None => None
  | Some _ =>
      let '(status, s) := get_or_create lesson_id s in
      Some (save AtStart ["status"; "completed"; "updated_at"]
              (set_completed 0
                 (set_status GenerationStatus.IN_PROGRESS
                    {| status_key := lesson_id; status_obj := status; sys := s |})))
  end.

Definition generate_lesson_task (E : JobEnv) (lesson_id : N) (s : Sys) : Sys :=
  match start_job lesson_id s with
  | None => s
  | Some j =>
      match job_body E lesson_id j with
      | Val _ j' => sys j'
      | Returned j' => sys j'
      | Exc j' =>
          sys (save AtError ["status"; "updated_at"]
                 (set_status GenerationStatus.FAILED j'))
      end
  end.

End Tasks.

(** ** improve_block_task *)

(** The environment of one run of [improve_block_task]. *)
Record ImproveEnv : Type := {
  improve_backend : Backend;
  request_id : string;             (* [self.request.id] *)
  block_save_fails : bool;         (* storage error in [block.save] *)
  done_save_fails : bool           (* storage error in the [status.save] after it *)
}.

(** [status.save(update_fields=fs)] on an [ImproveStatus] object. *)
Definition improve_status_columns (fs : list string)
    (obj stored : ImproveStatus.t) : ImproveStatus.t :=
  {| ImproveStatus.block := ImproveStatus.block stored;
     ImproveStatus.mode := ImproveStatus.mode stored;
     ImproveStatus.status :=
       if has_field "status" fs then ImproveStatus.status obj
       else ImproveStatus.status stored;
     ImproveStatus.task_id :=
       if has_field "task_id" fs then ImproveStatus.task_id obj
       else ImproveStatus.task_id stored;
     ImproveStatus.result_content :=
       if has_field "result_content" fs then ImproveStatus.result_content obj
       else ImproveStatus.result_content stored |}.

Definition save_improve_status (fs : list string) (improve_id : Z)
    (obj : ImproveStatus.t) (s : Sys) : Sys :=
  with_db
    (with_improve_statuses
       (alter (improve_status_columns fs obj) improve_id (improve_statuses (db s)))
       (db s)) s.

Definition improve_set_status (st : ImproveStatus.Status) (o : ImproveStatus.t) :
    ImproveStatus.t :=
  {| ImproveStatus.block := ImproveStatus.block o;
     ImproveStatus.mode := ImproveStatus.mode o;
     ImproveStatus.status := st;
     ImproveStatus.task_id := ImproveStatus.task_id o;
     ImproveStatus.result_content := ImproveStatus.result_content o |}.

Definition improve_set_task_id (t : string) (o : ImproveStatus.t) : ImproveStatus.t :=
  {| ImproveStatus.block := ImproveStatus.block o;
     ImproveStatus.mode := ImproveStatus.mode o;
     ImproveStatus.status := ImproveStatus.status o;
     ImproveStatus.task_id := Some t;
     ImproveStatus.result_content := ImproveStatus.result_content o |}.

Definition improve_set_result (c : string) (o : ImproveStatus.t) : ImproveStatus.t :=
  {| ImproveStatus.block := ImproveStatus.block o;
     ImproveStatus.mode := ImproveStatus.mode o;
     ImproveStatus.status := ImproveStatus.status o;
     ImproveStatus.task_id := ImproveStatus.task_id o;
     ImproveStatus.result_content := Some c |}.

Section Improve.

Variable json_loads : string -> option json.
Variable py_str : json -> string.

(** From the answer of the dispatcher to [new_content]; [None] when an
    exception is raised on the way. *)
Definition improved_content (r : gen_result) : option json :=
  match r with
  | RuntimeError => None
  | Ok ai_response =>
      let ai_response :=
        match ai_response with
        | JStr s => json_loads s
        | _ => Some ai_response
        end in
      match ai_response with
      | Some (JObj m) =>
          let new_content := dict_get "improved_content" m in
          if truthy new_content then Some new_content else None
      | _ => None
      end
  end.

(** The handler of the [try]: the status becomes FAILED; the write names
    the status only. *)
Definition improve_failed (improve_id : Z) (status : ImproveStatus.t) (s : Sys) : Sys :=
  save_improve_status ["status"; "updated_at"] improve_id
    (improve_set_status ImproveStatus.FAILED status) s.

Definition improve_block_task (E : ImproveEnv) (block_id : N) (mode : string)
    (improve_id : Z) (s : Sys) : Sys :=
  match lesson_blocks (db s) !! block_id, improve_statuses (db s) !! improve_id with
  | Some block, Some status =>
      let status :=
        improve_set_task_id (request_id E)
          (improve_set_status ImproveStatus.IN_PROGRESS status) in
      let s := save_improve_status ["status"; "task_id"; "updated_at"] improve_id status s in
      let '(r, w) := generate_text json_loads (improve_backend E) (world s) in
      let s := with_world w s in
      match improved_content r with
      | None => improve_failed improve_id status s
      | Some new_content =>
          if block_save_fails E then improve_failed improve_id status s
          else
            let s :=
              with_db
                (with_lesson_blocks
                   (alter (LessonBlock.set_content (str_ py_str new_content)) block_id
                      (lesson_blocks (db s)))
                   (db s)) s in
            let status :=
              improve_set_result (str_ py_str new_content)
                (improve_set_status ImproveStatus.DONE status) in
            if done_save_fails E then improve_failed improve_id status s
            else
              save_improve_status ["status"; "result_content"; "updated_at"] improve_id
                status s
      end
  | _, _ => s
  end.

End Improve.

(** * Vocabulary of the statements *)

Section DispatcherVocabulary.

Variable json_loads : string -> option json.

(** The text a client hands back for a model on an attempt: none when
    the provider is unknown, when the call raises, or when the answer
    carries no text. *)
Definition answer (B : Backend) (model_cfg : ModelCfg) (n : nat) : option string :=
  if String.eqb (provider model_cfg) "Google" then
    match google B (name model_cfg) n with
    | ApiText text => text
    | ApiError => None
    end
  else if String.eqb (provider model_cfg) "Groq" then
    match groq B (name model_cfg) n with
    | ApiText text => text
    | ApiError => None
    end
  else None.

(** The mapping a backend/attempt combination yields, if any. *)
Definition yields (B : Backend) (model_cfg : ModelCfg) (n : nat) : option json :=
  match answer B model_cfg n with
  | Some text =>
      match extract_json json_loads text with
      | Some (JObj m) => Some (JObj m)
      | _ => None
      end
  | None => None
  end.

(** The combinations of one pass, in the order they are tried. *)
Definition schedule (models : list ModelCfg) : list (ModelCfg * nat) :=
  flat_map (fun model_cfg => map (pair model_cfg) (seq 0 2)) models.

(** The first mapping yielded along a list of combinations. *)
Fixpoint first_yield (B : Backend) (l : list (ModelCfg * nat)) : gen_result :=
  match l with
  | [] => RuntimeError
  | (model_cfg, n) :: rest =>
      match yields B model_cfg n with
      | Some v => Ok v
      | None => first_yield B rest
      end
  end.

Definition label (e : ModelCfg * nat) : string * nat := (name e.1, e.2).

(** What a call of [generate_text] adds to the "Trying model" log. *)
Definition tried (B : Backend) (w : World) : list (string * nat) :=
  drop (length (trying w)) (trying (generate_text json_loads B w).2).

Definition times_tried (model : string) (l : list (string * nat)) : nat :=
  length (filter (fun e => e.1 = model) l).

End DispatcherVocabulary.


(** [0 <= completed <= total] in the row a write leaves. *)
Definition snapshot_ok (w : Write) : Prop :=
  0 <= GenerationStatus.completed (row w) <= GenerationStatus.total (row w).


Definition totals (ws : list Write) : list Z :=
  map (fun w => GenerationStatus.total (row w)) ws.

(** Every element is at most each of the elements before it. *)
Definition never_increases (l : list Z) : Prop :=
  StronglySorted (fun a b => b <= a) l.

(** The orders of a list of blocks are 1, 2, ... in that order. *)
Definition contiguous (blocks : list (N * LessonBlock.t)) : Prop :=
  map (fun kb => LessonBlock.order kb.2) blocks
  = map Z.of_nat (seq 1 (length blocks)).

(** What the dispatcher relies on in [json.loads]: the empty text is not
    a document, and a document that starts with an opening brace is an
    object. *)
Definition decodes_objects (json_loads : string -> option json) : Prop :=
  json_loads EmptyString = None /\
  forall r v, json_loads (String "{" r) = Some v -> is_dict v = true.

(** The stored row of the job is the in-memory [status] object. *)
Definition synced (j : Job) : Prop :=
  generation_statuses (db (sys j)) !! status_key j = Some (status_obj j).

(** The totals written by [ws] never increase and stay between [lo] and
    [hi]. *)
Definition within (lo hi : Z) (ws : list Write) : Prop :=
  lo <= hi /\
  Forall (fun w => lo <= GenerationStatus.total (row w) <= hi) ws /\
  never_increases (totals ws).

(** What the loop over the hints maintains, with [rest] hints still to
    process. *)
Definition loop_invariant (rest : nat) (j : Job) : Prop :=
  synced j /\
  0 <= GenerationStatus.completed (status_obj j) /\
  GenerationStatus.completed (status_obj j) + Z.of_nat rest
    = GenerationStatus.total (status_obj j).


(** A list of blocks with the orders [idx], [idx + 1], ... in place of
    their own. *)
Fixpoint renumbered (idx : Z) (blocks : list (N * LessonBlock.t)) :
    list (N * LessonBlock.t) :=
  match blocks with
  | [] => []
  | (k, b) :: rest => (k, LessonBlock.set_order idx b) :: renumbered (idx + 1) rest
  end.

(** A float that is zero or positive, finite, with mantissa below [2^D]
    and exponent at most [E]. *)
Definition finite_nonneg (D E : Z) (f : spec_float) : Prop :=
  f = S754_zero false \/
  exists m e, f = S754_finite false m e /\ Z.pos m < 2 ^ D /\ e <= E.

(** How a write made after the outline is known relates to the row before
    it: a stored block counts one more [completed], a skipped hint one less
    [total] (floored at 0), and the closing write keeps both. *)
Definition step_ok (prev : GenerationStatus.t) (w : Write) : Prop :=
  match site w with
  | AtSaved =>
      GenerationStatus.completed (row w) = GenerationStatus.completed prev + 1 /\
      GenerationStatus.total (row w) = GenerationStatus.total prev
  | AtSkip | AtNotSaved =>
      GenerationStatus.total (row w) = Z.max 0 (GenerationStatus.total prev - 1) /\
      GenerationStatus.completed (row w) = GenerationStatus.completed prev
  | AtFinal | AtError =>
      GenerationStatus.total (row w) = GenerationStatus.total prev /\
      GenerationStatus.completed (row w) = GenerationStatus.completed prev
  | _ => False
  end.

Fixpoint steps_ok (prev : GenerationStatus.t) (ws : list Write) : Prop :=
  match ws with
  | [] => True
  | w :: rest => step_ok prev w /\ steps_ok (row w) rest
  end.

(** The row the last write of [ws] left, or [prev] when there is none. *)
Fixpoint last_row (prev : GenerationStatus.t) (ws : list Write) : GenerationStatus.t :=
  match ws with
  | [] => prev
  | w :: rest => last_row (row w) rest
  end.

(** The store accepts every write of [completed] that follows a stored
    block. *)
Definition accepts_completed (E : JobEnv) : Prop :=
  forall i, completed_save_fails E i = false.

(** [0 <= completed] and [0 <= total] in the row a write leaves. *)
Definition snapshot_nonneg (w : Write) : Prop :=
  0 <= GenerationStatus.completed (row w) /\ 0 <= GenerationStatus.total (row w).

(** The stored row of the job follows the in-memory [status] object: it
    has the total and the status of the object, and a [completed] that
    the object has reached or passed. *)
Definition tracked (j : Job) : Prop :=
  exists r,
    generation_statuses (db (sys j)) !! status_key j = Some r /\
    GenerationStatus.total r = GenerationStatus.total (status_obj j) /\
    GenerationStatus.status r = GenerationStatus.status (status_obj j) /\
    0 <= GenerationStatus.completed r <= GenerationStatus.completed (status_obj j).

(** What the loop over the hints maintains whatever the store does, with
    [rest] hints still to process: the stored row follows the object, its
    [total] covers the hints that remain, and every hint that [total]
    still counts is stored in [completed] or still to come. *)
Definition loop_state (rest : nat) (j : Job) : Prop :=
  exists r,
    generation_statuses (db (sys j)) !! status_key j = Some r /\
    GenerationStatus.total r = GenerationStatus.total (status_obj j) /\
    GenerationStatus.status r = GenerationStatus.status (status_obj j) /\
    0 <= GenerationStatus.completed r <= GenerationStatus.completed (status_obj j) /\
    Z.of_nat rest <= GenerationStatus.total r
      <= GenerationStatus.completed r + Z.of_nat rest.

(** How a write made after the outline is known relates to the row before
    it, whatever the store does: a write of [completed] raises it and keeps
    [total]; a write of a handler of the loop takes exactly 1 from [total],
    which stays at 0 or above, and keeps [completed]; the closing write
    keeps both. *)
Definition step_moves (prev : GenerationStatus.t) (w : Write) : Prop :=
  match site w with
  | AtSaved =>
      GenerationStatus.completed prev < GenerationStatus.completed (row w) /\
      GenerationStatus.total (row w) = GenerationStatus.total prev
  | AtSkip | AtNotSaved =>
      GenerationStatus.total (row w) = GenerationStatus.total prev - 1 /\
      0 <= GenerationStatus.total (row w) /\
      GenerationStatus.completed (row w) = GenerationStatus.completed prev
  | AtFinal | AtError =>
      GenerationStatus.total (row w) = GenerationStatus.total prev /\
      GenerationStatus.completed (row w) = GenerationStatus.completed prev
  | _ => False
  end.

Fixpoint steps_move (prev : GenerationStatus.t) (ws : list Write) : Prop :=
  match ws with
  | [] => True
  | w :: rest => step_moves prev w /\ steps_move (row w) rest
  end.

(** The [completed] and [total] of the [status] object of the task when it
    computes the final status, which changes neither; [None] when the run
    does not get there. *)
Definition counters_at_finalization (json_loads : string -> option json)
    (py_str : json -> string) (E : JobEnv) (lesson_id : N) (s : Sys) : option (Z * Z) :=
  match start_job lesson_id s with
  | Some j0 =>
      match job_body json_loads py_str E lesson_id j0 with
      | Val _ j' =>
          Some (GenerationStatus.completed (status_obj j'),
                GenerationStatus.total (status_obj j'))
      | _ => None
      end
  | None => None
  end.

(** * Concrete environments *)

Module Scenario.

Import JsonDecoder.

(** Every client answers with the text [t]; the shuffle reverses. *)
Definition answering (t : string) : Backend :=
  {| shuffle := @rev ModelCfg;
     google := fun _ _ => ApiText (Some t);
     groq := fun _ _ => ApiText (Some t) |}.

(** The Google client raises, the Groq client answers without JSON. *)
Definition failing : Backend :=
  {| shuffle := @rev ModelCfg;
     google := fun _ _ => ApiError;
     groq := fun _ _ => ApiText (Some "I cannot help with that.") |}.

(** Only the second attempt on one Google model answers with JSON. *)
Definition late (t : string) : Backend :=
  {| shuffle := @rev ModelCfg;
     google := fun model n =>
       if String.eqb model "gemini-2.0-flash" && Nat.eqb n 1 then ApiText (Some t)
       else ApiError;
     groq := fun _ _ => ApiText None |}.

(** A rendering for [str()] of values that are not strings. *)
Definition render (v : json) : string := "<value>".

Definition lesson_7 : Lesson.t :=
  {| Lesson.title := "Fractions"; Lesson.subject := Some "math";
     Lesson.level := Some "grade_5_7" |}.

Definition empty_db : Db :=
  {| lessons := {[ 7%N := lesson_7 ]};
     generation_statuses := ∅;
     lesson_blocks := ∅;
     improve_statuses := ∅ |}.

Definition fresh : Sys :=
  {| db := empty_db; world := initial_world; journal := [] |}.

Definition section_text : string :=
  dq "{'title': 'Halves', 'content': 'One half is ...', 'has_task': true}".

(** Three hints; the second section cannot be generated. *)
Definition three_hints : JobEnv :=
  {| backend := fun k =>
       match k with
       | 0%nat => answering (dq "Plan: {'blocks': [{'block_topic': 'Intro'}, 'Halves', {'prompt': 'Quiz'}]}")
       | 2%nat => failing
       | _ => answering section_text
       end;
     uuid4 := fun i => N.of_nat (100 - i);
     create_fails := fun _ => false;
     completed_save_fails := fun _ => false;
     order_save_fails := fun _ => false |}.

(** Five hints; the second and the fourth exhaust all backends. *)
Definition five_hints : JobEnv :=
  {| backend := fun k =>
       match k with
       | 0%nat => answering (dq "{'blocks': ['a', 'b', 'c', 'd', 'e']}")
       | 2%nat | 4%nat => failing
       | _ => answering section_text
       end;
     uuid4 := fun i => N.of_nat (100 - i);
     create_fails := fun _ => false;
     completed_save_fails := fun _ => false;
     order_save_fails := fun _ => false |}.

(** Three hints; no section can be generated. *)
Definition all_fail : JobEnv :=
  {| backend := fun k =>
       match k with
       | 0%nat => answering (dq "{'blocks': ['a', 'b', 'c']}")
       | _ => failing
       end;
     uuid4 := fun i => N.of_nat (100 - i);
     create_fails := fun _ => false;
     completed_save_fails := fun _ => false;
     order_save_fails := fun _ => false |}.

(** The outline is an empty mapping; so is every section. *)
Definition empty_answers : JobEnv :=
  {| backend := fun _ => answering (dq "{}");
     uuid4 := fun i => N.of_nat (100 - i);
     create_fails := fun _ => false;
     completed_save_fails := fun _ => false;
     order_save_fails := fun _ => false |}.



(** Two hints, both sections are generated and stored; the store refuses
    the write of [completed] after the first block. *)
Definition refused_first : JobEnv :=
  {| backend := fun k =>
       match k with
       | 0%nat => answering (dq "{'blocks': ['a', 'b']}")
       | _ => answering section_text
       end;
     uuid4 := fun i => N.of_nat (100 - i);
     create_fails := fun _ => false;
     completed_save_fails := fun i => Nat.eqb i 1;
     order_save_fails := fun _ => false |}.

(** One hint, its section is generated and stored; the store refuses the
    write of [completed]. *)
Definition refused_only : JobEnv :=
  {| backend := fun k =>
       match k with
       | 0%nat => answering (dq "{'blocks': ['a']}")
       | _ => answering section_text
       end;
     uuid4 := fun i => N.of_nat (100 - i);
     create_fails := fun _ => false;
     completed_save_fails := fun _ => true;
     order_save_fails := fun _ => false |}.


(** A store with one block and one pending improvement of it. *)
Definition with_block : Sys :=
  {| db := {| lessons := {[ 7%N := lesson_7 ]};
              generation_statuses := ∅;
              lesson_blocks :=
                {[ 99%N := {| LessonBlock.lesson := 7; LessonBlock.order := 1;
                              LessonBlock.title := "Halves";
                              LessonBlock.content := "One half is ...";
                              LessonBlock.has_task := true |} ]};
              improve_statuses :=
                {[ 5 := {| ImproveStatus.block := 99; ImproveStatus.mode := "simplify";
                           ImproveStatus.status := ImproveStatus.PENDING;
                           ImproveStatus.task_id := None;
                           ImproveStatus.result_content := None |} ]} |};
     world := initial_world;
     journal := [] |}.

Definition improving (t : string) : ImproveEnv :=
  {| improve_backend := answering t;
     request_id := "task-1";
     block_save_fails := false;
     done_save_fails := false |}.


Definition block (lesson order : Z) (title : string) : LessonBlock.t :=
  {| LessonBlock.lesson := Z.to_N lesson; LessonBlock.order := order;
     LessonBlock.title := title; LessonBlock.content := EmptyString;
     LessonBlock.has_task := false |}.

(** Blocks of lesson 7 numbered 1 and 2, and a block of lesson 8. *)
Definition numbered : gmap N LessonBlock.t :=
  {[ 99%N := block 7 1 "a"; 97%N := block 7 2 "b"; 50%N := block 8 5 "other" ]}.

(** Blocks of lesson 7 with a gap and a tie, and a block of lesson 8. *)
Definition gapped : gmap N LessonBlock.t :=
  {[ 99%N := block 7 1 "a"; 97%N := block 7 3 "b"; 96%N := block 7 3 "c";
     50%N := block 8 5 "other" ]}.

End Scenario.
(** * More vocabulary: the dispatcher and the generation task *)

(** The client of a combination returned (with or without a text):
    [incr_usage] is reached. *)
Definition answered (B : Backend) (e : ModelCfg * nat) : bool :=
  if String.eqb (provider e.1) "Google" then
    match google B (name e.1) e.2 with
    | ApiText _ => true
    | ApiError => false
    end
  else if String.eqb (provider e.1) "Groq" then
    match groq B (name e.1) e.2 with
    | ApiText _ => true
    | ApiError => false
    end
  else false.

(** What a call of [generate_text] adds to the usage log. *)
Definition counted (json_loads : string -> option json) (B : Backend) (w : World) :
    list string :=
  drop (length (usage w)) (usage (generate_text json_loads B w).2).

(** How far a pass over the combinations [l] goes: up to the first one
    that yields a mapping, that one included. *)
Fixpoint reached (json_loads : string -> option json) (B : Backend)
    (l : list (ModelCfg * nat)) : list (ModelCfg * nat) :=
  match l with
  | [] => []
  | e :: rest =>
      match yields json_loads B e.1 e.2 with
      | Some _ => [e]
      | None => e :: reached json_loads B rest
      end
  end.

(** The number of blocks of a lesson. *)
Definition block_count (lesson_id : N) (tbl : gmap N LessonBlock.t) : nat :=
  length (blocks_of_lesson lesson_id tbl).

(** The writes made by the loop over the hints. *)
Definition section_write (w : Write) : bool :=
  match site w with
  | AtSaved | AtSkip | AtNotSaved => true
  | _ => false
  end.

(** What a run on a lesson leaves alone in the store: the lessons, the
    improvement jobs, and the status rows of the other lessons. *)
Definition same_outside (lesson_id : N) (d d' : Db) : Prop :=
  lessons d' = lessons d /\
  improve_statuses d' = improve_statuses d /\
  forall k, k <> lesson_id -> generation_statuses d' !! k = generation_statuses d !! k.

(** [tbl'] keeps every row of [tbl], up to the order of the blocks of the
    lesson, and its other rows are blocks of the lesson. *)
Definition blocks_kept (lesson_id : N) (tbl tbl' : gmap N LessonBlock.t) : Prop :=
  (forall k b, tbl !! k = Some b -> LessonBlock.lesson b <> lesson_id ->
               tbl' !! k = Some b) /\
  (forall k b, tbl !! k = Some b -> LessonBlock.lesson b = lesson_id ->
               exists n, tbl' !! k = Some (LessonBlock.set_order n b)) /\
  (forall k b', tbl' !! k = Some b' -> tbl !! k = None ->
                LessonBlock.lesson b' = lesson_id).
(** * More concrete environments *)

Module Scenario2.

Import JsonDecoder.

(** The Google client raises on every call; the first Groq model tried
    answers with JSON on its second attempt only. *)
Definition groq_second (t : string) : Backend :=
  {| shuffle := @rev ModelCfg;
     google := fun _ _ => ApiError;
     groq := fun _ n => if Nat.eqb n 1 then ApiText (Some t) else ApiText None |}.

End Scenario2.
(** * The bot around the tasks

    The parts of the repository that call the tasks and read what they
    store:

    - [core/models.py]: [User] with [decrement_generation];
    - [fastlesson_bot/services/rate_limit.py]: [check_rate_limit];
    - [fastlesson_bot/services/user_service.py]: [get_user_by_tg],
      [get_or_create_user], [can_generate_lesson];
    - [fastlesson_bot/handlers/teacher.py]: the keyboards, the handlers
      that start the two tasks and poll their status, and the handler that
      deletes a block.

    Conventions, in addition to those above.

    - A handler is a function of the state of the bot: the store of the
      tasks, the users, the Redis counters, the queue of task calls and the
      calls made to Telegram, in order.  An exception that leaves a
      function is a [Raise] result.
    - What each call to Telegram does (it succeeds or raises) is the
      environment: the oracle [telegram] of the update, asked once per
      call.  The time of the update, the keys the store draws and whether
      the metrics bookkeeping raises are the environment too.
    - [str(uuid)], the parsing of a UUID by the store, [int()] on a text
      and [sanitize_html] (it rests on a HTML parser) are parameters.
    - Sending a task to the queue is taken to succeed.  Rows of
      [UserMetrics] are left out. *)

(** ** More of Python's strings *)

Module PyText.

(** [str(n)] for an int *)
Definition str_of_int (n : Z) : string := NilZero.string_of_int (Z.to_int n).

(** [s.split(sep)] for a separator of one character *)
Fixpoint split (sep : ascii) (s : string) : list string :=
  match s with
  | EmptyString => [EmptyString]
  | String c r =>
      if Ascii.eqb c sep then EmptyString :: split sep r
      else
        match split sep r with
        | p :: ps => String c p :: ps
        | [] => [String c EmptyString]
        end
  end.

(** [s.split(sep, 1)] *)
Definition split_once (sep : ascii) (s : string) : list string :=
  match PyStr.index sep s with
  | Some i => [PyStr.take i s; PyStr.drop (S i) s]
  | None => [s]
  end.

(** The line feed of ["\n"]. *)
Definition nl : string := String (ascii_of_nat 10) EmptyString.

(** [max(1, min(i, n))] *)
Definition clamp_index (i n : Z) : Z := Z.max 1 (Z.min i n).

End PyText.

(** ** core/models.py: User *)

Module UserRole.
Definition STUDENT : string := "student".
Definition TUTOR : string := "tutor".
Definition SCHOOL_TEACHER : string := "school_teacher".
End UserRole.

Module User.

(** A row of [User]; the table is keyed by [telegram_id], which is
    unique. *)
Record t : Type := {
  id : Z;
  telegram_username : option string;
  is_staff : bool;
  role : string;
  subject : option string;
  level : option string;
  remaining_generations : Z
}.

Definition set_remaining_generations (n : Z) (u : t) : t :=
  {| id := id u; telegram_username := telegram_username u; is_staff := is_staff u;
     role := role u; subject := subject u; level := level u;
     remaining_generations := n |}.

Definition set_role (r : string) (u : t) : t :=
  {| id := id u; telegram_username := telegram_username u; is_staff := is_staff u;
     role := r; subject := subject u; level := level u;
     remaining_generations := remaining_generations u |}.

Definition set_telegram_username (n : option string) (u : t) : t :=
  {| id := id u; telegram_username := n; is_staff := is_staff u;
     role := role u; subject := subject u; level := level u;
     remaining_generations := remaining_generations u |}.

(** [self.save(update_fields=fs)]: the named columns of the stored row
    take the values of the object; [None] when no row is updated (the
    store raises). *)
Definition columns (fs : list string) (obj stored : t) : t :=
  {| id := id stored;
     telegram_username :=
       if has_field "telegram_username" fs then telegram_username obj
       else telegram_username stored;
     is_staff := is_staff stored;
     role := if has_field "role" fs then role obj else role stored;
     subject := subject stored;
     level := level stored;
     remaining_generations :=
       if has_field "remaining_generations" fs then remaining_generations obj
       else remaining_generations stored |}.

Definition save (fs : list string) (telegram_id : string) (obj : t)
    (tbl : gmap string t) : option (gmap string t) :=
  match tbl !! telegram_id with
  | Some stored => Some (<[telegram_id := columns fs obj stored]> tbl)
  | None => None
  end.

(** [decrement_generation(self, count)]: the answer, the object and the
    table after the call; [None] when [save] raises. *)
Definition decrement_generation (telegram_id : string) (self : t) (count : Z)
    (tbl : gmap string t) : option (bool * t * gmap string t) :=
  if count <=? remaining_generations self then
    let self := set_remaining_generations (remaining_generations self - count) self in
    match save ["remaining_generations"] telegram_id self tbl with
    | Some tbl => Some (true, self, tbl)
    | None => None
    end
  else Some (false, self, tbl).

End User.

(** ** fastlesson_bot/services/rate_limit.py *)

(** A key of Redis that holds a counter: its value and the time it
    expires at, if it has one. *)
Record RedisEntry : Type := {
  value : Z;
  expires : option Z
}.

(** The entry of a key at time [now]; an expired key is gone. *)
Definition redis_get (now : Z) (key : string) (r : gmap string RedisEntry) : option RedisEntry :=
  match r !! key with
  | Some e =>
      match expires e with
      | Some t => if t <=? now then None else Some e
      | None => Some e
      end
  | None => None
  end.

(** [r.incr(key)]: a missing key counts from 0; the expiry is kept. *)
Definition redis_incr (now : Z) (key : string) (r : gmap string RedisEntry) 
    : Z * gmap string RedisEntry :=
  match redis_get now key r with
  | Some e =>
      (value e + 1, <[key := {| value := value e + 1; expires := expires e |}]> r)
  | None => (1, <[key := {| value := 1; expires := None |}]> r)
  end.

(** [r.expire(key, seconds)]: a timeout that is not positive deletes the
    key. *)
Definition redis_expire (now : Z) (key : string) (seconds : Z) (r : gmap string RedisEntry) : gmap string RedisEntry :=
  match redis_get now key r with
  | Some e =>
      if 0 <? seconds then <[key := {| value := value e; expires := Some (now + seconds) |}]> r
      else delete key r
  | None => r
  end.

Inductive permit : Type :=
| Allowed
| PermissionDenied (msg : string).

Definition check_rate_limit (now : Z) (user_id : Z) (key : string) (limit window : Z)
    (r : gmap string RedisEntry) : permit * gmap string RedisEntry :=
  let redis_key := "ratelimit:" +:+ key +:+ ":" +:+ PyText.str_of_int user_id in
  let '(current, r) := redis_incr now redis_key r in
  let r := if current =? 1 then redis_expire now redis_key window r else r in
  if limit <? current then
    (PermissionDenied ("Не более " +:+ PyText.str_of_int limit +:+ " запросов за "
                       +:+ PyText.str_of_int window +:+ " секунд"), r)
  else (Allowed, r).

(** ** fastlesson_bot/services/user_service.py *)

Definition get_user_by_tg (telegram_id : Z) (tbl : gmap string User.t) : option User.t :=
  tbl !! PyText.str_of_int telegram_id.

(** [not s] for an optional text *)
Definition falsy_text (s : option string) : bool :=
  match s with
  | None | Some EmptyString => true
  | Some _ => false
  end.

Definition same_text (a b : option string) : bool :=
  match a, b with
  | Some x, Some y => String.eqb x y
  | None, None => true
  | _, _ => false
  end.

(** [get_or_create_user]; [new_id] is the key the store draws for a new
    row. *)
Definition get_or_create_user (new_id : Z) (telegram_id : Z) (role : string)
    (telegram_username : option string) (tbl : gmap string User.t) :
    User.t * gmap string User.t :=
  let key := PyText.str_of_int telegram_id in
  match tbl !! key with
  | None =>
      let user := {| User.id := new_id; User.telegram_username := telegram_username;
                     User.is_staff := false; User.role := role;
                     User.subject := None; User.level := None;
                     User.remaining_generations := 15 |} in
      (user, <[key := user]> tbl)
  | Some stored =>
      let user := stored in
      let changed := false in
      let '(user, changed) :=
        if negb (String.eqb (User.role user) role) then (User.set_role role user, true)
        else (user, changed) in
      let '(user, changed) :=
        if falsy_text telegram_username
           || negb (same_text (User.telegram_username user) telegram_username)
        then (User.set_telegram_username telegram_username user, true)
        else (user, changed) in
      if changed then
        (user, <[key := User.columns ["role"; "telegram_username"] user stored]> tbl)
      else (user, tbl)
  end.

(** ** core/tasks.py: the modes of an improvement *)

Definition MODE_DESCRIPTIONS : list (string * string) := [
  ("complexify", "усложни материал, добавь подробности и дополнительные примеры");
  ("simplify", "упрости материал, сделай его проще и понятнее");
  ("more_tasks", "добавь больше заданий и упражнений по теме");
  ("remove_tasks", "убери часть заданий и упражнений, оставив только ключевые")
].

(** [d.get(k, default)] on a table of texts *)
Fixpoint text_get (k : string) (d : string) (m : list (string * string)) : string :=
  match m with
  | [] => d
  | (k', v) :: rest => if String.eqb k' k then v else text_get k d rest
  end.

(** [human_mode = MODE_DESCRIPTIONS.get(mode, mode)] *)
Definition human_mode (mode : string) : string := text_get mode mode MODE_DESCRIPTIONS.

(** ** fastlesson_bot/handlers/teacher.py: keyboards *)

Record Button : Type := {
  text : string;
  callback_data : string
}.

(** An [InlineKeyboardBuilder]: the buttons added, in order, and the
    size given to [adjust]. *)
Module InlineKeyboardBuilder.
Record t : Type := {
  buttons : list Button;
  adjusted : option nat
}.
Definition new : t := {| buttons := []; adjusted := None |}.
Definition button (text callback_data : string) (kb : t) : t :=
  {| buttons := buttons kb ++ [{| text := text; callback_data := callback_data |}];
     adjusted := adjusted kb |}.
Definition adjust (n : nat) (kb : t) : t :=
  {| buttons := buttons kb; adjusted := Some n |}.
End InlineKeyboardBuilder.

(** A reply markup: [kb.as_markup()] of a builder, or the rows of an
    [InlineKeyboardMarkup] written out. *)
Inductive Markup : Type :=
| as_markup (kb : InlineKeyboardBuilder.t)
| InlineKeyboardMarkup (inline_keyboard : list (list Button)).

(** The buttons a markup shows. *)
Definition shown (m : Markup) : list Button :=
  match m with
  | as_markup kb => InlineKeyboardBuilder.buttons kb
  | InlineKeyboardMarkup rows => concat rows
  end.

Definition lesson_actions_kb (lesson_id : string) (status : option GenerationStatus.t) :
    InlineKeyboardBuilder.t :=
  let kb := InlineKeyboardBuilder.new in
  let kb :=
    match status with
    | None =>
        let kb := InlineKeyboardBuilder.button "🚀 Сгенерировать" ("lesson_generate:" +:+ lesson_id) kb in
        let kb := InlineKeyboardBuilder.button "✏️ Изменить тему" ("lesson_change_title:" +:+ lesson_id) kb in
        let kb := InlineKeyboardBuilder.button "❌ Удалить урок" ("lesson_delete:" +:+ lesson_id) kb in
        InlineKeyboardBuilder.button "🏠 На главную" "main_menu" kb
    | Some status =>
        if GenerationStatus.total status =? 0 then
          let kb := InlineKeyboardBuilder.button "🚀 Сгенерировать" ("lesson_generate:" +:+ lesson_id) kb in
          let kb := InlineKeyboardBuilder.button "✏️ Изменить тему" ("lesson_change_title:" +:+ lesson_id) kb in
          let kb := InlineKeyboardBuilder.button "❌ Удалить урок" ("lesson_delete:" +:+ lesson_id) kb in
          InlineKeyboardBuilder.button "🏠 На главную" "main_menu" kb
        else if GenerationStatus.completed status <? GenerationStatus.total status then
          let kb := InlineKeyboardBuilder.button "🔄 Обновить статус" ("lesson_status:" +:+ lesson_id) kb in
          InlineKeyboardBuilder.button "🏠 На главную" "main_menu" kb
        else
          let kb := InlineKeyboardBuilder.button "👀 Посмотреть" ("lesson_view:" +:+ lesson_id +:+ ":1") kb in
          let kb := InlineKeyboardBuilder.button "📥 Скачать" ("lesson_download:" +:+ lesson_id) kb in
          let kb := InlineKeyboardBuilder.button "✏️ Изменить тему" ("lesson_change_title:" +:+ lesson_id) kb in
          let kb := InlineKeyboardBuilder.button "❌ Удалить урок" ("lesson_delete:" +:+ lesson_id) kb in
          InlineKeyboardBuilder.button "🏠 На главную" "main_menu" kb
    end in
  InlineKeyboardBuilder.adjust 2 kb.

Definition navigation_kb_for_block (lesson_id : string) (block_index total_blocks : Z) :
    InlineKeyboardBuilder.t :=
  let kb := InlineKeyboardBuilder.new in
  let kb :=
    if 1 <? block_index then
      InlineKeyboardBuilder.button "⬅️ Назад"
        ("lesson_view:" +:+ lesson_id +:+ ":" +:+ PyText.str_of_int (block_index - 1)) kb
    else
      InlineKeyboardBuilder.button "ℹ️ Об уроке" ("lesson_detail:" +:+ lesson_id) kb in
  let kb :=
    if block_index <? total_blocks then
      InlineKeyboardBuilder.button "➡️ Далее"
        ("lesson_view:" +:+ lesson_id +:+ ":" +:+ PyText.str_of_int (block_index + 1)) kb
    else
      InlineKeyboardBuilder.button "ℹ️ Об уроке" ("lesson_detail:" +:+ lesson_id) kb in
  let kb := InlineKeyboardBuilder.button "⚙️ Действия"
              ("lesson_actions:" +:+ lesson_id +:+ ":" +:+ PyText.str_of_int block_index) kb in
  let kb := InlineKeyboardBuilder.button "📥 Скачать" ("lesson_download:" +:+ lesson_id) kb in
  let kb := InlineKeyboardBuilder.button "🏠 На главную" "main_menu" kb in
  InlineKeyboardBuilder.adjust 2 kb.

Definition actions_kb_for_block (lesson_id : string) (block_index : Z) :
    InlineKeyboardBuilder.t :=
  let kb := InlineKeyboardBuilder.new in
  let kb := InlineKeyboardBuilder.button "✏️ Редактировать"
              ("lesson_edit:" +:+ lesson_id +:+ ":" +:+ PyText.str_of_int block_index) kb in
  let kb := InlineKeyboardBuilder.button "🤖 Улучшить ИИ"
              ("lesson_ai_menu:" +:+ lesson_id +:+ ":" +:+ PyText.str_of_int block_index) kb in
  let kb := InlineKeyboardBuilder.button "❌ Удалить"
              ("lesson_delete_block:" +:+ lesson_id +:+ ":" +:+ PyText.str_of_int block_index) kb in
  let kb := InlineKeyboardBuilder.button "◀️ Назад к блоку"
              ("lesson_view:" +:+ lesson_id +:+ ":" +:+ PyText.str_of_int block_index) kb in
  InlineKeyboardBuilder.adjust 2 kb.

Definition ai_menu_kb (lesson_id : string) (block_index : Z) : InlineKeyboardBuilder.t :=
  let kb := InlineKeyboardBuilder.new in
  let kb := InlineKeyboardBuilder.button "🔼 Усложнить"
              ("lesson_ai:" +:+ lesson_id +:+ ":" +:+ PyText.str_of_int block_index
               +:+ ":complexify") kb in
  let kb := InlineKeyboardBuilder.button "🔽 Упростить"
              ("lesson_ai:" +:+ lesson_id +:+ ":" +:+ PyText.str_of_int block_index
               +:+ ":simplify") kb in
  let kb := InlineKeyboardBuilder.button "➕ Больше заданий"
              ("lesson_ai:" +:+ lesson_id +:+ ":" +:+ PyText.str_of_int block_index
               +:+ ":more_tasks") kb in
  let kb := InlineKeyboardBuilder.button "➖ Убрать задания"
              ("lesson_ai:" +:+ lesson_id +:+ ":" +:+ PyText.str_of_int block_index
               +:+ ":remove_tasks") kb in
  let kb := InlineKeyboardBuilder.button "◀️ Назад"
              ("lesson_actions:" +:+ lesson_id +:+ ":" +:+ PyText.str_of_int block_index) kb in
  InlineKeyboardBuilder.adjust 2 kb.

Definition MODE_NAMES_RU : list (string * string) := [
  ("complexify", "Усложнить");
  ("simplify", "Упростить");
  ("more_tasks", "Добавить задания");
  ("remove_tasks", "Убрать задания")
].

(** ** The state of the bot and the effects of a handler *)

(** A call to Telegram. *)
Inductive Call : Type :=
| callback_answer (text : option string) (show_alert : bool)
| edit_reply_markup (reply_markup : option Markup)
| edit_text (text : string) (parse_mode : option string) (reply_markup : option Markup)
| message_answer (text : string) (parse_mode : option string) (reply_markup : option Markup).

(** What becomes of a call: it succeeds, or it raises a
    [TelegramBadRequest] (saying "message is not modified", or something
    else), or it raises another exception. *)
Inductive TgReply : Type :=
| TgOk
| TgNotModified
| TgBadRequest
| TgError.

Inductive exn : Type :=
| TelegramBadRequest (not_modified : bool)
| TelegramError
| ValueError
| IndexError
| AttributeError
| ValidationError
| IntegrityError
| DoesNotExist
| DatabaseError.

(** A task sent to the queue with [delay]. *)
Inductive TaskCall : Type :=
| generate_lesson_task_delay (lesson_id : string)
| improve_block_task_delay (block_id : N) (mode : string) (improve_id : Z).

Record Bot : Type := {
  store : Sys;
  creators : N -> Z;                 (* [Lesson.creator_id], by lesson *)
  users : gmap string User.t;        (* by [telegram_id] *)
  redis : gmap string RedisEntry;
  queue : list TaskCall;
  sent : list (Call * TgReply)       (* the calls to Telegram so far, and their fate *)
}.

(** One update and its environment. *)
Record Update : Type := {
  now : Z;
  from_user_id : Z;
  from_username : option string;
  data : string;
  telegram : nat -> TgReply;         (* the fate of the n-th call to Telegram *)
  new_user_id : Z;                   (* the key of a new [User] row *)
  new_improve_id : Z;                (* the key of a new [ImproveStatus] row *)
  task_id : string;                  (* the id of a task sent to the queue *)
  metrics_fail : bool                (* the metrics bookkeeping raises *)
}.

Definition with_store (s : Sys) (b : Bot) : Bot :=
  {| store := s; creators := creators b; users := users b; redis := redis b;
     queue := queue b; sent := sent b |}.

Definition with_users (u : gmap string User.t) (b : Bot) : Bot :=
  {| store := store b; creators := creators b; users := u; redis := redis b;
     queue := queue b; sent := sent b |}.

Definition with_redis (r : gmap string RedisEntry) (b : Bot) : Bot :=
  {| store := store b; creators := creators b; users := users b; redis := r;
     queue := queue b; sent := sent b |}.

Definition with_queue (q : list TaskCall) (b : Bot) : Bot :=
  {| store := store b; creators := creators b; users := users b; redis := redis b;
     queue := q; sent := sent b |}.

Definition with_sent (l : list (Call * TgReply)) (b : Bot) : Bot :=
  {| store := store b; creators := creators b; users := users b; redis := redis b;
     queue := queue b; sent := l |}.

(** How a function ends: it returns, or an exception leaves it. *)
Inductive res (A : Type) : Type :=
| Ret (a : A)
| Raise (e : exn).

Arguments Ret {A} a.
Arguments Raise {A} e.

Definition M (A : Type) : Type := Bot -> res A * Bot.

Definition ret {A : Type} (a : A) : M A := fun b => (Ret a, b).

Definition raise {A : Type} (e : exn) : M A := fun b => (Raise e, b).

Definition bind {A B : Type} (k : A -> M B) (m : M A) : M B :=
  fun b =>
    match m b with
    | (Ret a, b) => k a b
    | (Raise e, b) => (Raise e, b)
    end.

#[global] Instance M_ret : MRet M := @ret.
#[global] Instance M_bind : MBind M := @bind.

(** [try: m except TelegramBadRequest: h] *)
Definition except_bad_request {A : Type} (m h : M A) : M A :=
  fun b =>
    match m b with
    | (Raise (TelegramBadRequest _), b) => h b
    | r => r
    end.

Definition get : M Bot := fun b => (Ret b, b).

Definition modify (f : Bot -> Bot) : M unit := fun b => (Ret tt, f b).

(** ** fastlesson_bot/services/user_service.py: can_generate_lesson *)

(** [can_generate_lesson(tg_id, lesson)]; the lesson is given by its
    [creator_id], [None] standing for a lesson that is [None]. *)
Definition can_generate_lesson (tg_id : Z) (creator_id : option Z)
    (tbl : gmap string User.t) : res bool :=
  match tbl !! PyText.str_of_int tg_id with
  | None => Ret false
  | Some user =>
      match creator_id with
      | None => Raise AttributeError           (* [lesson.creator_id] on [None] *)
      | Some creator_id => Ret (creator_id =? User.id user)
      end
  end.

(** ** Calls to Telegram *)

(** The call is made and logged with its fate. *)
Definition tg (U : Update) (c : Call) : M TgReply :=
  fun b =>
    let r := telegram U (length (sent b)) in
    (Ret r, with_sent (sent b ++ [(c, r)]) b).

(** A call whose exceptions are not handled. *)
Definition call (U : Update) (c : Call) : M unit :=
  r ← tg U c;
  match r with
  | TgOk => ret tt
  | TgNotModified => raise (TelegramBadRequest true)
  | TgBadRequest => raise (TelegramBadRequest false)
  | TgError => raise TelegramError
  end.

(** [try: await c except Exception: pass] *)
Definition quietly (U : Update) (c : Call) : M unit :=
  _ ← tg U c; ret tt.

Definition safe_edit_text (U : Update) (text : string) (parse_mode : option string)
    (reply_markup : option Markup) : M unit :=
  r ← tg U (edit_text text parse_mode reply_markup);
  match r with
  | TgOk => ret tt
  | TgNotModified => ret tt                   (* "message is not modified" *)
  | TgBadRequest => raise (TelegramBadRequest false)
  | TgError => raise TelegramError
  end.

(** [try: await sync_to_async(check_rate_limit)(...) except PermissionDenied as e] *)
Definition rate_limit (U : Update) (key : string) (limit window : Z) : M permit :=
  fun b =>
    let '(p, r) := check_rate_limit (now U) (from_user_id U) key limit window (redis b) in
    (Ret p, with_redis r b).

(** The three statements several handlers start with:
    [parts = callback.data.split(":")], [lesson_id = parts[1] if
    len(parts) > 1 else None], [block_index = int(parts[2]) if len(parts) >
    2 else 1]. *)
Definition block_request (py_int : string -> option Z) (data : string) :
    res (option string * Z) :=
  let parts := PyText.split ":" data in
  let lesson_id := parts !! 1%nat in
  match parts !! 2%nat with
  | Some p =>
      match py_int p with
      | Some block_index => Ret (lesson_id, block_index)
      | None => Raise ValueError
      end
  | None => Ret (lesson_id, 1)
  end.

Section Handlers.

(** [str(lesson.id)] and the parsing of the text of a UUID by the store:
    [None] when the text is not a UUID (a [ValidationError]). *)
Variable uuid_str : N -> string.
Variable uuid_parse : string -> option N.
(** [int(s)]: [None] for a [ValueError]. *)
Variable py_int : string -> option Z.
Variable sanitize_html : option string -> string.
(** [lesson.blocks.order_by("order")]: the blocks of a lesson by order;
    the store breaks ties as it likes. *)
Variable order_by_order : N -> gmap N LessonBlock.t -> list (N * LessonBlock.t).

Definition safe_get_lesson (lesson_id : string) : M (option (N * Lesson.t)) :=
  match uuid_parse lesson_id with
  | None => raise ValidationError
  | Some k =>
      b ← get;
      match lessons (db (store b)) !! k with
      | Some lesson => ret (Some (k, lesson))
      | None => ret None
      end
  end.

(** [await sync_to_async(can_generate_lesson)(callback.from_user.id, lesson)] *)
Definition can_generate (U : Update) (lesson : option (N * Lesson.t)) : M bool :=
  fun b =>
    (can_generate_lesson (from_user_id U) (option_map (fun l => creators b l.1) lesson)
       (users b), b).

(** [try: await get_or_create_user(...) except Exception: pass] *)
Definition touch_user (U : Update) : M unit :=
  modify (fun b =>
    with_users
      (get_or_create_user (new_user_id U) (from_user_id U) UserRole.SCHOOL_TEACHER
         (from_username U) (users b)).2 b).

(** [await sync_to_async(user.decrement_generation)()] *)
Definition charge (U : Update) (user : User.t) : M unit :=
  b ← get;
  match User.decrement_generation (PyText.str_of_int (from_user_id U)) user 1 (users b) with
  | Some (_, _, tbl) => modify (with_users tbl)
  | None => raise DatabaseError
  end.

(** [metrics = track_user_activity(user)] and
    [metrics.update_last_generated()] *)
Definition track_generation (U : Update) : M unit :=
  if metrics_fail U then raise AttributeError else ret tt.

(** The screen shown when no generation is left; [home] adds the button
    of the main menu. *)
Definition out_of_generations (U : Update) (home : bool) : M unit :=
  let kb := InlineKeyboardBuilder.new in
  let kb := InlineKeyboardBuilder.button "💎 Пополнить генерации" "shop" kb in
  let kb := if home then InlineKeyboardBuilder.button "🏠 На главную" "main_menu" kb else kb in
  let kb := InlineKeyboardBuilder.adjust 1 kb in
  quietly U (edit_reply_markup None);;
  safe_edit_text U
    ("⚠️ У вас закончились генерации." +:+ PyText.nl +:+ PyText.nl +:+
     "Пополните генерации <b>и продолжайте создавать задания!</b>")
    (Some "HTML") (Some (as_markup kb));;
  call U (callback_answer None false).

(** [GenerationStatus.objects.create(lesson=lesson, total=0, completed=0)] *)
Definition create_generation_status (k : N) : M unit :=
  b ← get;
  match generation_statuses (db (store b)) !! k with
  | Some _ => raise IntegrityError             (* the lesson has its row: one-to-one *)
  | None =>
      let r := {| GenerationStatus.total := 0; GenerationStatus.completed := 0;
                  GenerationStatus.status := GenerationStatus.PENDING |} in
      modify (with_store
                (with_db
                   (with_generation_statuses
                      (<[k := r]> (generation_statuses (db (store b)))) (db (store b)))
                   (store b)))
  end.

Definition lesson_generate (U : Update) : M unit :=
  p ← rate_limit U "lesson_generate" 1 30;
  match p with
  | PermissionDenied msg => call U (callback_answer (Some ("⚠️ " +:+ msg)) false)
  | Allowed =>
      touch_user U;;
      match PyText.split_once ":" (data U) !! 1%nat with
      | None => raise IndexError
      | Some lesson_id =>
          lesson ← safe_get_lesson lesson_id;
          b ← get;
          let user := get_user_by_tg (from_user_id U) (users b) in
          allowed ← can_generate U lesson;
          if negb allowed then call U (callback_answer (Some "⚠️ Недостаточно прав") true)
          else
            match user with
            | None => raise AttributeError     (* [user.remaining_generations] on [None] *)
            | Some user =>
                if User.remaining_generations user <=? 0 then out_of_generations U false
                else
                  charge U user;;
                  track_generation U;;
                  match lesson with
                  | None => call U (callback_answer (Some "⚠️ Урок не найден") true)
                  | Some (k, lesson) =>
                      create_generation_status k;;
                      quietly U (edit_reply_markup None);;
                      modify (fun b =>
                        with_queue (queue b ++ [generate_lesson_task_delay (uuid_str k)]) b);;
                      let kb := InlineKeyboardBuilder.new in
                      let kb := InlineKeyboardBuilder.button "🔄 Обновить статус"
                                  ("lesson_status:" +:+ uuid_str k) kb in
                      let kb := InlineKeyboardBuilder.button "🏠 На главную" "main_menu" kb in
                      let kb := InlineKeyboardBuilder.adjust 1 kb in
                      safe_edit_text U
                        ("⏳ Генерация урока «" +:+ sanitize_html (Some (Lesson.title lesson))
                         +:+ "» началась...")
                        (Some "HTML") (Some (as_markup kb));;
                      call U (callback_answer None false)
                  end
            end
      end
  end.

(** The text and the button of the status screen. *)
Definition status_text (status : GenerationStatus.t) : string :=
  if (GenerationStatus.total status =? 0) && (GenerationStatus.completed status =? 0) then
    "⏳ Начинаем генерацию. Это займет меньше двух минут."
  else if GenerationStatus.completed status <? GenerationStatus.total status then
    "⏳ Генерация идёт..." +:+ PyText.nl +:+ "Готово: "
    +:+ PyText.str_of_int (GenerationStatus.completed status) +:+ "/"
    +:+ PyText.str_of_int (GenerationStatus.total status)
  else "✅ Генерация завершена!".

Definition status_kb (lesson_id : string) (status : GenerationStatus.t) :
    InlineKeyboardBuilder.t :=
  let kb := InlineKeyboardBuilder.new in
  let kb :=
    if (GenerationStatus.completed status =? GenerationStatus.total status)
       && (0 <? GenerationStatus.total status)
    then InlineKeyboardBuilder.button "👀 Посмотреть" ("lesson_view:" +:+ lesson_id +:+ ":1") kb
    else InlineKeyboardBuilder.button "🔄 Обновить статус" ("lesson_status:" +:+ lesson_id) kb in
  let kb := InlineKeyboardBuilder.button "На главную" "main_menu" kb in
  InlineKeyboardBuilder.adjust 1 kb.

Definition check_lesson_status (U : Update) : M unit :=
  p ← rate_limit U "update_status" 25 30;
  match p with
  | PermissionDenied msg => call U (callback_answer (Some ("⚠️ " +:+ msg)) false)
  | Allowed =>
      match PyText.split_once ":" (data U) !! 1%nat with
      | None => raise IndexError
      | Some lesson_id =>
          match uuid_parse lesson_id with
          | None => raise ValidationError
          | Some k =>
              b ← get;
              match generation_statuses (db (store b)) !! k with
              | None => call U (callback_answer (Some "⚠️ Статус не найден") true)
              | Some status =>
                  quietly U (edit_reply_markup None);;
                  safe_edit_text U (status_text status) None
                    (Some (as_markup (status_kb lesson_id status)));;
                  call U (callback_answer None false)
              end
          end
      end
  end.

(** [ImproveStatus.objects.create(block_id=..., mode=mode, status=PENDING)] *)
Definition create_improve_status (U : Update) (block_id : N) (mode : string) :
    M (Z * ImproveStatus.t) :=
  b ← get;
  match improve_statuses (db (store b)) !! new_improve_id U with
  | Some _ => raise IntegrityError
  | None =>
      let st := {| ImproveStatus.block := block_id; ImproveStatus.mode := mode;
                   ImproveStatus.status := ImproveStatus.PENDING;
                   ImproveStatus.task_id := None;
                   ImproveStatus.result_content := None |} in
      modify (with_store
                (with_db
                   (with_improve_statuses
                      (<[new_improve_id U := st]> (improve_statuses (db (store b))))
                      (db (store b)))
                   (store b)));;
      ret (new_improve_id U, st)
  end.

(** [improve_status.save(update_fields=["task_id"])] *)
Definition save_task_id (improve_id : Z) (obj : ImproveStatus.t) : M unit :=
  b ← get;
  match improve_statuses (db (store b)) !! improve_id with
  | None => raise DatabaseError
  | Some _ => modify (with_store (save_improve_status ["task_id"] improve_id obj (store b)))
  end.

Definition lesson_ai_apply (U : Update) : M unit :=
  let parts := PyText.split ":" (data U) in
  if (length parts <? 4)%nat then call U (callback_answer (Some "Неверные данные") true)
  else
    p ← rate_limit U "start_generation" 1 30;
    match p with
    | PermissionDenied msg => call U (callback_answer (Some ("⚠️ " +:+ msg)) false)
    | Allowed =>
        match parts !! 1%nat, parts !! 2%nat, parts !! 3%nat with
        | Some lesson_id, Some block_index_s, Some mode =>
            match py_int block_index_s with
            | None => raise ValueError
            | Some block_index =>
                lesson ← safe_get_lesson lesson_id;
                match lesson with
                | None => call U (callback_answer (Some "⚠️ Урок не найден") true)
                | Some (k, _) =>
                    allowed ← can_generate U lesson;
                    if negb allowed then
                      call U (callback_answer (Some "⚠️ Недостаточно прав") true)
                    else
                      b ← get;
                      let blocks := order_by_order k (lesson_blocks (db (store b))) in
                      match blocks with
                      | [] => call U (callback_answer (Some "⚠️ Урок пустой") true)
                      | _ :: _ =>
                          match get_user_by_tg (from_user_id U) (users b) with
                          | None => raise AttributeError
                          | Some user =>
                              if User.remaining_generations user <=? 0 then
                                out_of_generations U true
                              else
                                charge U user;;
                                let block_index :=
                                  PyText.clamp_index block_index (Z.of_nat (length blocks)) in
                                match blocks !! Z.to_nat (block_index - 1) with
                                | None => raise IndexError
                                | Some (block_id, _) =>
                                    created ← create_improve_status U block_id mode;
                                    let '(improve_id, improve_status) := created in
                                    modify (fun b =>
                                      with_queue
                                        (queue b ++ [improve_block_task_delay block_id mode improve_id])
                                        b);;
                                    save_task_id improve_id
                                      (improve_set_task_id (task_id U) improve_status);;
                                    quietly U (edit_reply_markup None);;
                                    let mode_ru := text_get mode mode MODE_NAMES_RU in
                                    call U
                                      (message_answer
                                         ("⚙️ Улучшаем блок (" +:+ mode_ru +:+ ")." +:+ PyText.nl
                                          +:+ "Нажмите «🔄 Обновить статус», чтобы проверить готовность.")
                                         None
                                         (Some (InlineKeyboardMarkup
                                                  [[{| text := "🔄 Обновить статус";
                                                       callback_data :=
                                                         "improve_status:"
                                                         +:+ PyText.str_of_int improve_id |}]])));;
                                    call U (callback_answer None false)
                                end
                          end
                      end
                end
            end
        | _, _, _ => raise IndexError
        end
    end.

Definition improve_status_handler (U : Update) : M unit :=
  match PyText.split ":" (data U) with
  | [_; improve_id] =>
      p ← rate_limit U "update_status" 10 30;
      match p with
      | PermissionDenied msg => call U (callback_answer (Some ("⚠️ " +:+ msg)) false)
      | Allowed =>
          match py_int improve_id with
          | None => raise ValueError
          | Some improve_id =>
              b ← get;
              match improve_statuses (db (store b)) !! improve_id with
              | None => raise DoesNotExist
              | Some improve_status =>
                  match lesson_blocks (db (store b)) !! ImproveStatus.block improve_status with
                  | None => raise DoesNotExist
                  | Some block =>
                      let lesson_id := uuid_str (LessonBlock.lesson block) in
                      let kb := InlineKeyboardBuilder.new in
                      let kb :=
                        match ImproveStatus.status improve_status with
                        | ImproveStatus.PENDING | ImproveStatus.IN_PROGRESS =>
                            InlineKeyboardBuilder.button "🔄 Обновить статус"
                              ("improve_status:" +:+ PyText.str_of_int improve_id) kb
                        | _ => kb
                        end in
                      let kb := InlineKeyboardBuilder.button "🔙 К уроку"
                                  ("lesson_detail:" +:+ lesson_id) kb in
                      let kb := InlineKeyboardBuilder.button "🏠 На главную" "main_menu" kb in
                      let kb := InlineKeyboardBuilder.adjust 1 kb in
                      match ImproveStatus.status improve_status with
                      | ImproveStatus.DONE =>
                          call U
                            (edit_text
                               ("✅ Блок обновлён!" +:+ PyText.nl +:+ PyText.nl
                                +:+ sanitize_html (ImproveStatus.result_content improve_status))
                               (Some "HTML") (Some (as_markup kb)))
                      | ImproveStatus.FAILED =>
                          call U
                            (edit_text "❌ Ошибка при улучшении блока" None
                               (Some (as_markup kb)))
                      | _ =>
                          call U (callback_answer (Some "⚙️ Задача в процессе...") false);;
                          quietly U (edit_reply_markup (Some (as_markup kb)))
                      end
                  end
              end
          end
      end
  | _ => raise ValueError                      (* the unpacking of [split(":")] *)
  end.

Definition lesson_view_callback_simulate (U : Update) (lesson_id : string)
    (block_index : Z) : M unit :=
  lesson ← safe_get_lesson lesson_id;
  match lesson with
  | None => call U (message_answer "⚠️ Урок не найден" None None)
  | Some (k, lesson) =>
      b ← get;
      let blocks := order_by_order k (lesson_blocks (db (store b))) in
      let total_blocks := Z.of_nat (length blocks) in
      if total_blocks =? 0 then call U (message_answer "⚠️ Урок пустой" None None)
      else
        let block_index := PyText.clamp_index block_index total_blocks in
        match blocks !! Z.to_nat (block_index - 1) with
        | None => raise IndexError
        | Some (_, block) =>
            let text :=
              "📘 <b>Урок:</b> " +:+ sanitize_html (Some (Lesson.title lesson))
              +:+ PyText.nl +:+ PyText.nl
              +:+ "<b>Блок " +:+ PyText.str_of_int (LessonBlock.order block) +:+ "</b> — "
              +:+ sanitize_html (Some (LessonBlock.title block))
              +:+ PyText.nl +:+ PyText.nl
              +:+ sanitize_html (Some (LessonBlock.content block))
              +:+ PyText.nl +:+ PyText.nl
              +:+ "<i>Блок " +:+ PyText.str_of_int block_index +:+ "/"
              +:+ PyText.str_of_int total_blocks +:+ "</i>" in
            let kb := navigation_kb_for_block (uuid_str k) block_index total_blocks in
            except_bad_request
              (safe_edit_text U text (Some "HTML") (Some (as_markup kb)))
              (call U (message_answer text (Some "HTML") (Some (as_markup kb))))
        end
  end.

(** [block_to_delete.delete()]: the improvement jobs of the block go with
    it ([on_delete=CASCADE]). *)
Definition delete_block (k : N) (d : Db) : Db :=
  with_improve_statuses
    (filter (fun e => ImproveStatus.block e.2 <> k) (improve_statuses d))
    (with_lesson_blocks (delete k (lesson_blocks d)) d).

(** The loop that renumbers the blocks left: [b.save()] writes the whole
    row; [fails] tells the saves the store refuses. *)
Fixpoint save_orders (fails : N -> bool) (i : Z) (remaining : list (N * LessonBlock.t))
    (tbl : gmap N LessonBlock.t) : res unit * gmap N LessonBlock.t :=
  match remaining with
  | [] => (Ret tt, tbl)
  | (k, b) :: rest =>
      if LessonBlock.order b =? i then save_orders fails (i + 1) rest tbl
      else if fails k then (Raise DatabaseError, tbl)
      else save_orders fails (i + 1) rest (<[k := LessonBlock.set_order i b]> tbl)
  end.

(** The end of [lesson_delete_block]: what the user is told once the
    blocks left are renumbered. *)
Definition lesson_delete_block_reply (U : Update) (k : N) (lesson : Lesson.t)
    (block_index : Z) (remaining : list (N * LessonBlock.t)) : M unit :=
  let new_total := Z.of_nat (length remaining) in
  if new_total =? 0 then
    call U (message_answer "✅ Блок удалён. Урок теперь пустой." None None);;
    except_bad_request
      (safe_edit_text U
         ("📘 <b>Урок:</b> " +:+ sanitize_html (Some (Lesson.title lesson))
          +:+ PyText.nl +:+ PyText.nl +:+ "Урок пуст.")
         (Some "HTML") None)
      (ret tt);;
    call U (callback_answer None false)
  else
    let new_index := Z.min block_index new_total in
    quietly U (edit_reply_markup None);;
    call U (callback_answer (Some "✅ Блок удалён") false);;
    lesson_view_callback_simulate U (uuid_str k) new_index.

Definition lesson_delete_block (fails : N -> bool) (U : Update) : M unit :=
  match block_request py_int (data U) with
  | Raise e => raise e
  | Ret (lesson_id, block_index) =>
      match lesson_id with
      | None | Some EmptyString => call U (callback_answer (Some "⚠️ Неверные данные") true)
      | Some lesson_id =>
          lesson ← safe_get_lesson lesson_id;
          match lesson with
          | None => call U (callback_answer (Some "⚠️ Урок не найден") true)
          | Some (k, lesson) =>
              b ← get;
              let blocks := order_by_order k (lesson_blocks (db (store b))) in
              let total_blocks := Z.of_nat (length blocks) in
              if total_blocks =? 0 then call U (callback_answer (Some "⚠️ Урок пустой") true)
              else
                let block_index := PyText.clamp_index block_index total_blocks in
                match blocks !! Z.to_nat (block_index - 1) with
                | None => raise IndexError
                | Some (block_id, _) =>
                    modify (fun b => with_store (with_db (delete_block block_id (db (store b)))
                                                   (store b)) b);;
                    b ← get;
                    let remaining := order_by_order k (lesson_blocks (db (store b))) in
                    let '(r, tbl) := save_orders fails 1 remaining (lesson_blocks (db (store b))) in
                    modify (fun b => with_store (with_db (with_lesson_blocks tbl (db (store b)))
                                                   (store b)) b);;
                    match r with
                    | Raise e => raise e
                    | Ret _ => lesson_delete_block_reply U k lesson block_index remaining
                    end
                end
          end
      end
  end.

End Handlers.

(** * Vocabulary: the users and the rate limit *)

(** Successive calls of [decrement_generation] for one user, each on the
    row as stored, with the counts [counts]: the answers, and the table
    they leave.  The calls stop when the row is missing. *)
Fixpoint spend (telegram_id : string) (counts : list Z) (tbl : gmap string User.t) :
    list bool * gmap string User.t :=
  match counts with
  | [] => ([], tbl)
  | count :: rest =>
      match tbl !! telegram_id with
      | None => ([], tbl)
      | Some self =>
          match User.decrement_generation telegram_id self count tbl with
          | Some (ok, _, tbl) =>
              let '(oks, tbl) := spend telegram_id rest tbl in (ok :: oks, tbl)
          | None => ([], tbl)
          end
      end
  end.

(** The sum of the counts that were granted. *)
Fixpoint granted (counts : list Z) (oks : list bool) : Z :=
  match counts, oks with
  | count :: counts, ok :: oks => (if ok then count else 0) + granted counts oks
  | _, _ => 0
  end.

(** The answers expected of successive calls on a balance: a count is
    granted exactly when the balance at that time covers it. *)
Fixpoint covered (balance : Z) (counts : list Z) : list bool :=
  match counts with
  | [] => []
  | count :: rest =>
      if count <=? balance then true :: covered (balance - count) rest
      else false :: covered balance rest
  end.

(** Calls of [check_rate_limit] by one user for one operation at the times
    [times]: whether each is admitted, and the counters they leave. *)
Fixpoint rate_limit_calls (user_id : Z) (key : string) (limit window : Z)
    (times : list Z) (r : gmap string RedisEntry) : list bool * gmap string RedisEntry :=
  match times with
  | [] => ([], r)
  | now :: rest =>
      let '(p, r) := check_rate_limit now user_id key limit window r in
      let '(ps, r) := rate_limit_calls user_id key limit window rest r in
      (match p with Allowed => true | PermissionDenied _ => false end :: ps, r)
  end.

(** The key of the counter of a user for an operation. *)
Definition redis_key (key : string) (user_id : Z) : string :=
  "ratelimit:" +:+ key +:+ ":" +:+ PyText.str_of_int user_id.

(** * Vocabulary: the keyboards *)

(** The keyboard has a button that sends [data]. *)
Definition offers (data : string) (kb : InlineKeyboardBuilder.t) : Prop :=
  data ∈ map callback_data (InlineKeyboardBuilder.buttons kb).

(** What the handlers rely on in [int()]: it reads back what [str()]
    writes. *)
Definition reads_ints (py_int : string -> option Z) : Prop :=
  forall n, py_int (PyText.str_of_int n) = Some n.

(** The data of the buttons of a keyboard that carry the label [t]. *)
Definition labelled (t : string) (kb : InlineKeyboardBuilder.t) : list string :=
  map callback_data
    (List.filter (fun b => String.eqb (text b) t) (InlineKeyboardBuilder.buttons kb)).

(** The total of the status row of a lesson before a run; 0 when the
    lesson has no row yet (the default of [get_or_create]). *)
Definition old_total (lesson_id : N) (s : Sys) : Z :=
  match generation_statuses (db s) !! lesson_id with
  | Some r => GenerationStatus.total r
  | None => 0
  end.

(** The rows a run of [generate_lesson_task] can leave, on a row whose
    total was [old] before the run: DONE with every block counted;
    IN_PROGRESS with a [total] that [completed] has reached, which takes a
    refused write of [completed]; FAILED with hints left to process; or
    FAILED before the outline was accepted. *)
Definition left_by_run (accepted : Prop) (old : Z) (r : GenerationStatus.t) : Prop :=
  0 <= GenerationStatus.completed r /\
  0 <= GenerationStatus.total r /\
  (GenerationStatus.status r = GenerationStatus.DONE /\
   GenerationStatus.completed r = GenerationStatus.total r
   \/
   GenerationStatus.status r = GenerationStatus.IN_PROGRESS /\
   GenerationStatus.total r <= GenerationStatus.completed r /\
   ~ accepted
   \/
   GenerationStatus.status r = GenerationStatus.FAILED /\
   0 < GenerationStatus.total r /\
   (accepted -> GenerationStatus.completed r < GenerationStatus.total r)
   \/
   GenerationStatus.status r = GenerationStatus.FAILED /\
   GenerationStatus.completed r = 0 /\
   GenerationStatus.total r = old).

(** The row of a user after [lesson_generate] has taken a generation:
    [get_or_create_user] has set the role and the username of the update,
    [decrement_generation] has taken 1 from the balance. *)
Definition charged (U : Update) (user : User.t) : User.t :=
  User.set_remaining_generations (User.remaining_generations user - 1)
    (User.set_telegram_username (from_username U)
       (User.set_role UserRole.SCHOOL_TEACHER user)).

(** What [lesson.blocks.order_by("order")] is taken to return, whatever
    the order among blocks with the same [order]: the rows of the lesson,
    each once. *)
Definition lists_blocks
    (order_by_order : N -> gmap N LessonBlock.t -> list (N * LessonBlock.t)) : Prop :=
  forall lesson_id tbl,
    NoDup (order_by_order lesson_id tbl).*1 /\
    forall key block,
      (key, block) ∈ order_by_order lesson_id tbl <->
      tbl !! key = Some block /\ LessonBlock.lesson block = lesson_id.

(** A computation that only talks to Telegram: it leaves the store, the
    users, the queue and the counters as they are. *)
Definition only_talks {A : Type} (m : M A) : Prop :=
  forall b,
    store (m b).2 = store b /\ users (m b).2 = users b /\
    queue (m b).2 = queue b /\ redis (m b).2 = redis b.

(** The improvement job [lesson_ai_apply] creates for a block. *)
Definition new_improvement (U : Update) (block_id : N) (mode : string) : ImproveStatus.t :=
  {| ImproveStatus.block := block_id; ImproveStatus.mode := mode;
     ImproveStatus.status := ImproveStatus.PENDING;
     ImproveStatus.task_id := Some (task_id U);
     ImproveStatus.result_content := None |}.

(** * Concrete states of the bot *)

Module BotScenario.

Definition teacher : User.t :=
  {| User.id := 1; User.telegram_username := Some "anna"; User.is_staff := false;
     User.role := "school_teacher"; User.subject := Some "math";
     User.level := Some "grade_5_7"; User.remaining_generations := 2 |}.

Definition one_user : gmap string User.t := {[ "42" := teacher ]}.


(** [int()] on the decimal numerals, with or without a minus sign. *)
Definition int_of_decimal (s : string) : option Z :=
  option_map Z.of_int (NilZero.int_of_string s).

(** The one lesson of [Scenario], under the text ["L7"]. *)
Definition uuid_text (k : N) : string := "L7".

Definition uuid_of_text (s : string) : option N :=
  if String.eqb s "L7" then Some 7%N else None.

(** A text without markup is left as it is. *)
Definition plain (t : option string) : string :=
  match t with
  | Some s => s
  | None => EmptyString
  end.

(** An update from the teacher, with the data of a button; every call to
    Telegram succeeds. *)
Definition press (d : string) : Update :=
  {| now := 1000; from_user_id := 42; from_username := Some "anna"; data := d;
     telegram := fun _ => TgOk; new_user_id := 2; new_improve_id := 6;
     task_id := "task-2"; metrics_fail := false |}.

(** The bot on a store: the teacher has created every lesson. *)
Definition bot (s : Sys) : Bot :=
  {| store := s; creators := fun _ => 1; users := one_user; redis := ∅;
     queue := []; sent := [] |}.

(** The store after a run of the generation task in which three of five
    sections are stored. *)
Definition generated : Sys :=
  generate_lesson_task JsonDecoder.loads Scenario.render Scenario.five_hints 7%N
    Scenario.fresh.


End BotScenario.

(** * Proofs *)

(** ** Floats: the results of [progress_percent] stay finite *)

Section FloatBounds.

Import PyFloat.

Lemma digits2_pos_size p : digits2_pos p = Pos.size p.
Proof. induction p; simpl; congruence. Qed.

Lemma Zdigits2_bound m D : 0 <= m < 2 ^ D -> 0 <= D -> 0 <= Zdigits2 m <= D.
Proof.
  intros [Hm Hlt] HD. destruct m as [|p|p]; simpl; [lia| |lia].
  rewrite digits2_pos_size. split; [lia|].
  destruct (Z_lt_le_dec D (Z.pos (Pos.size p))) as [Hgt|]; [|lia].
  exfalso.
  assert (2 ^ (D + 1) <= 2 ^ Z.pos (Pos.size p)) by (apply Z.pow_le_mono_r; lia).
  assert (2 ^ Z.pos (Pos.size p) <= Z.pos p~0).
  { rewrite <- Pos2Z.inj_pow. apply Pos2Z.pos_le_pos, Pos.size_le. }
  rewrite Z.pow_add_r in * by lia. lia.
Qed.

Lemma iter_pos_invariant {A} (f : A -> A) (P : A -> Prop) :
  (forall x, P x -> P (f x)) -> forall n x, P x -> P (SpecFloat.iter_pos f n x).
Proof.
  intros Hf. induction n as [n IH|n IH|]; intros x Hx; simpl; auto.
Qed.

Lemma shr_1_bound K mrs : 0 <= shr_m mrs <= K -> 0 <= shr_m (shr_1 mrs) <= K.
Proof.
  destruct mrs as [m r s]. simpl. intros Hm.
  destruct m as [|[p|p|]|p]; simpl; lia.
Qed.

Lemma shr_bound K mrs e n :
  0 <= shr_m mrs <= K -> 0 <= shr_m (shr mrs e n).1 <= K.
Proof.
  intros Hm. destruct n as [|p|p]; simpl; auto.
  apply (iter_pos_invariant shr_1 (fun x => 0 <= shr_m x <= K)); auto using shr_1_bound.
Qed.

Lemma shr_record_of_loc_m m l : shr_m (shr_record_of_loc m l) = m.
Proof. destruct l as [|[]]; reflexivity. Qed.

(** Shifting to the working precision keeps the mantissa below its bound
    and the exponent low. *)
Lemma shr_fexp_bound D E m e l :
  0 <= D -> 0 <= m < 2 ^ D -> e <= E ->
  0 <= shr_m (shr_fexp prec emax m e l).1 < 2 ^ D /\
  (shr_fexp prec emax m e l).2 <= Z.max E (Z.max (D + E - 53) (-1074)).
Proof.
  intros HD Hm He. unfold shr_fexp.
  pose proof (Zdigits2_bound m D Hm HD) as Hd.
  split.
  - pose proof (shr_bound (2 ^ D - 1) (shr_record_of_loc m l) e
      (fexp prec emax (Zdigits2 m + e) - e)) as Hb.
    rewrite shr_record_of_loc_m in Hb. lia.
  - unfold shr.
    destruct (fexp prec emax (Zdigits2 m + e) - e) as [|p|p] eqn:Hn; simpl; [lia| |lia].
    unfold fexp, SpecFloat.emin, prec, emax in Hn. lia.
Qed.

Lemma round_nearest_even_bound D m l :
  0 <= m < 2 ^ D -> 0 <= D -> 0 <= round_nearest_even m l < 2 ^ (D + 1).
Proof.
  intros Hm HD. rewrite Z.pow_add_r by lia.
  destruct l as [|[]]; simpl; try destruct (Z.even m); lia.
Qed.

Lemma binary_round_aux_bound D E m e l :
  0 <= D <= 971 -> 0 <= m < 2 ^ D -> e <= E -> 2 * D + E <= 971 ->
  finite_nonneg (D + 1) (Z.max (2 * D + E) D) (binary_round_aux prec emax false m e l).
Proof.
  intros [HD HD'] Hm He Hfit. unfold binary_round_aux.
  pose proof (shr_fexp_bound D E m e l HD Hm He) as [Hm1 He1].
  destruct (shr_fexp prec emax m e l) as [mrs1 e1]. simpl in Hm1, He1.
  pose proof (round_nearest_even_bound D (shr_m mrs1) (loc_of_shr_record mrs1) Hm1 HD) as Hr.
  set (m2 := round_nearest_even (shr_m mrs1) (loc_of_shr_record mrs1)) in *.
  pose proof (shr_fexp_bound (D + 1) _ m2 e1 loc_Exact ltac:(lia) Hr He1) as [Hm3 He3].
  destruct (shr_fexp prec emax m2 e1 loc_Exact) as [mrs3 e3]. simpl in Hm3, He3.
  destruct (shr_m mrs3) as [|p|p] eqn:Hp; [by left| |lia].
  assert (e3 <= 971) by lia.
  replace (e3 <=? emax - prec) with true
    by (symmetry; apply Z.leb_le; unfold emax, prec; lia).
  right. exists p, e3. split; [done|]. split; lia.
Qed.

Lemma div_core_bound c t :
  0 < c < 2 ^ 31 -> 0 < t < 2 ^ 31 ->
  let '(q, e, l) := SFdiv_core_binary prec emax c 0 t 0 in
  0 <= q < 2 ^ 114 /\ e <= 0.
Proof.
  intros Hc Ht. unfold SFdiv_core_binary.
  pose proof (Zdigits2_bound c 31 ltac:(lia) ltac:(lia)) as Hd1.
  pose proof (Zdigits2_bound t 31 ltac:(lia) ltac:(lia)) as Hd2.
  set (e' := Z.min _ _).
  assert (He' : -83 <= e' <= 0).
  { subst e'. unfold fexp, SpecFloat.emin, prec, emax.
    assert (0 < Zdigits2 c) by (destruct c; simpl in *; lia). lia. }
  set (m' := match 0 - 0 - e' with
             | 0 => c
             | Z.pos _ => Z.shiftl c (0 - 0 - e')
             | Z.neg _ => 0
             end).
  assert (Hm' : 0 <= m' < 2 ^ 114).
  { subst m'. destruct (0 - 0 - e') as [|p|p] eqn:Hs; [lia| |lia].
    rewrite Z.shiftl_mul_pow2 by lia. split; [nia|].
    assert (2 ^ Z.pos p <= 2 ^ 83) by (apply Z.pow_le_mono_r; lia).
    change (2 ^ 114) with (2 ^ 31 * 2 ^ 83). nia. }
  pose proof (Z_div_mod m' t ltac:(lia)) as Hdm.
  destruct (Z.div_eucl m' t) as [q r]. split; [|lia].
  destruct Hdm as [Heq Hr]. nia.
Qed.

(** The quotient of two field values is a finite float, zero or
    positive. *)
Lemma truediv_bound c t :
  0 <= c < 2 ^ 31 -> 0 < t < 2 ^ 31 ->
  exists q, truediv c t = Some q /\ finite_nonneg 115 228 q.
Proof.
  intros Hc Ht. unfold truediv.
  destruct (Z.eqb_spec t 0) as [|_]; [lia|].
  destruct t as [|pt|pt]; [lia| |lia].
  destruct c as [|pc|pc]; [| |lia].
  - simpl. eexists; split; [reflexivity|]. by left.
  - cbn [exact SFdiv xorb].
    pose proof (div_core_bound (Z.pos pc) (Z.pos pt) ltac:(lia) Ht) as Hcore.
    destruct (SFdiv_core_binary prec emax (Z.pos pc) 0 (Z.pos pt) 0) as [[q e] l].
    destruct Hcore as [Hq He].
    pose proof (binary_round_aux_bound 114 0 q e l ltac:(lia) Hq He ltac:(lia)) as Hb.
    destruct Hb as [->|(m & e' & -> & Hm & He')].
    + eexists; split; [reflexivity|]. by left.
    + eexists; split; [reflexivity|]. right. exists m, e'. split; [done|]. split; lia.
Qed.

Lemma of_int_100 : of_int 100 = Some (S754_finite false 7036874417766400 (-46)).
Proof. vm_compute. reflexivity. Qed.

Lemma mul_100_bound q :
  finite_nonneg 115 228 q ->
  finite_nonneg 169 518 (mul q (S754_finite false 7036874417766400 (-46))).
Proof.
  intros [->|(m & e & -> & Hm & He)]; [by left|].
  unfold mul. cbn [SFmul xorb].
  assert (Hprod : 0 <= Z.pos (m * 7036874417766400) < 2 ^ 168).
  { rewrite Pos2Z.inj_mul. change (2 ^ 168) with (2 ^ 115 * 2 ^ 53).
    assert (Z.pos 7036874417766400 < 2 ^ 53) by (vm_compute; reflexivity).
    split; [lia|]. nia. }
  pose proof (binary_round_aux_bound 168 182 _ (e + -46) loc_Exact
                ltac:(lia) Hprod ltac:(lia) ltac:(lia)) as Hb.
  destruct Hb as [->|(m' & e' & -> & Hm' & He')]; [by left|].
  right. exists m', e'. split; [done|]. split; lia.
Qed.

Lemma to_int_nonneg D E x :
  finite_nonneg D E x -> exists p, to_int x = Some p /\ 0 <= p.
Proof.
  intros [->|(m & e & -> & _ & _)]; simpl.
  - exists 0. split; [done|lia].
  - eexists. split; [reflexivity|].
    destruct (0 <=? e) eqn:He.
    + apply Z.leb_le in He. apply Z.mul_nonneg_nonneg; [lia|]. apply Z.pow_nonneg. lia.
    + apply Z.div_pos; [lia|]. apply Z.pow_pos_nonneg; [lia|].
      apply Z.leb_gt in He. lia.
Qed.

End FloatBounds.

(** ** progress_percent *)

(** The division is the float division of Python: 29 blocks of 100 read
    as 28 percent. *)
Example progress_percent_29_of_100 :
  GenerationStatus.progress_percent
    {| GenerationStatus.total := 100; GenerationStatus.completed := 29;
       GenerationStatus.status := GenerationStatus.IN_PROGRESS |} = Some 28.
Proof. vm_compute. reflexivity. Qed.

(** C10.  For every [GenerationStatus] record, whose [total] and
    [completed] are values of a [PositiveIntegerField], [progress_percent]
    returns (no exception, in particular no division by zero) an integer
    between 0 and 100, and it returns 0 when [total] is 0. *)
Theorem progress_percent_range (self : GenerationStatus.t) :
  positive_integer_field (GenerationStatus.total self) ->
  positive_integer_field (GenerationStatus.completed self) ->
  exists p, GenerationStatus.progress_percent self = Some p /\
            0 <= p <= 100 /\
            (GenerationStatus.total self = 0 -> p = 0).
Proof.
  unfold positive_integer_field, GenerationStatus.progress_percent.
  intros Ht Hc.
  destruct (Z.eqb_spec (GenerationStatus.total self) 0) as [H0|Hne].
  { exists 0. split; [done|]. split; [lia|done]. }
  destruct (truediv_bound (GenerationStatus.completed self) (GenerationStatus.total self))
    as (q & -> & Hq); [lia..|].
  rewrite of_int_100.
  destruct (to_int_nonneg _ _ _ (mul_100_bound q Hq)) as (p & -> & Hp).
  exists (Z.min 100 p). split; [done|]. split; [lia|]. intros; lia.
Qed.

Lemma progress_percent_range_witness :
  positive_integer_field 3 /\ positive_integer_field 2 /\
  exists p,
    GenerationStatus.progress_percent
      {| GenerationStatus.total := 3; GenerationStatus.completed := 2;
         GenerationStatus.status := GenerationStatus.IN_PROGRESS |} = Some p /\
    0 <= p <= 100 /\ (3 = 0 -> p = 0).
Proof.
  split; [unfold positive_integer_field; lia|].
  split; [unfold positive_integer_field; lia|].
  apply (progress_percent_range
           {| GenerationStatus.total := 3; GenerationStatus.completed := 2;
              GenerationStatus.status := GenerationStatus.IN_PROGRESS |});
    unfold positive_integer_field; simpl; lia.
Defined.

(** ** Strings *)

Section PyStrFacts.

Import PyStr.

Lemma append_nil (b : string) : EmptyString +:+ b = b.
Proof. reflexivity. Qed.

Lemma append_cons c (a b : string) : String c a +:+ b = String c (a +:+ b).
Proof. reflexivity. Qed.

Lemma append_assoc (a b c : string) : (a +:+ b) +:+ c = a +:+ (b +:+ c).
Proof.
  induction a as [|x a IH]; rewrite ?append_nil, ?append_cons; [done|].
  by rewrite IH.
Qed.

Lemma length_append (a b : string) :
  String.length (a +:+ b) = (String.length a + String.length b)%nat.
Proof. induction a as [|c a IH]; rewrite ?append_nil, ?append_cons; simpl; [done|]. by rewrite IH. Qed.

Lemma drop_append (a b : string) : drop (String.length a) (a +:+ b) = b.
Proof. induction a as [|c a IH]; rewrite ?append_nil, ?append_cons; simpl; [by destruct b|done]. Qed.

Lemma take_append (a b : string) : take (String.length a) (a +:+ b) = a.
Proof. induction a as [|c a IH]; rewrite ?append_nil, ?append_cons; simpl; [by destruct b|]. by rewrite IH. Qed.

Lemma index_append_absent c (a b : string) :
  index c a = None ->
  index c (a +:+ b) = (fun i => (String.length a + i)%nat) <$> index c b.
Proof.
  induction a as [|x a IH]; rewrite ?append_nil, ?append_cons; simpl; intros Ha.
  - destruct (index c b); reflexivity.
  - destruct (Ascii.eqb x c); [done|].
    destruct (index c a); [done|]. rewrite IH by done.
    destruct (index c b); reflexivity.
Qed.

Lemma rindex_append_absent c (a b : string) :
  index c b = None -> rindex c (a +:+ b) = rindex c a.
Proof.
  intros Hb.
  assert (Hrb : rindex c b = None).
  { induction b as [|x b IH]; simpl in *; [done|].
    destruct (Ascii.eqb x c); [done|].
    destruct (index c b); [done|]. by rewrite IH. }
  induction a as [|x a IH]; rewrite ?append_nil, ?append_cons; simpl; [done|]. by rewrite IH.
Qed.

Lemma rindex_append_present c (a b : string) i :
  rindex c b = Some i -> rindex c (a +:+ b) = Some (String.length a + i)%nat.
Proof.
  intros Hb. induction a as [|x a IH]; rewrite ?append_nil, ?append_cons; simpl; [done|]. by rewrite IH.
Qed.

Lemma rindex_ends_with c (b : string) :
  ends_with c b = true -> rindex c b = Some (String.length b - 1)%nat.
Proof.
  induction b as [|x b IH]; simpl; [done|].
  destruct b as [|y b].
  - intros ->. done.
  - intros H. rewrite (IH H). simpl. f_equal. lia.
Qed.

Lemma index_starts_with c (b : string) :
  starts_with c b = true -> index c b = Some O.
Proof. destruct b as [|x b]; simpl; [done|]. by intros ->. Qed.

Lemma contains_false c s : contains c s = false -> index c s = None.
Proof. unfold contains. by destruct (index c s). Qed.

(** What [index] finds is where the character stands. *)
Lemma drop_index c s i :
  index c s = Some i -> exists r, drop i s = String c r.
Proof.
  revert i. induction s as [|x s IH]; simpl; intros i; [done|].
  destruct (Ascii.eqb_spec x c) as [->|_].
  - intros [= <-]. by eexists.
  - destruct (index c s) as [k|]; [|done]. intros [= <-]. simpl. by apply IH.
Qed.

Lemma index_lt c s i : index c s = Some i -> (i < String.length s)%nat.
Proof.
  revert i. induction s as [|x s IH]; simpl; intros i; [done|].
  destruct (Ascii.eqb x c); [intros [= <-]; lia|].
  destruct (index c s) as [k|]; [|done]. intros [= <-].
  specialize (IH k eq_refl). lia.
Qed.

Lemma rindex_lt c s i : rindex c s = Some i -> (i < String.length s)%nat.
Proof.
  revert i. induction s as [|x s IH]; simpl; intros i; [done|].
  destruct (rindex c s) as [k|].
  - intros [= <-]. specialize (IH k eq_refl). lia.
  - destruct (Ascii.eqb x c); [intros [= <-]; lia|done].
Qed.

(** A slice between two positions inside the text. *)
Lemma slice_inside s (a b : nat) :
  (a <= String.length s)%nat -> (b <= String.length s)%nat ->
  slice s (Z.of_nat a) (Z.of_nat b) = take (b - a) (drop a s).
Proof.
  intros Ha Hb. unfold slice, clamp, len.
  destruct (Z.ltb_spec (Z.of_nat a) 0) as [|_]; [lia|].
  destruct (Z.ltb_spec (Z.of_nat b) 0) as [|_]; [lia|].
  rewrite !Z.min_l by lia. rewrite Nat2Z.id.
  f_equal. lia.
Qed.

(** A slice whose end is not after its start is empty. *)
Lemma slice_backwards s (a b : nat) :
  (b <= a)%nat -> slice s (Z.of_nat a) (Z.of_nat b) = EmptyString.
Proof.
  intros Hab. unfold slice, clamp, len.
  destruct (Z.ltb_spec (Z.of_nat a) 0); [lia|].
  destruct (Z.ltb_spec (Z.of_nat b) 0); [lia|].
  replace (Z.to_nat (Z.min (Z.of_nat b) (Z.of_nat (String.length s))
                     - Z.min (Z.of_nat a) (Z.of_nat (String.length s)))) with O by lia.
  by destruct (drop _ s).
Qed.

Lemma take_starts c r n :
  take n (String c r) = EmptyString \/ exists r', take n (String c r) = String c r'.
Proof. destruct n; simpl; [by left|right; by eexists]. Qed.

End PyStrFacts.

(** ** extract_json *)

Section ExtractJson.

Variable json_loads : string -> option json.

(** Without an opening brace nothing is extracted. *)
Lemma extract_json_no_brace text :
  PyStr.contains "{" text = false -> extract_json json_loads text = None.
Proof.
  intros H. apply contains_false in H.
  unfold extract_json, PyStr.find. by rewrite H.
Qed.

(** What is handed to the decoder is empty or starts with the brace. *)
Lemma extract_json_decodes text v :
  extract_json json_loads text = Some v ->
  json_loads EmptyString = Some v \/
  exists r, json_loads (String "{" r) = Some v.
Proof.
  unfold extract_json, PyStr.find, PyStr.rfind.
  destruct (PyStr.index "{" text) as [i|] eqn:Hi; [|done].
  assert (Hstop : exists k : nat,
             (match PyStr.rindex "}" text with
              | Some j => Z.of_nat j
              | None => -1
              end) + 1 = Z.of_nat k /\ (k <= String.length text)%nat).
  { destruct (PyStr.rindex "}" text) as [j|] eqn:Hj.
    - exists (S j). split; [lia|]. apply rindex_lt in Hj. lia.
    - exists O. split; [done|lia]. }
  destruct Hstop as (k & -> & Hk).
  destruct (_ || _); [done|].
  rewrite slice_inside by (apply index_lt in Hi; lia).
  destruct (drop_index _ _ _ Hi) as [r ->].
  destruct (take_starts "{" r (k - i)) as [->|[r' ->]]; eauto.
Qed.

(** A text from an opening to a closing brace, between a text without
    an opening brace and a text without a closing brace, is what is handed
    to the decoder. *)
Lemma extract_json_framed pre body post :
  PyStr.contains "{" pre = false ->
  PyStr.contains "}" post = false ->
  PyStr.starts_with "{" body = true ->
  PyStr.ends_with "}" body = true ->
  extract_json json_loads (pre +:+ body +:+ post) = json_loads body.
Proof.
  intros Hpre Hpost Hs He.
  apply contains_false in Hpre. apply contains_false in Hpost.
  assert (Hlen : (1 <= String.length body)%nat) by (destruct body; simpl in *; [done|lia]).
  unfold extract_json, PyStr.find, PyStr.rfind.
  assert (Hi : PyStr.index "{" (body +:+ post) = Some O).
  { apply index_starts_with. by destruct body. }
  rewrite (index_append_absent _ pre (body +:+ post) Hpre), Hi. simpl fmap.
  assert (Hr : PyStr.rindex "}" (pre +:+ body +:+ post)
               = Some (String.length pre + (String.length body - 1))%nat).
  { rewrite <- append_assoc, (rindex_append_absent _ _ _ Hpost).
    apply rindex_append_present, rindex_ends_with, He. }
  rewrite Hr.
  replace (Z.of_nat (String.length pre + (String.length body - 1)) + 1)
    with (Z.of_nat (String.length pre + String.length body)) by lia.
  destruct (Z.eqb_spec (Z.of_nat (String.length pre + 0)) (-1)) as [|_]; [lia|].
  destruct (Z.eqb_spec (Z.of_nat (String.length pre + String.length body)) (-1)) as [|_]; [lia|].
  simpl orb. cbv iota.
  rewrite slice_inside by (rewrite !length_append; lia).
  rewrite Nat.add_0_r, drop_append.
  replace (String.length pre + String.length body - String.length pre)%nat
    with (String.length body) by lia.
  by rewrite take_append.
Qed.

(** With an opening brace and no closing brace after it, the empty text
    is handed to the decoder. *)
Lemma extract_json_unclosed text :
  PyStr.contains "{" text = true ->
  PyStr.rfind "}" text < PyStr.find "{" text ->
  extract_json json_loads text = json_loads EmptyString.
Proof.
  intros Hopen Hlt. unfold extract_json.
  unfold PyStr.find, PyStr.rfind, PyStr.contains in *.
  destruct (PyStr.index "{" text) as [i|]; [|done].
  destruct (PyStr.rindex "}" text) as [j|].
  - destruct (Z.eqb_spec (Z.of_nat i) (-1)) as [|_]; [lia|].
    destruct (Z.eqb_spec (Z.of_nat j + 1) (-1)) as [|_]; [lia|].
    simpl orb. cbv iota.
    replace (Z.of_nat j + 1) with (Z.of_nat (S j)) by lia.
    by rewrite slice_backwards by lia.
  - destruct (Z.eqb_spec (Z.of_nat i) (-1)) as [|_]; [lia|].
    simpl orb. cbv iota.
    change (-1 + 1) with (Z.of_nat 0). by rewrite slice_backwards by lia.
Qed.

End ExtractJson.
(** C3, as the code has it.  The extractor hands to the decoder the text
    from the first opening brace to the last closing brace, and returns
    what the decoder makes of it: when a text that starts with an opening
    and ends with a closing brace is preceded by text without an opening
    brace and followed by text without a closing brace, the extractor
    returns that text decoded, a document if it is one and [None] if it is
    not.  When the text has no opening brace at all, it returns [None];
    when it has an opening brace and no closing brace after it, the empty
    text is decoded. *)
Theorem extract_json_first_to_last_brace (json_loads : string -> option json) :
  (forall pre body post,
      PyStr.contains "{" pre = false ->
      PyStr.contains "}" post = false ->
      PyStr.starts_with "{" body = true ->
      PyStr.ends_with "}" body = true ->
      extract_json json_loads (pre +:+ body +:+ post) = json_loads body) /\
  (forall text,
      PyStr.contains "{" text = false ->
      extract_json json_loads text = None) /\
  (forall text,
      PyStr.contains "{" text = true ->
      PyStr.rfind "}" text < PyStr.find "{" text ->
      extract_json json_loads text = json_loads EmptyString).
Proof.
  split; [|split].
  - apply extract_json_framed.
  - apply extract_json_no_brace.
  - apply extract_json_unclosed.
Qed.

(** An answer with one document between two sentences, an answer whose
    braces do not hold a document, and an answer without braces. *)
Lemma extract_json_first_to_last_brace_witness :
  extract_json JsonDecoder.loads
    ("Here it is: " +:+ JsonDecoder.dq "{'blocks': ['a', 'b']}" +:+ " Done.")
  = Some (JObj [("blocks", JArr [JStr "a"; JStr "b"])]) /\
  extract_json JsonDecoder.loads ("See " +:+ "{the plan}" +:+ " below.") = None /\
  extract_json JsonDecoder.loads "no JSON in this answer" = None.
Proof.
  destruct (extract_json_first_to_last_brace JsonDecoder.loads) as (Hframed & Hnone & _).
  split; [|split].
  - rewrite Hframed by (vm_compute; reflexivity). vm_compute. reflexivity.
  - rewrite Hframed by (vm_compute; reflexivity). vm_compute. reflexivity.
  - apply Hnone. vm_compute. reflexivity.
Defined.

(** C3 does not hold for every balanced [{...}] substring: this answer
    contains the valid JSON object [{"a": 1}], and nothing is extracted from
    it, because the text up to the last closing brace is not one JSON
    document. *)
Lemma extract_json_two_objects :
  JsonDecoder.dq "{'a': 1} and {'b': 2}"
    = EmptyString +:+ JsonDecoder.dq "{'a': 1}" +:+ " and " +:+ JsonDecoder.dq "{'b': 2}" /\
  JsonDecoder.loads (JsonDecoder.dq "{'a': 1}") = Some (JObj [("a", JInt 1)]) /\
  extract_json JsonDecoder.loads (JsonDecoder.dq "{'a': 1} and {'b': 2}") = None.
Proof. vm_compute. auto. Qed.

(** ** generate_text *)

Section DispatcherFacts.

Variable json_loads : string -> option json.

Lemma extract_json_is_dict text v :
  decodes_objects json_loads ->
  extract_json json_loads text = Some v -> is_dict v = true.
Proof.
  intros [Hnil Hobj] Hv.
  destruct (extract_json_decodes _ _ _ Hv) as [H|[r H]]; [congruence|eauto].
Qed.

Lemma handle_text_yields text :
  decodes_objects json_loads ->
  handle_text json_loads text =
    match text with
    | Some t =>
        match extract_json json_loads t with
        | Some (JObj m) => Return (JObj m)
        | _ => Continue
        end
    | None => Continue
    end.
Proof.
  intros Hd. destruct text as [t|]; [|done]. simpl.
  destruct (extract_json json_loads t) as [v|] eqn:Hv; [|done].
  pose proof (extract_json_is_dict _ _ Hd Hv) as Hdict.
  by destruct v.
Qed.

Lemma attempt_flow B model_cfg n w :
  decodes_objects json_loads ->
  (attempt json_loads B model_cfg n w).1 =
    match yields json_loads B model_cfg n with
    | Some v => Return v
    | None => Continue
    end.
Proof.
  intros Hd. unfold attempt, yields, answer.
  destruct (String.eqb (provider model_cfg) "Google").
  - destruct (google B (name model_cfg) n) as [|text]; [done|]. simpl.
    rewrite (handle_text_yields _ Hd). destruct text as [t|]; [|done].
    by destruct (extract_json json_loads t) as [[]|].
  - destruct (String.eqb (provider model_cfg) "Groq"); [|done].
    destruct (groq B (name model_cfg) n) as [|text]; [done|]. simpl.
    rewrite (handle_text_yields _ Hd). destruct text as [t|]; [|done].
    by destruct (extract_json json_loads t) as [[]|].
Qed.

(** An attempt adds one line to the log and touches no list object. *)
Lemma attempt_world B model_cfg n w :
  trying (attempt json_loads B model_cfg n w).2 = trying w ++ [(name model_cfg, n)] /\
  lists (attempt json_loads B model_cfg n w).2 = lists w /\
  calls (attempt json_loads B model_cfg n w).2 = calls w.
Proof.
  unfold attempt.
  destruct (String.eqb (provider model_cfg) "Google").
  - by destruct (google B (name model_cfg) n).
  - destruct (String.eqb (provider model_cfg) "Groq"); [|done].
    by destruct (groq B (name model_cfg) n).
Qed.

Lemma first_yield_app B l1 l2 :
  first_yield json_loads B (l1 ++ l2) =
    match first_yield json_loads B l1 with
    | Ok v => Ok v
    | RuntimeError => first_yield json_loads B l2
    end.
Proof.
  induction l1 as [|[c n] l1 IH]; simpl; [done|].
  by destruct (yields json_loads B c n).
Qed.

Lemma first_yield_error B l :
  first_yield json_loads B l = RuntimeError <->
  forall c n, (c, n) ∈ l -> yields json_loads B c n = None.
Proof.
  induction l as [|[c n] l IH]; simpl.
  - split; [|done]. intros _ c n H. inversion H.
  - destruct (yields json_loads B c n) eqn:Hy.
    + split; [done|]. intros H.
      specialize (H c n ltac:(apply elem_of_cons; by left)). congruence.
    + rewrite IH. split.
      * intros H c' n' Hin. apply elem_of_cons in Hin as [[= -> ->]|Hin]; auto.
      * intros H c' n' Hin. apply H. apply elem_of_cons. by right.
Qed.

Lemma first_yield_is_dict B l v :
  first_yield json_loads B l = Ok v -> is_dict v = true.
Proof.
  induction l as [|[c n] l IH]; simpl; [done|].
  destruct (yields json_loads B c n) as [u|] eqn:Hy; [|done].
  intros [= <-]. unfold yields in Hy.
  destruct (answer B c n) as [t|]; [|done].
  destruct (extract_json json_loads t) as [[]|]; by simplify_eq.
Qed.

(** The inner loop: the attempts of one model. *)
Lemma attempts_spec B model_cfg ns w :
  decodes_objects json_loads ->
  lists (attempts json_loads B model_cfg ns w).2 = lists w /\
  calls (attempts json_loads B model_cfg ns w).2 = calls w /\
  exists tr,
    trying (attempts json_loads B model_cfg ns w).2 = trying w ++ tr /\
    match (attempts json_loads B model_cfg ns w).1 with
    | Continue =>
        tr = map label (map (pair model_cfg) ns) /\
        first_yield json_loads B (map (pair model_cfg) ns) = RuntimeError
    | Return v =>
        tr `prefix_of` map label (map (pair model_cfg) ns) /\
        first_yield json_loads B (map (pair model_cfg) ns) = Ok v
    end.
Proof.
  intros Hd. revert w. induction ns as [|n ns IH]; intros w; simpl.
  { repeat split; try done. exists []. by rewrite app_nil_r. }
  pose proof (attempt_flow B model_cfg n w Hd) as Hflow.
  destruct (attempt_world B model_cfg n w) as (Htr & Hl & Hc).
  destruct (attempt json_loads B model_cfg n w) as [f w1]. simpl in *.
  destruct (yields json_loads B model_cfg n) as [v|] eqn:Hy; subst f.
  - simpl. repeat split; try done.
    exists [(name model_cfg, n)]. split; [done|]. split; [|done].
    apply (prefix_cons _ []), prefix_nil.
  - destruct (IH w1) as (Hl' & Hc' & tr & Htr' & Hm).
    split; [congruence|]. split; [congruence|].
    exists ((name model_cfg, n) :: tr). split.
    { rewrite Htr', Htr, <- app_assoc. done. }
    destruct ((attempts json_loads B model_cfg ns w1).1).
    + destruct Hm as [Hp Hf]. split; [by apply prefix_cons|done].
    + destruct Hm as [-> Hf]. split; done.
Qed.

(** The outer loop: one pass over the models. *)
Lemma models_loop_spec B models w :
  decodes_objects json_loads ->
  lists (models_loop json_loads B models w).2 = lists w /\
  calls (models_loop json_loads B models w).2 = calls w /\
  (models_loop json_loads B models w).1 = first_yield json_loads B (schedule models) /\
  exists tr,
    trying (models_loop json_loads B models w).2 = trying w ++ tr /\
    tr `prefix_of` map label (schedule models).
Proof.
  intros Hd. revert w. induction models as [|c models IH]; intros w.
  { simpl. repeat split; try done. exists []. by rewrite app_nil_r. }
  cbn [models_loop schedule flat_map].
  destruct (attempts_spec B c (seq 0 2) w Hd) as (Hl & Hc & tr & Htr & Hm).
  rewrite first_yield_app, map_app.
  destruct (attempts json_loads B c (seq 0 2) w) as [[v|] w1]; cbn [fst snd] in *.
  - destruct Hm as [Hp ->]. repeat split; try done.
    exists tr. split; [done|]. by apply prefix_app_r.
  - destruct Hm as [-> ->].
    destruct (IH w1) as (Hl' & Hc' & Hr & tr' & Htr' & Hp').
    split; [congruence|]. split; [congruence|]. split; [done|].
    exists (map label (map (pair c) (seq 0 2)) ++ tr'). split.
    { rewrite Htr', Htr, <- app_assoc. done. }
    by apply prefix_app.
Qed.

Lemma attempts_lists B model_cfg ns w :
  lists (attempts json_loads B model_cfg ns w).2 = lists w.
Proof.
  revert w. induction ns as [|n ns IH]; intros w; [done|].
  cbn [attempts].
  destruct (attempt_world B model_cfg n w) as (_ & Hl & _).
  destruct (attempt json_loads B model_cfg n w) as [[v|] w1]; cbn [fst snd] in *; [done|].
  by rewrite IH.
Qed.

Lemma models_loop_lists B models w :
  lists (models_loop json_loads B models w).2 = lists w.
Proof.
  revert w. induction models as [|c models IH]; intros w; [done|].
  cbn [models_loop].
  pose proof (attempts_lists B c (seq 0 2) w) as Hl.
  destruct (attempts json_loads B c (seq 0 2) w) as [[v|] w1]; cbn [fst snd] in *; [done|].
  by rewrite IH.
Qed.

(** The list objects after a call: the old ones as they were, and one
    new object, the shuffled copy of the catalog. *)
Lemma generate_text_lists B w l :
  lists w !! AI_MODELS_ref = Some l ->
  lists (generate_text json_loads B w).2 = lists w ++ [shuffle B l].
Proof.
  intros Hl. unfold generate_text, list_copy, random_shuffle, count_call. simpl.
  rewrite (list_lookup_total_correct _ _ _ Hl).
  rewrite (list_lookup_total_middle (lists w) [] l (length (lists w)) eq_refl).
  assert (Hins : <[length (lists w) := shuffle B l]> (lists w ++ [l])
                 = lists w ++ [shuffle B l]).
  { rewrite <- (Nat.add_0_r (length (lists w))) at 1. by rewrite insert_app_r. }
  rewrite Hins.
  rewrite (list_lookup_total_middle (lists w) [] (shuffle B l) (length (lists w)) eq_refl).
  clear Hins.
  by rewrite models_loop_lists.
Qed.

Lemma generate_text_spec B w :
  decodes_objects json_loads ->
  lists w !! AI_MODELS_ref = Some AI_MODELS ->
  (generate_text json_loads B w).1
    = first_yield json_loads B (schedule (shuffle B AI_MODELS)) /\
  tried json_loads B w `prefix_of` map label (schedule (shuffle B AI_MODELS)) /\
  calls (generate_text json_loads B w).2 = S (calls w).
Proof.
  intros Hd Hl. unfold tried, generate_text, list_copy, random_shuffle, count_call. simpl.
  rewrite (list_lookup_total_correct _ _ _ Hl).
  rewrite (list_lookup_total_middle (lists w) [] AI_MODELS (length (lists w)) eq_refl).
  assert (Hins : <[length (lists w) := shuffle B AI_MODELS]> (lists w ++ [AI_MODELS])
                 = lists w ++ [shuffle B AI_MODELS]).
  { rewrite <- (Nat.add_0_r (length (lists w))) at 1. by rewrite insert_app_r. }
  rewrite Hins.
  rewrite (list_lookup_total_middle (lists w) [] (shuffle B AI_MODELS)
             (length (lists w)) eq_refl).
  match goal with
  | |- context [models_loop _ _ _ ?w0] =>
      destruct (models_loop_spec B (shuffle B AI_MODELS) w0 Hd)
        as (_ & Hc & Hr & tr & Htr & Hp)
  end.
  rewrite Hr, Htr, Hc. simpl. rewrite drop_app_length. done.
Qed.

End DispatcherFacts.

(** The decoder used for the concrete runs behaves as the dispatcher
    expects of [json.loads]. *)
Lemma loads_decodes_objects : decodes_objects JsonDecoder.loads.
Proof.
  split; [reflexivity|].
  intros r v. unfold JsonDecoder.loads.
  change (JsonDecoder.skip_ws (String "{" r)) with (String "{" r).
  cbn [JsonDecoder.parse_value]. change (nat_of_ascii "{") with 123%nat. cbv iota.
  destruct (JsonDecoder.skip_ws r) as [|c r'] eqn:Hr.
  - destruct (JsonDecoder.parse_members _ _) as [[m rest]|]; [|done].
    destruct (JsonDecoder.skip_ws rest); [|done]. by intros [= <-].
  - destruct c as [[] [] [] [] [] [] [] []];
      first
        [ destruct (JsonDecoder.skip_ws r'); [|done]; by intros [= <-]
        | destruct (JsonDecoder.parse_members _ _) as [[m rest]|]; [|done];
          destruct (JsonDecoder.skip_ws rest); [|done]; by intros [= <-] ].
Qed.

Lemma schedule_elem models c n :
  (c, n) ∈ schedule models <-> c ∈ models /\ (n < 2)%nat.
Proof.
  unfold schedule. rewrite !list_elem_of_In, in_flat_map. split.
  - intros (c' & Hc' & Hin). apply in_map_iff in Hin as (n' & [= -> ->] & Hn).
    split; [done|]. apply in_seq in Hn. lia.
  - intros [Hc Hn]. exists c. split; [done|].
    apply in_map_iff. exists n. split; [done|]. apply in_seq. lia.
Qed.

Lemma times_tried_prefix model (l1 l2 : list (string * nat)) :
  l1 `prefix_of` l2 -> (times_tried model l1 <= times_tried model l2)%nat.
Proof.
  intros [k ->]. unfold times_tried. rewrite filter_app, length_app. lia.
Qed.

Lemma times_tried_permutation model (models1 models2 : list ModelCfg) :
  models1 ≡ₚ models2 ->
  times_tried model (map label (schedule models1))
  = times_tried model (map label (schedule models2)).
Proof.
  intros Hp. unfold times_tried, schedule.
  apply Permutation_length, filter_Permutation, Permutation_map.
  by apply Permutation_flat_map.
Qed.

Lemma catalog_tried_twice c :
  c ∈ AI_MODELS -> times_tried (name c) (map label (schedule AI_MODELS)) = 2%nat.
Proof.
  revert c. apply Forall_forall. unfold AI_MODELS.
  repeat (apply Forall_cons; split; [vm_compute; reflexivity|]).
  apply Forall_nil_2.
Qed.

(** C4.  In one call of the dispatcher, whatever permutation the shuffle
    draws: the attempts made are an initial part of one pass over the
    shuffled catalog with two attempts per backend, so no backend is tried
    more than twice; the call raises [RuntimeError] exactly when no
    backend/attempt combination yields a parsed mapping; and otherwise it
    returns the mapping of the first combination that yields one. *)
Theorem generate_text_one_pass (json_loads : string -> option json)
    (B : Backend) (w : World) :
  decodes_objects json_loads ->
  (forall l, shuffle B l ≡ₚ l) ->
  lists w !! AI_MODELS_ref = Some AI_MODELS ->
  tried json_loads B w `prefix_of` map label (schedule (shuffle B AI_MODELS)) /\
  (forall c, c ∈ AI_MODELS -> (times_tried (name c) (tried json_loads B w) <= 2)%nat) /\
  ((generate_text json_loads B w).1 = RuntimeError <->
   forall c n, c ∈ AI_MODELS -> (n < 2)%nat -> yields json_loads B c n = None) /\
  (generate_text json_loads B w).1
    = first_yield json_loads B (schedule (shuffle B AI_MODELS)) /\
  (forall v, (generate_text json_loads B w).1 = Ok v -> is_dict v = true).
Proof.
  intros Hd Hperm Hl.
  destruct (generate_text_spec json_loads B w Hd Hl) as (Hr & Hp & _).
  split; [done|]. split; [|split; [|split; [done|]]].
  - intros c Hc.
    rewrite (times_tried_prefix _ _ _ Hp).
    rewrite (times_tried_permutation _ _ _ (Hperm AI_MODELS)).
    by rewrite catalog_tried_twice.
  - rewrite Hr, first_yield_error. split.
    + intros H c n Hc Hn. apply H, schedule_elem. split; [|done].
      by rewrite (Hperm AI_MODELS).
    + intros H c n Hin. apply schedule_elem in Hin as [Hc Hn].
      apply H; [|done]. by rewrite <- (Hperm AI_MODELS).
  - intros v Hv. rewrite Hr in Hv. by eapply first_yield_is_dict.
Qed.

Lemma generate_text_one_pass_witness :
  (generate_text JsonDecoder.loads
     (Scenario.late (JsonDecoder.dq "{'blocks': []}")) initial_world).1
  = first_yield JsonDecoder.loads
      (Scenario.late (JsonDecoder.dq "{'blocks': []}"))
      (schedule (rev AI_MODELS)).
Proof.
  apply (generate_text_one_pass JsonDecoder.loads
           (Scenario.late (JsonDecoder.dq "{'blocks': []}")) initial_world).
  - exact loads_decodes_objects.
  - intros l. simpl. symmetry. apply Permutation_rev.
  - reflexivity.
Defined.

(** The call of the witness: five attempts fail before the sixth yields
    the mapping. *)
Example late_answer :
  generate_text JsonDecoder.loads
    (Scenario.late (JsonDecoder.dq "{'blocks': []}")) initial_world
  = (Ok (JObj [("blocks", JArr [])]),
     {| lists := [AI_MODELS; rev AI_MODELS];
        usage := ["qwen/qwen3-32b"; "qwen/qwen3-32b"; "llama-3.3-70b-versatile";
                  "llama-3.3-70b-versatile"; "gemini-2.0-flash"];
        trying := [("qwen/qwen3-32b", 0%nat); ("qwen/qwen3-32b", 1%nat);
                   ("llama-3.3-70b-versatile", 0%nat); ("llama-3.3-70b-versatile", 1%nat);
                   ("gemini-2.0-flash", 0%nat); ("gemini-2.0-flash", 1%nat)];
        calls := 1 |}).
Proof. vm_compute. reflexivity. Qed.

(** C9, as the code has it.  A call of the dispatcher shuffles a fresh
    copy of the catalog: after the call every list object that existed is as
    it was, in particular the shared list [AI_MODELS], and there is one new
    list, the shuffled copy, whose order the attempts follow. *)
Theorem generate_text_shuffles_a_copy (json_loads : string -> option json)
    (B : Backend) (w : World) (catalog : list ModelCfg) :
  lists w !! AI_MODELS_ref = Some catalog ->
  lists (generate_text json_loads B w).2 = lists w ++ [shuffle B catalog] /\
  lists (generate_text json_loads B w).2 !! AI_MODELS_ref = Some catalog.
Proof.
  intros Hl. rewrite (generate_text_lists json_loads B w catalog Hl).
  split; [done|]. by apply lookup_app_l_Some.
Qed.

Lemma generate_text_shuffles_a_copy_witness :
  lists (generate_text JsonDecoder.loads Scenario.failing initial_world).2
    = [AI_MODELS] ++ [rev AI_MODELS] /\
  lists (generate_text JsonDecoder.loads Scenario.failing initial_world).2 !! AI_MODELS_ref
    = Some AI_MODELS.
Proof.
  apply (generate_text_shuffles_a_copy JsonDecoder.loads Scenario.failing
           initial_world AI_MODELS).
  reflexivity.
Defined.

(** C9 does not hold as stated: here the shuffle reverses the order, and
    after the call the shared catalog list still has its original order. *)
Lemma catalog_not_mutated :
  shuffle Scenario.failing AI_MODELS <> AI_MODELS /\
  lists initial_world !! AI_MODELS_ref = Some AI_MODELS /\
  lists (generate_text JsonDecoder.loads Scenario.failing initial_world).2 !! AI_MODELS_ref
    = Some AI_MODELS.
Proof. split; [discriminate|]. split; vm_compute; reflexivity. Qed.

(** ** Writing the status row *)

Section SaveFacts.

(** A write that names every column changed in memory leaves the stored
    row equal to the object, and is journalled with that row. *)
Lemma save_row at_ fs j stored :
  generation_statuses (db (sys j)) !! status_key j = Some stored ->
  generation_status_columns fs (status_obj j) stored = status_obj j ->
  synced (save at_ fs j) /\
  status_obj (save at_ fs j) = status_obj j /\
  status_key (save at_ fs j) = status_key j /\
  journal (sys (save at_ fs j))
    = journal (sys j) ++ [{| site := at_; fields := fs; row := status_obj j |}] /\
  lesson_blocks (db (sys (save at_ fs j))) = lesson_blocks (db (sys j)) /\
  world (sys (save at_ fs j)) = world (sys j).
Proof.
  intros Hrow Hcols. unfold synced, save, save_generation_status. simpl.
  rewrite Hrow, Hcols. simpl. rewrite lookup_insert_eq. done.
Qed.

(** Any write of the row: the named columns of the stored row take the
    values of the object, and the row it leaves is journalled. *)
Lemma save_stored at_ fs j r :
  generation_statuses (db (sys j)) !! status_key j = Some r ->
  generation_statuses (db (sys (save at_ fs j))) !! status_key j
    = Some (generation_status_columns fs (status_obj j) r) /\
  status_obj (save at_ fs j) = status_obj j /\
  status_key (save at_ fs j) = status_key j /\
  journal (sys (save at_ fs j))
    = journal (sys j) ++
      [{| site := at_; fields := fs;
          row := generation_status_columns fs (status_obj j) r |}] /\
  lesson_blocks (db (sys (save at_ fs j))) = lesson_blocks (db (sys j)) /\
  world (sys (save at_ fs j)) = world (sys j).
Proof.
  intros Hrow. unfold save, save_generation_status. simpl.
  rewrite Hrow. simpl. rewrite lookup_insert_eq. done.
Qed.

Lemma save_set_total at_ n j :
  synced j ->
  let j' := save at_ ["total"; "updated_at"] (set_total n j) in
  synced j' /\
  status_obj j' = status_obj (set_total n j) /\
  status_key j' = status_key j /\
  journal (sys j')
    = journal (sys j) ++
      [{| site := at_; fields := ["total"; "updated_at"];
          row := status_obj (set_total n j) |}] /\
  lesson_blocks (db (sys j')) = lesson_blocks (db (sys j)) /\
  world (sys j') = world (sys j).
Proof.
  intros Hs. apply (save_row at_ _ (set_total n j) (status_obj j)); [exact Hs|].
  destruct j as [k [t c st0] s]. reflexivity.
Qed.

Lemma save_set_status at_ st j :
  synced j ->
  let j' := save at_ ["status"; "updated_at"] (set_status st j) in
  synced j' /\
  status_obj j' = status_obj (set_status st j) /\
  status_key j' = status_key j /\
  journal (sys j')
    = journal (sys j) ++
      [{| site := at_; fields := ["status"; "updated_at"];
          row := status_obj (set_status st j) |}] /\
  lesson_blocks (db (sys j')) = lesson_blocks (db (sys j)) /\
  world (sys j') = world (sys j).
Proof.
  intros Hs. apply (save_row at_ _ (set_status st j) (status_obj j)); [exact Hs|].
  destruct j as [k [t c st0] s]. reflexivity.
Qed.


End SaveFacts.
(** ** The loop over the hints *)

(** What a chain of moves keeps: the counters stay at 0 or above and the
    totals only go down. *)
Lemma steps_move_facts ws : forall prev,
  0 <= GenerationStatus.completed prev ->
  0 <= GenerationStatus.total prev ->
  steps_move prev ws ->
  Forall snapshot_nonneg ws /\
  Forall (fun w => GenerationStatus.total (row w) <= GenerationStatus.total prev) ws /\
  never_increases (totals ws) /\
  GenerationStatus.completed prev <= GenerationStatus.completed (last_row prev ws) /\
  GenerationStatus.total (last_row prev ws) <= GenerationStatus.total prev.
Proof.
  induction ws as [|w ws IH]; intros prev Hc Ht Hsteps.
  { split; [constructor|]. split; [constructor|]. split; [constructor|]. simpl. lia. }
  destruct Hsteps as [Hw Hrest].
  assert (Hrow : 0 <= GenerationStatus.completed (row w) /\
                 0 <= GenerationStatus.total (row w) /\
                 GenerationStatus.completed prev <= GenerationStatus.completed (row w) /\
                 GenerationStatus.total (row w) <= GenerationStatus.total prev).
  { unfold step_moves in Hw. destruct (site w); try done; lia. }
  destruct Hrow as (Hc' & Ht' & Hcle & Htle).
  destruct (IH (row w) Hc' Ht' Hrest) as (Hnn & Hle & Hsorted & Hclast & Htlast).
  split; [constructor; [by split|done]|].
  split; [constructor; [done|]; eapply Forall_impl; [exact Hle|]; simpl; intros; lia|].
  split.
  { unfold never_increases, totals in *. simpl. constructor; [done|].
    apply Forall_forall. intros x Hx. apply list_elem_of_fmap in Hx as (w' & -> & Hw').
    by apply (proj1 (Forall_forall _ _) Hle w'). }
  simpl. lia.
Qed.


(** A job whose row is the object is a job whose row follows it. *)
Lemma loop_invariant_state rest j : loop_invariant rest j -> loop_state rest j.
Proof.
  intros (Hs & Hc & Ht).
  exists (status_obj j). split; [exact Hs|]. split; [done|]. split; [done|]. lia.
Qed.

Lemma loop_state_tracked rest j : loop_state rest j -> tracked j.
Proof. intros (r & Hr & Ht & Hs & Hc & _). by exists r. Qed.

Section LoopFacts.

Variable json_loads : string -> option json.
Variable py_str : json -> string.

Lemma call_generate_text_frame E k j :
  (call_generate_text json_loads E k j).1
    = (generate_text json_loads (backend E k) (world (sys j))).1 /\
  status_obj (call_generate_text json_loads E k j).2 = status_obj j /\
  status_key (call_generate_text json_loads E k j).2 = status_key j /\
  db (sys (call_generate_text json_loads E k j).2) = db (sys j) /\
  journal (sys (call_generate_text json_loads E k j).2) = journal (sys j) /\
  world (sys (call_generate_text json_loads E k j).2)
    = (generate_text json_loads (backend E k) (world (sys j))).2.
Proof.
  unfold call_generate_text.
  by destruct (generate_text json_loads (backend E k) (world (sys j))).
Qed.

(** The handler of the loop body on an object whose [total] is positive
    and stored: one write, which takes 1 from the stored [total]. *)
Lemma decrement_total_stored at_ j r :
  generation_statuses (db (sys j)) !! status_key j = Some r ->
  GenerationStatus.total r = GenerationStatus.total (status_obj j) ->
  0 < GenerationStatus.total (status_obj j) ->
  let j' := decrement_total at_ j in
  let r' := {| GenerationStatus.total := GenerationStatus.total r - 1;
               GenerationStatus.completed := GenerationStatus.completed r;
               GenerationStatus.status := GenerationStatus.status r |} in
  generation_statuses (db (sys j')) !! status_key j = Some r' /\
  status_obj j'
    = {| GenerationStatus.total := GenerationStatus.total (status_obj j) - 1;
         GenerationStatus.completed := GenerationStatus.completed (status_obj j);
         GenerationStatus.status := GenerationStatus.status (status_obj j) |} /\
  status_key j' = status_key j /\
  journal (sys j')
    = journal (sys j) ++ [{| site := at_; fields := ["total"; "updated_at"]; row := r' |}] /\
  lesson_blocks (db (sys j')) = lesson_blocks (db (sys j)) /\
  world (sys j') = world (sys j).
Proof.
  intros Hr Ht Hpos. unfold decrement_total.
  destruct (Z.ltb_spec 0 (GenerationStatus.total (status_obj j))) as [_|]; [|lia].
  cbv zeta.
  destruct (save_stored at_ ["total"; "updated_at"]
              (set_total (Z.max 0 (GenerationStatus.total (status_obj j) - 1)) j) r Hr)
    as (Hr' & Ho & Hk & Hj & Hb & Hw).
  assert (Hcols : generation_status_columns ["total"; "updated_at"]
                    (status_obj
                       (set_total (Z.max 0 (GenerationStatus.total (status_obj j) - 1)) j)) r
                  = {| GenerationStatus.total := GenerationStatus.total r - 1;
                       GenerationStatus.completed := GenerationStatus.completed r;
                       GenerationStatus.status := GenerationStatus.status r |}).
  { unfold generation_status_columns. simpl. f_equal. lia. }
  rewrite Hcols in Hr', Hj.
  split; [exact Hr'|]. split; [rewrite Ho; simpl; f_equal; lia|].
  split; [exact Hk|]. split; [exact Hj|]. split; [exact Hb|exact Hw].
Qed.


(** One turn of the loop, whatever the store does: it writes the row
    once, and that write raises [completed] or takes 1 from [total].  When
    the store accepts the writes of [completed], the row stays the object
    and [completed] goes up by 1 at a time. *)
Lemma section_step_general E lesson_id i block_topic rest j :
  loop_state (S rest) j ->
  match section_step json_loads py_str E lesson_id i block_topic j with
  | Exc j' => j' = j
  | Returned _ => False
  | Val _ j' =>
      loop_state rest j' /\
      status_key j' = status_key j /\
      exists r w,
        generation_statuses (db (sys j)) !! status_key j = Some r /\
        journal (sys j') = journal (sys j) ++ [w] /\
        section_write w = true /\
        step_moves r w /\
        generation_statuses (db (sys j')) !! status_key j' = Some (row w) /\
        (accepts_completed E -> loop_invariant (S rest) j ->
         loop_invariant rest j' /\ step_ok r w /\ snapshot_ok w)
  end.
Proof.
  intros (r & Hr & Hrt & Hrs & Hrc & Ht). unfold section_step.
  destruct (negb (sliceable (hint_of py_str block_topic))); [done|].
  destruct (call_generate_text_frame E i j) as (_ & Ho & Hk & Hdb & Hj & _).
  destruct (call_generate_text json_loads E i j) as [res j1]. cbn [fst snd] in *.
  assert (Hr1 : generation_statuses (db (sys j1)) !! status_key j1 = Some r)
    by (by rewrite Hdb, Hk).
  (* the handler, on a job that has the row and the total of [j1] *)
  assert (Hdec : forall at_ (j2 : Job),
    at_ = AtSkip \/ at_ = AtNotSaved ->
    generation_statuses (db (sys j2)) !! status_key j2 = Some r ->
    status_key j2 = status_key j ->
    journal (sys j2) = journal (sys j) ->
    GenerationStatus.total (status_obj j2) = GenerationStatus.total (status_obj j) ->
    GenerationStatus.status (status_obj j2) = GenerationStatus.status (status_obj j) ->
    GenerationStatus.completed (status_obj j)
      <= GenerationStatus.completed (status_obj j2)
      <= GenerationStatus.completed (status_obj j) + 1 ->
    (accepts_completed E ->
     GenerationStatus.completed (status_obj j2) = GenerationStatus.completed (status_obj j)) ->
    let j' := decrement_total at_ j2 in
    loop_state rest j' /\
    status_key j' = status_key j /\
    exists r0 w,
      generation_statuses (db (sys j)) !! status_key j = Some r0 /\
      journal (sys j') = journal (sys j) ++ [w] /\
      section_write w = true /\
      step_moves r0 w /\
      generation_statuses (db (sys j')) !! status_key j' = Some (row w) /\
      (accepts_completed E -> loop_invariant (S rest) j ->
       loop_invariant rest j' /\ step_ok r0 w /\ snapshot_ok w)).
  { intros at_ j2 Hat Hr2 Hk2 Hj2 Ht2 Hs2 Hc2 Hacc.
    destruct (decrement_total_stored at_ j2 r Hr2) as (Hr' & Ho' & Hk' & Hj' & _ & _);
      [lia|lia|].
    cbv zeta in *. set (j' := decrement_total at_ j2) in *.
    split; [|split; [congruence|]].
    - eexists. split; [rewrite Hk'; exact Hr'|]. rewrite Ho'. simpl.
      split; [lia|]. split; [congruence|lia].
    - eexists r, _. split; [exact Hr|]. split; [rewrite Hj', Hj2; reflexivity|].
      split; [unfold section_write; cbn [site]; by destruct Hat as [-> | ->]|].
      split; [unfold step_moves; cbn [site row]; destruct Hat as [-> | ->]; simpl; lia|].
      split; [rewrite Hk'; exact Hr'|].
      intros HE (Hsy & Hc0 & Ht0). specialize (Hacc HE).
      assert (r = status_obj j) as -> by (unfold synced in Hsy; congruence).
      split; [|split].
      + split; [|rewrite Ho'; simpl; lia].
        unfold synced. rewrite Hk', Hr', Ho', Ht2, Hs2, Hacc. done.
      + unfold step_ok. cbn [site row]. destruct Hat as [-> | ->]; simpl; lia.
      + unfold snapshot_ok. cbn [row]. simpl. lia. }
  destruct (block_fields json_loads i res) as [[[title content] has_task]|].
  2:{ apply (Hdec AtSkip j1); [by left|done|done|done|by rewrite Ho|by rewrite Ho|
                               rewrite Ho; lia|by rewrite Ho]. }
  match goal with
  | |- context [create_block E i ?b ?tbl] => destruct (create_block E i b tbl) as [tbl'|]
  end.
  2:{ apply (Hdec AtNotSaved j1); [by right|done|done|done|by rewrite Ho|by rewrite Ho|
                                   rewrite Ho; lia|by rewrite Ho]. }
  cbv zeta.
  set (j2 := set_sys _ j1).
  set (j3 := set_completed _ j2).
  assert (Hr3 : generation_statuses (db (sys j3)) !! status_key j3 = Some r) by exact Hr1.
  assert (Hc3 : GenerationStatus.completed (status_obj j3)
                = GenerationStatus.completed (status_obj j) + 1)
    by (unfold j3, j2; simpl; by rewrite Ho).
  assert (Ht3 : GenerationStatus.total (status_obj j3) = GenerationStatus.total (status_obj j))
    by (unfold j3, j2; simpl; by rewrite Ho).
  assert (Hs3 : GenerationStatus.status (status_obj j3) = GenerationStatus.status (status_obj j))
    by (unfold j3, j2; simpl; by rewrite Ho).
  destruct (completed_save_fails E i) eqn:Hfail.
  { apply (Hdec AtNotSaved j3); [by right|done|done|done|done|done|lia|].
    intros HE. rewrite HE in Hfail. done. }
  destruct (save_stored AtSaved ["completed"; "updated_at"] j3 r Hr3)
    as (Hr' & Ho' & Hk' & Hj' & _ & _).
  set (j' := save AtSaved ["completed"; "updated_at"] j3) in *.
  assert (Hcols : generation_status_columns ["completed"; "updated_at"] (status_obj j3) r
                  = {| GenerationStatus.total := GenerationStatus.total r;
                       GenerationStatus.completed
                         := GenerationStatus.completed (status_obj j) + 1;
                       GenerationStatus.status := GenerationStatus.status r |}).
  { unfold generation_status_columns. simpl. by rewrite Ho. }
  rewrite Hcols in Hr', Hj'.
  assert (Hobj' : status_obj j'
                  = {| GenerationStatus.total := GenerationStatus.total r;
                       GenerationStatus.completed
                         := GenerationStatus.completed (status_obj j) + 1;
                       GenerationStatus.status := GenerationStatus.status r |}).
  { rewrite Ho'. destruct (status_obj j3) as [t3 c3 s3] eqn:Ho3. simpl in *. congruence. }
  split; [|split; [rewrite Hk'; exact Hk|]].
  - eexists. split; [rewrite Hk'; exact Hr'|]. rewrite Hobj'. simpl. split; [done|].
    split; [done|lia].
  - eexists r, _. split; [exact Hr|].
    split; [rewrite Hj'; unfold j3, j2; simpl; rewrite Hj; reflexivity|].
    split; [done|]. split; [unfold step_moves; simpl; lia|].
    split; [rewrite Hk'; exact Hr'|].
    intros _ (Hsy & Hc0 & Ht0).
    assert (r = status_obj j) as -> by (unfold synced in Hsy; congruence).
    split; [|split].
    + split; [|rewrite Hobj'; simpl; lia].
      unfold synced. rewrite Hk', Hr', Hobj'. done.
    + unfold step_ok. simpl. lia.
    + unfold snapshot_ok. simpl. lia.
Qed.

(** The whole loop, whatever the store does: it falls through, with as
    many writes as hints, or is left by an exception; its writes are
    moves from the row it started on. *)
Lemma sections_loop_general E lesson_id blocks_hints :
  forall i j r0,
    loop_state (length blocks_hints) j ->
    generation_statuses (db (sys j)) !! status_key j = Some r0 ->
    exists j' ws,
      (sections_loop json_loads py_str E lesson_id i blocks_hints j = Val tt j' /\
       loop_state 0 j' /\ length ws = length blocks_hints
       \/ sections_loop json_loads py_str E lesson_id i blocks_hints j = Exc j') /\
      status_key j' = status_key j /\
      tracked j' /\
      0 <= GenerationStatus.completed (status_obj j') /\
      0 <= GenerationStatus.total (status_obj j') /\
      journal (sys j') = journal (sys j) ++ ws /\
      Forall (fun w => section_write w = true) ws /\
      (length ws <= length blocks_hints)%nat /\
      steps_move r0 ws /\
      generation_statuses (db (sys j')) !! status_key j' = Some (last_row r0 ws) /\
      (accepts_completed E -> loop_invariant (length blocks_hints) j ->
       synced j' /\
       GenerationStatus.completed (status_obj j') <= GenerationStatus.total (status_obj j') /\
       Forall snapshot_ok ws /\
       steps_ok r0 ws /\
       (forall j2, sections_loop json_loads py_str E lesson_id i blocks_hints j = Val tt j2 ->
                   loop_invariant 0 j')).
Proof.
  induction blocks_hints as [|block_topic rest IH]; intros i j r0 Hst Hr0.
  { exists j, []. split; [by left|]. split; [done|].
    pose proof (loop_state_tracked _ _ Hst) as Htr.
    destruct Hst as (r & Hr & Hrt & Hrs & Hrc & Ht).
    split; [done|]. split; [lia|]. split; [simpl in Ht; lia|].
    split; [by rewrite app_nil_r|]. split; [constructor|]. split; [done|].
    split; [done|]. split; [done|].
    intros _ Hinv. pose proof Hinv as (Hsy & Hc0 & Ht0).
    split; [done|]. split; [simpl in Ht0; lia|]. split; [constructor|]. done. }
  cbn [sections_loop].
  pose proof (section_step_general E lesson_id i block_topic (length rest) j Hst) as Hstep.
  destruct (section_step json_loads py_str E lesson_id i block_topic j) as [[] j1|j1|j1];
    [|done|].
  - destruct Hstep as (Hst1 & Hk1 & r & w & Hr & Hw & Hsw & Hmove & Hr1 & Hacc1).
    assert (r = r0) as -> by congruence.
    destruct (IH (S i) j1 (row w) Hst1 Hr1)
      as (j' & ws & Hres & Hk & Htr & Hc & Ht & Hj & Hsws & Hlen & Hmoves & Hlast & Hacc).
    exists j', (w :: ws).
    split.
    { destruct Hres as [(Hres & Hst' & Hlen')|Hres]; [left|by right].
      split; [done|]. split; [done|]. simpl. by rewrite Hlen'. }
    split; [congruence|]. split; [done|]. split; [done|]. split; [done|].
    split; [rewrite Hj, Hw, <- app_assoc; done|].
    split; [by constructor|]. split; [simpl; lia|]. split; [done|]. split; [done|].
    intros HE Hinv. destruct (Hacc1 HE Hinv) as (Hinv1 & Hok & Hsnap).
    destruct (Hacc HE Hinv1) as (Hsy' & Hle' & Hsnaps & Hoks & Hval).
    split; [done|]. split; [done|]. split; [by constructor|]. split; [done|done].
  - subst j1. exists j, []. split; [by right|]. split; [done|].
    pose proof (loop_state_tracked _ _ Hst) as Htr.
    destruct Hst as (r & Hr & Hrt & Hrs & Hrc & Ht).
    split; [done|]. split; [lia|]. split; [lia|].
    split; [by rewrite app_nil_r|]. split; [constructor|]. split; [simpl; lia|].
    split; [done|]. split; [done|].
    intros _ Hinv. pose proof Hinv as (Hsy & Hc0 & Ht0).
    split; [done|]. split; [lia|]. split; [constructor|]. split; [done|].
    intros j2 [=].
Qed.

End LoopFacts.

(** ** The phases of generate_lesson_task *)

Section JobFacts.

Variable json_loads : string -> option json.
Variable py_str : json -> string.

Lemma attempts_calls B model_cfg ns w :
  calls (attempts json_loads B model_cfg ns w).2 = calls w.
Proof.
  revert w. induction ns as [|n ns IH]; intros w; [done|].
  cbn [attempts].
  destruct (attempt_world json_loads B model_cfg n w) as (_ & _ & Hc).
  destruct (attempt json_loads B model_cfg n w) as [[v|] w1]; cbn [fst snd] in *; [done|].
  by rewrite IH.
Qed.

Lemma models_loop_calls B models w :
  calls (models_loop json_loads B models w).2 = calls w.
Proof.
  revert w. induction models as [|c models IH]; intros w; [done|].
  cbn [models_loop].
  pose proof (attempts_calls B c (seq 0 2) w) as Hc.
  destruct (attempts json_loads B c (seq 0 2) w) as [[v|] w1]; cbn [fst snd] in *; [done|].
  by rewrite IH.
Qed.

(** Every call of the dispatcher is counted once. *)
Lemma generate_text_calls B w :
  calls (generate_text json_loads B w).2 = S (calls w).
Proof.
  unfold generate_text, list_copy, random_shuffle, count_call. cbv zeta beta iota.
  by rewrite models_loop_calls.
Qed.

(** The task before its [try]: the row exists, the object and the row
    agree, and [completed] is 0. *)
Lemma start_job_spec lesson_id s lesson :
  lessons (db s) !! lesson_id = Some lesson ->
  exists j0 ws,
    start_job lesson_id s = Some j0 /\
    status_key j0 = lesson_id /\
    synced j0 /\
    GenerationStatus.completed (status_obj j0) = 0 /\
    GenerationStatus.total (status_obj j0)
      = match generation_statuses (db s) !! lesson_id with
        | Some r => GenerationStatus.total r
        | None => 0
        end /\
    journal (sys j0) = journal s ++ ws /\
    Forall (fun w => site w <> AtOutline) ws /\
    ((forall r, generation_statuses (db s) !! lesson_id = Some r ->
                0 <= GenerationStatus.total r) ->
     Forall snapshot_ok ws) /\
    lesson_blocks (db (sys j0)) = lesson_blocks (db s) /\
    world (sys j0) = world s.
Proof.
  intros Hl. unfold start_job, get_or_create. rewrite Hl.
  destruct (generation_statuses (db s) !! lesson_id) as [r|] eqn:Hr.
  - set (j := set_completed 0 (set_status GenerationStatus.IN_PROGRESS
                {| status_key := lesson_id; status_obj := r; sys := s |})).
    destruct (save_row AtStart ["status"; "completed"; "updated_at"] j r Hr)
      as (Hs & Ho & Hk & Hj & Hb & Hw); [by destruct r|].
    eexists _, _. split; [reflexivity|]. fold j.
    split; [done|]. split; [done|]. split; [by rewrite Ho|]. split; [by rewrite Ho|].
    split; [exact Hj|]. split; [by repeat constructor|].
    split; [|done].
    intros Hv. specialize (Hv r eq_refl). repeat constructor; simpl; lia.
  - set (r := {| GenerationStatus.total := 0; GenerationStatus.completed := 0;
                 GenerationStatus.status := GenerationStatus.IN_PROGRESS |}).
    set (s1 := {| db := with_generation_statuses
                          (<[lesson_id := r]> (generation_statuses (db s))) (db s);
                  world := world s;
                  journal := journal s ++
                    [{| site := AtCreate;
                        fields := ["lesson"; "status"; "total"; "completed"];
                        row := r |}] |}).
    set (j := set_completed 0 (set_status GenerationStatus.IN_PROGRESS
                {| status_key := lesson_id; status_obj := r; sys := s1 |})).
    destruct (save_row AtStart ["status"; "completed"; "updated_at"] j r)
      as (Hs & Ho & Hk & Hj & Hb & Hw);
      [simpl; apply lookup_insert_eq|done|].
    eexists _, _. split; [reflexivity|]. fold r s1 j.
    split; [done|]. split; [done|]. split; [by rewrite Ho|]. split; [by rewrite Ho|].
    split; [rewrite Hj; simpl; rewrite <- app_assoc; reflexivity|].
    split; [by repeat constructor|].
    split; [|done].
    intros _. repeat constructor; simpl; lia.
Qed.


(** The outline phase, case by case. *)
Lemma outline_phase_spec E j0 :
  synced j0 ->
  GenerationStatus.completed (status_obj j0) = 0 ->
  match outline_phase json_loads E j0 with
  | Val blocks_hints j1 =>
      loop_invariant (length blocks_hints) j1 /\
      status_key j1 = status_key j0 /\
      journal (sys j1)
        = journal (sys j0) ++
          [{| site := AtOutline; fields := ["total"; "updated_at"];
              row := status_obj j1 |}] /\
      lesson_blocks (db (sys j1)) = lesson_blocks (db (sys j0)) /\
      calls (world (sys j1)) = S (calls (world (sys j0))) /\
      GenerationStatus.total (status_obj j1) = Z.of_nat (length blocks_hints)
  | Returned j1 =>
      synced j1 /\
      status_key j1 = status_key j0 /\
      GenerationStatus.status (status_obj j1) = GenerationStatus.FAILED /\
      GenerationStatus.total (status_obj j1) = GenerationStatus.total (status_obj j0) /\
      GenerationStatus.completed (status_obj j1) = 0 /\
      (exists w,
          journal (sys j1) = journal (sys j0) ++ [w] /\
          site w <> AtOutline /\ row w = status_obj j1) /\
      lesson_blocks (db (sys j1)) = lesson_blocks (db (sys j0)) /\
      calls (world (sys j1)) = S (calls (world (sys j0)))
  | Exc j1 =>
      synced j1 /\
      status_key j1 = status_key j0 /\
      status_obj j1 = status_obj j0 /\
      journal (sys j1) = journal (sys j0) /\
      lesson_blocks (db (sys j1)) = lesson_blocks (db (sys j0)) /\
      calls (world (sys j1)) = S (calls (world (sys j0)))
  end.
Proof.
  intros Hs Hc. unfold outline_phase.
  destruct (call_generate_text_frame json_loads E 0 j0) as (_ & Ho & Hk & Hdb & Hj & Hw).
  destruct (call_generate_text json_loads E 0 j0) as [r j]. cbn [fst snd] in *.
  assert (Hsj : synced j) by (unfold synced; by rewrite Hdb, Hk, Ho).
  assert (Hcalls : calls (world (sys j)) = S (calls (world (sys j0))))
    by (rewrite Hw; apply generate_text_calls).
  assert (Hfailed : forall at_, at_ <> AtOutline ->
    let j1 := save at_ ["status"; "updated_at"] (set_status GenerationStatus.FAILED j) in
    synced j1 /\
    status_key j1 = status_key j0 /\
    GenerationStatus.status (status_obj j1) = GenerationStatus.FAILED /\
    GenerationStatus.total (status_obj j1) = GenerationStatus.total (status_obj j0) /\
    GenerationStatus.completed (status_obj j1) = 0 /\
    (exists w,
        journal (sys j1) = journal (sys j0) ++ [w] /\
        site w <> AtOutline /\ row w = status_obj j1) /\
    lesson_blocks (db (sys j1)) = lesson_blocks (db (sys j0)) /\
    calls (world (sys j1)) = S (calls (world (sys j0)))).
  { intros at_ Hat.
    destruct (save_set_status at_ GenerationStatus.FAILED j Hsj)
      as (Hs' & Ho' & Hk' & Hj' & Hb' & Hw').
    cbv zeta in *.
    split; [exact Hs'|]. split; [congruence|]. split; [by rewrite Ho'|].
    split; [rewrite Ho'; simpl; by rewrite Ho|].
    split; [rewrite Ho'; simpl; by rewrite Ho|].
    split; [|split; [rewrite Hb'; simpl; by rewrite Hdb|by rewrite Hw']].
    eexists. split; [rewrite Hj', Hj; reflexivity|]. split; [done|].
    cbn [row]. by rewrite Ho'. }
  destruct r as [structure_json|]; [|by rewrite Hdb].
  assert (Hstructure : forall structure,
    match
      match structure with
      | Some (JObj m) =>
          match dict_get_default "blocks" (JArr []) m with
          | JArr blocks_hints =>
              Val blocks_hints
                (save AtOutline ["total"; "updated_at"]
                   (set_total (Z.of_nat (length blocks_hints)) j))
          | _ =>
              Returned (save AtBadBlocks ["status"; "updated_at"]
                          (set_status GenerationStatus.FAILED j))
          end
      | Some _ => Exc j
      | None =>
          Returned (save AtBadJson ["status"; "updated_at"]
                      (set_status GenerationStatus.FAILED j))
      end
    with
    | Val blocks_hints j1 =>
        loop_invariant (length blocks_hints) j1 /\
        status_key j1 = status_key j0 /\
        journal (sys j1)
          = journal (sys j0) ++
            [{| site := AtOutline; fields := ["total"; "updated_at"];
                row := status_obj j1 |}] /\
        lesson_blocks (db (sys j1)) = lesson_blocks (db (sys j0)) /\
        calls (world (sys j1)) = S (calls (world (sys j0))) /\
        GenerationStatus.total (status_obj j1) = Z.of_nat (length blocks_hints)
    | Returned j1 =>
        synced j1 /\
        status_key j1 = status_key j0 /\
        GenerationStatus.status (status_obj j1) = GenerationStatus.FAILED /\
        GenerationStatus.total (status_obj j1) = GenerationStatus.total (status_obj j0) /\
        GenerationStatus.completed (status_obj j1) = 0 /\
        (exists w,
            journal (sys j1) = journal (sys j0) ++ [w] /\
            site w <> AtOutline /\ row w = status_obj j1) /\
        lesson_blocks (db (sys j1)) = lesson_blocks (db (sys j0)) /\
        calls (world (sys j1)) = S (calls (world (sys j0)))
    | Exc j1 =>
        synced j1 /\
        status_key j1 = status_key j0 /\
        status_obj j1 = status_obj j0 /\
        journal (sys j1) = journal (sys j0) /\
        lesson_blocks (db (sys j1)) = lesson_blocks (db (sys j0)) /\
        calls (world (sys j1)) = S (calls (world (sys j0)))
    end).
  { intros [structure|]; [|by apply (Hfailed AtBadJson)].
    destruct structure as [| | | | | |m]; try (by rewrite Hdb).
    destruct (dict_get_default "blocks" (JArr []) m) as [| | | | |blocks_hints|];
      try (by apply (Hfailed AtBadBlocks)).
    destruct (save_set_total AtOutline (Z.of_nat (length blocks_hints)) j Hsj)
      as (Hs' & Ho' & Hk' & Hj' & Hb' & Hw').
    cbv zeta in *.
    split; [|split; [congruence|split; [|split; [rewrite Hb'; simpl; by rewrite Hdb|
      split; [by rewrite Hw'|by rewrite Ho']]]]].
    - unfold loop_invariant. rewrite Ho'. simpl. rewrite Ho, Hc. split; [done|]. lia.
    - rewrite Hj', Hj, Ho'. reflexivity. }
  destruct (is_dict structure_json); [apply (Hstructure (Some structure_json))|].
  destruct structure_json as [| | | |text| |];
    first [apply (Hstructure None) | apply (Hstructure (json_loads text))].
Qed.

(** Renumbering the blocks leaves the status row alone. *)
Lemma reconcile_orders_frame E lesson_id j :
  status_obj (reconcile_orders E lesson_id j) = status_obj j /\
  status_key (reconcile_orders E lesson_id j) = status_key j /\
  journal (sys (reconcile_orders E lesson_id j)) = journal (sys j) /\
  generation_statuses (db (sys (reconcile_orders E lesson_id j)))
    = generation_statuses (db (sys j)) /\
  world (sys (reconcile_orders E lesson_id j)) = world (sys j).
Proof. done. Qed.

End JobFacts.
(** ** The whole task *)



Lemma filter_section_write_none (ws : list Write) :
  Forall (fun w => section_write w = false) ws ->
  filter (fun w => section_write w = true) ws = [].
Proof.
  induction 1 as [|w ws Hw _ IH]; [done|].
  rewrite filter_cons, IH. destruct (decide _); [congruence|done].
Qed.

Lemma filter_section_write_all (ws : list Write) :
  Forall (fun w => section_write w = true) ws ->
  filter (fun w => section_write w = true) ws = ws.
Proof.
  induction 1 as [|w ws Hw _ IH]; [done|].
  rewrite filter_cons, IH. destruct (decide _); [done|congruence].
Qed.

Lemma section_write_site w : section_write w = true -> site w <> AtOutline.
Proof. unfold section_write. by destruct (site w). Qed.

Section TaskFacts.

Variable json_loads : string -> option json.
Variable py_str : json -> string.

(** The write that ends the task, on a job whose row is the object: the
    final status, or FAILED from the outer handler. *)
Lemma closing_write at_ st j :
  synced j ->
  let j' := save at_ ["status"; "updated_at"] (set_status st j) in
  exists w,
    journal (sys j') = journal (sys j) ++ [w] /\
    site w = at_ /\
    row w = status_obj j' /\
    synced j' /\
    status_key j' = status_key j /\
    GenerationStatus.status (status_obj j') = st /\
    GenerationStatus.total (status_obj j') = GenerationStatus.total (status_obj j) /\
    GenerationStatus.completed (status_obj j')
      = GenerationStatus.completed (status_obj j) /\
    lesson_blocks (db (sys j')) = lesson_blocks (db (sys j)) /\
    world (sys j') = world (sys j).
Proof.
  intros Hs.
  destruct (save_set_status at_ st j Hs) as (Hs' & Ho & Hk & Hj & Hb & Hw).
  cbv zeta in *. eexists. split; [exact Hj|]. split; [done|].
  split; [cbn [row]; by rewrite Ho|]. split; [done|]. split; [done|].
  rewrite Ho. done.
Qed.

(** The same write on any stored row: the status is written, the counters
    of the row stay. *)
Lemma closing_write_stored at_ st j r :
  generation_statuses (db (sys j)) !! status_key j = Some r ->
  let j' := save at_ ["status"; "updated_at"] (set_status st j) in
  let r' := {| GenerationStatus.total := GenerationStatus.total r;
               GenerationStatus.completed := GenerationStatus.completed r;
               GenerationStatus.status := st |} in
  generation_statuses (db (sys j')) !! status_key j = Some r' /\
  journal (sys j')
    = journal (sys j) ++ [{| site := at_; fields := ["status"; "updated_at"]; row := r' |}] /\
  status_key j' = status_key j /\
  GenerationStatus.status (status_obj j') = st /\
  GenerationStatus.total (status_obj j') = GenerationStatus.total (status_obj j) /\
  GenerationStatus.completed (status_obj j') = GenerationStatus.completed (status_obj j) /\
  lesson_blocks (db (sys j')) = lesson_blocks (db (sys j)) /\
  world (sys j') = world (sys j).
Proof.
  intros Hr.
  destruct (save_stored at_ ["status"; "updated_at"] (set_status st j) r Hr)
    as (Hr' & Ho & Hk & Hj & Hb & Hw).
  cbv zeta. split; [exact Hr'|]. split; [exact Hj|]. split; [exact Hk|].
  rewrite Ho. done.
Qed.


End TaskFacts.



(** The run of the witness: three hints, the second one fails. *)
Example three_hints_journal :
  map (fun w => (site w, GenerationStatus.total (row w),
                 GenerationStatus.completed (row w), GenerationStatus.status (row w)))
    (journal (generate_lesson_task JsonDecoder.loads Scenario.render
                Scenario.three_hints 7%N Scenario.fresh))
  = [(AtCreate, 0, 0, GenerationStatus.IN_PROGRESS);
     (AtStart, 0, 0, GenerationStatus.IN_PROGRESS);
     (AtOutline, 3, 0, GenerationStatus.IN_PROGRESS);
     (AtSaved, 3, 1, GenerationStatus.IN_PROGRESS);
     (AtSkip, 2, 1, GenerationStatus.IN_PROGRESS);
     (AtSaved, 2, 2, GenerationStatus.IN_PROGRESS);
     (AtFinal, 2, 2, GenerationStatus.DONE)].
Proof. vm_compute. reflexivity. Qed.


Section Finalization.

Variable json_loads : string -> option json.
Variable py_str : json -> string.

(** When the statements of the [try] fall through: the final status is
    computed on the counters of the object, where [total] has not passed
    [completed]; the stored row has that status and that [total], and a
    [completed] between the two. *)
Lemma finalization_row E lesson_id s j0 j' :
  start_job lesson_id s = Some j0 ->
  job_body json_loads py_str E lesson_id j0 = Val tt j' ->
  generate_lesson_task json_loads py_str E lesson_id s = sys j' /\
  exists r,
    generation_statuses (db (sys j')) !! lesson_id = Some r /\
    GenerationStatus.status r
      = final_status (GenerationStatus.completed (status_obj j'))
          (GenerationStatus.total (status_obj j')) /\
    GenerationStatus.total r = GenerationStatus.total (status_obj j') /\
    0 <= GenerationStatus.total r <= GenerationStatus.completed r /\
    GenerationStatus.completed r <= GenerationStatus.completed (status_obj j') /\
    (accepts_completed E ->
     GenerationStatus.completed r = GenerationStatus.total r /\
     GenerationStatus.completed (status_obj j') = GenerationStatus.total (status_obj j')) /\
    (exists blocks_hints j1,
       outline_phase json_loads E j0 = Val blocks_hints j1 /\
       GenerationStatus.total r <= Z.of_nat (length blocks_hints)).
Proof.
  intros Hstart Hbody.
  split; [unfold generate_lesson_task; by rewrite Hstart, Hbody|].
  assert (Hl : exists lesson, lessons (db s) !! lesson_id = Some lesson).
  { unfold start_job in Hstart. destruct (lessons (db s) !! lesson_id); [by eexists|done]. }
  destruct Hl as [lesson Hl].
  destruct (start_job_spec lesson_id s lesson Hl)
    as (j0' & ws0 & Hstart' & Hk0 & Hs0 & Hc0 & _).
  rewrite Hstart in Hstart'. injection Hstart' as <-.
  unfold job_body in Hbody.
  pose proof (outline_phase_spec json_loads E j0 Hs0 Hc0) as Hout.
  destruct (outline_phase json_loads E j0) as [blocks_hints j1|j1|j1]; [|done|done].
  destruct Hout as (Hinv1 & Hk1 & _ & _ & _ & Htot1).
  pose proof Hinv1 as (Hs1 & Hc1 & _).
  destruct (sections_loop_general json_loads py_str E lesson_id blocks_hints 1%nat j1
              (status_obj j1) (loop_invariant_state _ _ Hinv1) Hs1)
    as (j2 & ws & Hres & Hk2 & _ & _ & _ & _ & _ & _ & Hmoves & Hlast & Hacc).
  destruct (steps_move_facts ws (status_obj j1) Hc1 ltac:(lia) Hmoves)
    as (_ & _ & _ & _ & Hdown).
  destruct Hres as [(Hloop & Hst2 & _) | Hloop]; rewrite Hloop in Hbody; [|done].
  injection Hbody as <-.
  destruct Hst2 as (r2 & Hr2 & Ht2 & _ & Hc2 & Hb2).
  pose proof (reconcile_orders_frame E lesson_id j2) as (Ho3 & Hk3 & _ & Hg3 & _).
  set (j3 := reconcile_orders E lesson_id j2) in *.
  assert (Hr3 : generation_statuses (db (sys j3)) !! status_key j3 = Some r2)
    by (by rewrite Hg3, Hk3).
  destruct (closing_write_stored AtFinal
              (final_status (GenerationStatus.completed (status_obj j3))
                 (GenerationStatus.total (status_obj j3))) j3 r2 Hr3)
    as (Hr' & _ & Hk' & Hst & Htot & Hcomp & _).
  fold (finalize j3) in Hr', Hk', Hst, Htot, Hcomp.
  rewrite Hk3, Hk2, Hk1, Hk0 in Hr'.
  eexists. split; [exact Hr'|]. cbn [GenerationStatus.status GenerationStatus.total
                                     GenerationStatus.completed].
  rewrite Htot, Hcomp, Ho3.
  split; [done|]. split; [done|]. split; [simpl in Hb2; lia|]. split; [lia|].
  split.
  - intros HE. destruct (Hacc HE Hinv1) as (_ & _ & _ & _ & Hval).
    destruct (Hval j2 Hloop) as (Hsy & _ & Heq).
    assert (r2 = status_obj j2) as -> by (unfold synced in Hsy; congruence).
    simpl in Heq. lia.
  - exists blocks_hints, j1. split; [done|].
    assert (r2 = last_row (status_obj j1) ws) as -> by congruence. lia.
Qed.

End Finalization.

(** C2.  When a run reaches finalization (the statements of the [try] fall
    through), with [c] and [t] the [completed] and [total] that the task
    holds there: the stored status is DONE if [c = t], else FAILED if
    [c = 0], else IN_PROGRESS; in particular it is DONE when
    [t = c = 0].  The loop leaves [0 <= t <= c], so the second case never
    applies: the run ends DONE when [c = t] and IN_PROGRESS otherwise.
    The stored row has the [total] of the task and a [completed] between
    [t] and [c]; when the status is DONE, and whenever the store has
    accepted every write of [completed], the three are equal. *)
Theorem terminal_status (json_loads : string -> option json) (py_str : json -> string)
    (E : JobEnv) (lesson_id : N) (s : Sys) (c t : Z) :
  counters_at_finalization json_loads py_str E lesson_id s = Some (c, t) ->
  exists r,
    generation_statuses (db (generate_lesson_task json_loads py_str E lesson_id s)) !! lesson_id
      = Some r /\
    (c = t -> GenerationStatus.status r = GenerationStatus.DONE) /\
    (c <> t -> c = 0 -> GenerationStatus.status r = GenerationStatus.FAILED) /\
    (c <> t -> c <> 0 -> GenerationStatus.status r = GenerationStatus.IN_PROGRESS) /\
    (t = 0 -> c = 0 -> GenerationStatus.status r = GenerationStatus.DONE) /\
    0 <= t <= c /\
    GenerationStatus.total r = t /\
    t <= GenerationStatus.completed r <= c /\
    (accepts_completed E -> c = t).
Proof.
  unfold counters_at_finalization. intros Hfin.
  destruct (start_job lesson_id s) as [j0|] eqn:Hstart; [|done].
  destruct (job_body json_loads py_str E lesson_id j0) as [[] j'|j'|j'] eqn:Hbody;
    [|done|done].
  injection Hfin as <- <-.
  destruct (finalization_row json_loads py_str E lesson_id s j0 j' Hstart Hbody)
    as (-> & r & Hr & Hst & Ht & Hle & Hc & Hacc & _).
  exists r. split; [done|]. rewrite Hst. unfold final_status.
  destruct (Z.eqb_spec (GenerationStatus.completed (status_obj j'))
              (GenerationStatus.total (status_obj j')));
    destruct (Z.eqb_spec (GenerationStatus.completed (status_obj j')) 0);
    repeat split; intros; try done; try lia; by apply Hacc.
Qed.

(** The run of [Scenario.refused_first]: the task reaches finalization
    with 2 of 1 and ends IN_PROGRESS. *)
Lemma terminal_status_witness :
  GenerationStatus.status <$>
    generation_statuses
      (db (generate_lesson_task JsonDecoder.loads Scenario.render
             Scenario.refused_first 7%N Scenario.fresh)) !! 7%N
  = Some GenerationStatus.IN_PROGRESS.
Proof.
  destruct (terminal_status JsonDecoder.loads Scenario.render
              Scenario.refused_first 7%N Scenario.fresh 2 1)
    as (r & Hr & _ & _ & Hprogress & _).
  - vm_compute. reflexivity.
  - rewrite Hr. simpl. f_equal. apply Hprogress; lia.
Defined.

(** A run that reaches finalization with [total = completed = 0]: the
    outline has no hints. *)
Example empty_outline_is_done :
  counters_at_finalization JsonDecoder.loads Scenario.render
    Scenario.empty_answers 7%N Scenario.fresh = Some (0, 0) /\
  generation_statuses
    (db (generate_lesson_task JsonDecoder.loads Scenario.render
           Scenario.empty_answers 7%N Scenario.fresh)) !! 7%N
  = Some {| GenerationStatus.total := 0; GenerationStatus.completed := 0;
            GenerationStatus.status := GenerationStatus.DONE |}.
Proof. vm_compute. auto. Qed.

(** Five hints of which two fail: three blocks, numbered 1 to 3, and the
    row ends at 3 of 3, DONE. *)
Example five_hints_two_fail :
  let s' := generate_lesson_task JsonDecoder.loads Scenario.render
              Scenario.five_hints 7%N Scenario.fresh in
  generation_statuses (db s') !! 7%N
    = Some {| GenerationStatus.total := 3; GenerationStatus.completed := 3;
              GenerationStatus.status := GenerationStatus.DONE |} /\
  map (fun kb => (kb.1, LessonBlock.order kb.2)) (blocks_of_lesson 7%N (lesson_blocks (db s')))
    = [(99%N, 1); (97%N, 2); (95%N, 3)].
Proof. vm_compute. auto. Qed.

(** Three hints that all fail: no block, and the row ends at 0 of 0, which
    the final status reads as DONE. *)
Example three_hints_all_fail :
  let s' := generate_lesson_task JsonDecoder.loads Scenario.render
              Scenario.all_fail 7%N Scenario.fresh in
  generation_statuses (db s') !! 7%N
    = Some {| GenerationStatus.total := 0; GenerationStatus.completed := 0;
              GenerationStatus.status := GenerationStatus.DONE |} /\
  blocks_of_lesson 7%N (lesson_blocks (db s')) = [].
Proof. vm_compute. auto. Qed.

(** One hint whose section is stored while the write of [completed] is
    refused: the task finalizes with 1 of 0 and ends IN_PROGRESS, and the
    stored row, which never took the count, reads 0 of 0. *)
Example refused_only_write :
  let s' := generate_lesson_task JsonDecoder.loads Scenario.render
              Scenario.refused_only 7%N Scenario.fresh in
  counters_at_finalization JsonDecoder.loads Scenario.render
    Scenario.refused_only 7%N Scenario.fresh = Some (1, 0) /\
  generation_statuses (db s') !! 7%N
    = Some {| GenerationStatus.total := 0; GenerationStatus.completed := 0;
              GenerationStatus.status := GenerationStatus.IN_PROGRESS |} /\
  map fst (blocks_of_lesson 7%N (lesson_blocks (db s'))) = [99%N].
Proof. vm_compute. auto. Qed.

(** ** The outline *)

Section OutlineFacts.

Variable json_loads : string -> option json.
Variable py_str : json -> string.



End OutlineFacts.




(** ** One hint *)

Section StepFacts.

Variable json_loads : string -> option json.
Variable py_str : json -> string.





End StepFacts.



(** ** improve_block_task *)

Section ImproveFacts.

Variable json_loads : string -> option json.
Variable py_str : json -> string.




End ImproveFacts.



(** The two ways the run of the witness can go. *)
Example improve_replaces_content :
  let s' := improve_block_task JsonDecoder.loads Scenario.render
              (Scenario.improving (JsonDecoder.dq "{'improved_content': 'Half of a pie.'}"))
              99%N "simplify" 5 Scenario.with_block in
  LessonBlock.content <$> lesson_blocks (db s') !! 99%N = Some "Half of a pie."%string /\
  improve_statuses (db s') !! 5
  = Some {| ImproveStatus.block := 99; ImproveStatus.mode := "simplify";
            ImproveStatus.status := ImproveStatus.DONE;
            ImproveStatus.task_id := Some "task-1"%string;
            ImproveStatus.result_content := Some "Half of a pie."%string |}.
Proof. vm_compute. auto. Qed.

Example improve_without_content :
  let s' := improve_block_task JsonDecoder.loads Scenario.render
              (Scenario.improving (JsonDecoder.dq "{'note': 'nothing to improve'}"))
              99%N "simplify" 5 Scenario.with_block in
  LessonBlock.content <$> lesson_blocks (db s') !! 99%N = Some "One half is ..."%string /\
  ImproveStatus.status <$> improve_statuses (db s') !! 5 = Some ImproveStatus.FAILED.
Proof. vm_compute. auto. Qed.


(** ** Renumbering the blocks *)

#[local] Instance block_le_total : Total block_le.
Proof. intros [k1 b1] [k2 b2]. unfold block_le. simpl. lia. Qed.

#[local] Instance block_le_trans : Transitive block_le.
Proof. intros [k1 b1] [k2 b2] [k3 b3]. unfold block_le. simpl. lia. Qed.

Lemma set_order_same b : LessonBlock.set_order (LessonBlock.order b) b = b.
Proof. by destruct b. Qed.

(** On blocks already numbered from [idx] the loop writes nothing. *)
Lemma fix_orders_contiguous fails blocks : forall (k : nat) tbl,
  map (fun kb => LessonBlock.order kb.2) blocks = map Z.of_nat (seq k (length blocks)) ->
  fix_orders fails (Z.of_nat k) blocks tbl = (tbl, []).
Proof.
  induction blocks as [|[key b] rest IH]; intros k tbl Hc; [done|].
  simpl in Hc. injection Hc as Hb Hrest.
  cbn [fix_orders]. rewrite Hb, Z.eqb_refl.
  replace (Z.of_nat k + 1) with (Z.of_nat (S k)) by lia. by apply IH.
Qed.

Lemma renumbered_keys idx blocks : (renumbered idx blocks).*1 = blocks.*1.
Proof.
  revert idx. induction blocks as [|[k b] rest IH]; intros idx; simpl; [done|].
  by rewrite IH.
Qed.

Lemma renumbered_orders blocks : forall k : nat,
  map (fun kb => LessonBlock.order kb.2) (renumbered (Z.of_nat k) blocks)
  = map Z.of_nat (seq k (length blocks)).
Proof.
  induction blocks as [|[key b] rest IH]; intros k; simpl; [done|].
  f_equal. replace (Z.of_nat k + 1) with (Z.of_nat (S k)) by lia. apply IH.
Qed.

Lemma renumbered_elem idx blocks k b' :
  (k, b') ∈ renumbered idx blocks ->
  exists b n, (k, b) ∈ blocks /\ b' = LessonBlock.set_order n b /\ idx <= n.
Proof.
  revert idx. induction blocks as [|[k0 b0] rest IH]; intros idx; simpl.
  - by intros ?%elem_of_nil.
  - intros [[= -> ->]|Hin]%elem_of_cons.
    + exists b0, idx. split; [apply elem_of_cons; by left|]. split; [done|lia].
    + destruct (IH _ Hin) as (b & n & Hb & -> & Hn).
      exists b, n. split; [apply elem_of_cons; by right|]. split; [done|lia].
Qed.

Lemma renumbered_sorted idx blocks : StronglySorted block_le (renumbered idx blocks).
Proof.
  revert idx. induction blocks as [|[k b] rest IH]; intros idx; simpl; constructor.
  - apply IH.
  - apply Forall_forall. intros [k' b'] Hin.
    destruct (renumbered_elem _ _ _ _ Hin) as (b0 & n & _ & -> & Hn).
    left. simpl. lia.
Qed.

(** The table the loop leaves when no save fails: every block of the list
    has its new order, and no other row has changed. *)
Lemma fix_orders_table blocks : forall idx tbl,
  NoDup blocks.*1 ->
  (forall k b, (k, b) ∈ blocks -> tbl !! k = Some b) ->
  (forall k b', (k, b') ∈ renumbered idx blocks ->
                (fix_orders (fun _ => false) idx blocks tbl).1 !! k = Some b') /\
  (forall k, k ∉ blocks.*1 ->
             (fix_orders (fun _ => false) idx blocks tbl).1 !! k = tbl !! k).
Proof.
  induction blocks as [|[k0 b0] rest IH]; intros idx tbl Hnd Htbl.
  { split; [by intros k b' ?%elem_of_nil|done]. }
  apply NoDup_cons in Hnd as [Hk0 Hnd].
  set (tbl1 := if LessonBlock.order b0 =? idx then tbl
               else alter (LessonBlock.set_order idx) k0 tbl).
  assert (Hres : (fix_orders (fun _ => false) idx ((k0, b0) :: rest) tbl).1
                 = (fix_orders (fun _ => false) (idx + 1) rest tbl1).1).
  { cbn [fix_orders]. unfold tbl1.
    destruct (LessonBlock.order b0 =? idx); [done|].
    by destruct (fix_orders (fun _ => false) (idx + 1) rest
                   (alter (LessonBlock.set_order idx) k0 tbl)). }
  rewrite Hres.
  assert (Hk0' : tbl1 !! k0 = Some (LessonBlock.set_order idx b0)).
  { unfold tbl1. destruct (Z.eqb_spec (LessonBlock.order b0) idx) as [<-|_].
    - rewrite set_order_same. apply Htbl, elem_of_cons. by left.
    - rewrite lookup_alter_eq, (Htbl k0 b0); [done|]. apply elem_of_cons. by left. }
  assert (Hother : forall k, k <> k0 -> tbl1 !! k = tbl !! k).
  { intros k Hne. unfold tbl1. destruct (LessonBlock.order b0 =? idx); [done|].
    by rewrite lookup_alter_ne. }
  destruct (IH (idx + 1) tbl1 Hnd) as [IH1 IH2].
  { intros k b Hin. rewrite Hother.
    - apply Htbl, elem_of_cons. by right.
    - intros ->. apply Hk0. by apply (list_elem_of_fmap_2 fst _ (k0, b)). }
  split.
  - intros k b' [[= -> ->]|Hin]%elem_of_cons.
    + rewrite IH2; [done|]. exact Hk0.
    + by apply IH1.
  - intros k Hk. rewrite fmap_cons in Hk. apply not_elem_of_cons in Hk as [Hne Hk].
    rewrite IH2 by done. by apply Hother.
Qed.

Section BlocksOfLesson.

Variable lesson_id : N.

Lemma blocks_of_lesson_elem tbl k b :
  (k, b) ∈ blocks_of_lesson lesson_id tbl <->
  tbl !! k = Some b /\ LessonBlock.lesson b = lesson_id.
Proof.
  unfold blocks_of_lesson. rewrite merge_sort_Permutation, list_elem_of_filter.
  rewrite elem_of_map_to_list. simpl. tauto.
Qed.

Lemma blocks_of_lesson_keys tbl : NoDup (blocks_of_lesson lesson_id tbl).*1.
Proof.
  unfold blocks_of_lesson. rewrite merge_sort_Permutation.
  eapply sublist_NoDup; [apply (NoDup_fst_map_to_list tbl)|].
  apply fmap_sublist, sublist_filter.
Qed.

(** After a renumbering without failures the blocks of the lesson, read
    in order again, are the renumbered list. *)
Lemma blocks_after_reconcile tbl :
  blocks_of_lesson lesson_id (reconcile (fun _ => false) lesson_id tbl).1
  = renumbered 1 (blocks_of_lesson lesson_id tbl).
Proof.
  unfold reconcile.
  set (bs := blocks_of_lesson lesson_id tbl).
  destruct (fix_orders_table bs 1 tbl (blocks_of_lesson_keys tbl)) as [Hnew Hold].
  { intros k b Hin. by apply blocks_of_lesson_elem in Hin as [? _]. }
  set (tbl' := (fix_orders (fun _ => false) 1 bs tbl).1) in *.
  assert (Hmem : forall k b', (k, b') ∈ blocks_of_lesson lesson_id tbl' <->
                              (k, b') ∈ renumbered 1 bs).
  { intros k b'. rewrite blocks_of_lesson_elem. split.
    - intros [Hk Hl].
      destruct (decide (k ∈ bs.*1)) as [Hin|Hout].
      + rewrite <- (renumbered_keys 1) in Hin.
        apply list_elem_of_fmap in Hin as ([k' b''] & -> & Hin). simpl in *.
        rewrite (Hnew _ _ Hin) in Hk. by injection Hk as <-.
      + exfalso. apply Hout. rewrite Hold in Hk by done.
        apply (list_elem_of_fmap_2 fst _ (k, b')), blocks_of_lesson_elem. done.
    - intros Hin. split; [by apply Hnew|].
      destruct (renumbered_elem _ _ _ _ Hin) as (b & n & Hb & -> & _).
      by apply blocks_of_lesson_elem in Hb as [_ Hb]. }
  apply (StronglySorted_unique_strong block_le).
  - intros [k1 b1] [k2 b2] H1 H2 Hle1 Hle2.
    apply Hmem in H2. apply blocks_of_lesson_elem in H1 as [H1 _].
    apply blocks_of_lesson_elem in H2 as [H2 _].
    assert (k1 = k2) by (unfold block_le in *; simpl in *; lia). subst k2.
    congruence.
  - apply StronglySorted_merge_sort; apply _.
  - apply renumbered_sorted.
  - apply NoDup_Permutation.
    + eapply NoDup_fmap_1, blocks_of_lesson_keys.
    + eapply NoDup_fmap_1. rewrite renumbered_keys. apply blocks_of_lesson_keys.
    + intros [k b']. apply Hmem.
Qed.

End BlocksOfLesson.

(** C8.  Renumbering is idempotent.  Applied to blocks whose orders are
    already 1, 2, ..., N in reading order, it makes no write and leaves the
    table as it is, whatever the store would do on a write; and the table a
    renumbering leaves (no write of it failing) is such a table, so that
    running it again makes no write and changes nothing. *)
Theorem reconcile_idempotent (fails : N -> bool) (lesson_id : N)
    (tbl : gmap N LessonBlock.t) :
  (contiguous (blocks_of_lesson lesson_id tbl) ->
   reconcile fails lesson_id tbl = (tbl, [])) /\
  contiguous (blocks_of_lesson lesson_id (reconcile (fun _ => false) lesson_id tbl).1) /\
  reconcile fails lesson_id (reconcile (fun _ => false) lesson_id tbl).1
    = ((reconcile (fun _ => false) lesson_id tbl).1, []).
Proof.
  assert (Hfix : forall t, contiguous (blocks_of_lesson lesson_id t) ->
                           reconcile fails lesson_id t = (t, [])).
  { intros t Hc. unfold reconcile. by apply (fix_orders_contiguous fails _ 1%nat). }
  assert (Hcont : contiguous
                    (blocks_of_lesson lesson_id (reconcile (fun _ => false) lesson_id tbl).1)).
  { unfold contiguous. rewrite blocks_after_reconcile.
    rewrite (renumbered_orders _ 1%nat).
    do 2 f_equal. rewrite <- !(length_fmap fst), renumbered_keys. done. }
  split; [apply Hfix|]. split; [exact Hcont|]. by apply Hfix.
Qed.

(** On a numbered table nothing is written, even by a store that would
    refuse every write. *)
Lemma reconcile_idempotent_witness :
  reconcile (fun _ => true) 7%N Scenario.numbered = (Scenario.numbered, []).
Proof.
  apply (proj1 (reconcile_idempotent (fun _ => true) 7%N Scenario.numbered)).
  vm_compute. reflexivity.
Defined.

(** A table with a gap and a tie: one write closes the gap (the tie is
    broken by the key), the block of the other lesson is left alone, and a
    second run writes nothing. *)
Example reconcile_closes_gaps :
  (reconcile (fun _ => false) 7%N Scenario.gapped).2 = [(96%N, 2)] /\
  map (fun kb => (kb.1, LessonBlock.order kb.2))
    (blocks_of_lesson 7%N (reconcile (fun _ => false) 7%N Scenario.gapped).1)
  = [(99%N, 1); (96%N, 2); (97%N, 3)] /\
  LessonBlock.order <$> (reconcile (fun _ => false) 7%N Scenario.gapped).1 !! 50%N = Some 5 /\
  (reconcile (fun _ => false) 7%N
     (reconcile (fun _ => false) 7%N Scenario.gapped).1).2 = [].
Proof. vm_compute. auto. Qed.
(** * The dispatcher, beyond one pass *)

Section DispatcherMore.

Variable json_loads : string -> option json.

Lemma attempt_usage B model_cfg n w :
  usage (attempt json_loads B model_cfg n w).2
  = usage w ++ (if answered B (model_cfg, n) then [name model_cfg] else []).
Proof.
  unfold attempt, answered. cbn [fst snd].
  destruct (String.eqb (provider model_cfg) "Google").
  - destruct (google B (name model_cfg) n); simpl; by rewrite ?app_nil_r.
  - destruct (String.eqb (provider model_cfg) "Groq"); [|by rewrite app_nil_r].
    destruct (groq B (name model_cfg) n); simpl; by rewrite ?app_nil_r.
Qed.

Lemma reached_app B l1 l2 :
  reached json_loads B (l1 ++ l2) =
    match first_yield json_loads B l1 with
    | Ok _ => reached json_loads B l1
    | RuntimeError => l1 ++ reached json_loads B l2
    end.
Proof.
  induction l1 as [|[c n] l1 IH]; simpl; [done|].
  destruct (yields json_loads B c n); [done|].
  rewrite IH. by destruct (first_yield json_loads B l1).
Qed.

Lemma reached_all B l :
  first_yield json_loads B l = RuntimeError -> reached json_loads B l = l.
Proof.
  intros H. rewrite <- (app_nil_r l) at 1. by rewrite reached_app, H, app_nil_r.
Qed.

(** The combination a pass stops at is the first that yields. *)
Lemma reached_last B l v :
  first_yield json_loads B l = Ok v ->
  exists l0 e, reached json_loads B l = l0 ++ [e] /\
               yields json_loads B e.1 e.2 = Some v /\
               Forall (fun e' => yields json_loads B e'.1 e'.2 = None) l0.
Proof.
  induction l as [|[c n] l IH]; simpl; [done|].
  destruct (yields json_loads B c n) as [u|] eqn:Hy.
  - intros [= ->]. exists [], (c, n). by repeat split.
  - intros H. destruct (IH H) as (l0 & e & -> & He & Hl0).
    exists ((c, n) :: l0), e. split; [done|]. split; [done|]. by constructor.
Qed.

Lemma attempts_reach B model_cfg ns w :
  decodes_objects json_loads ->
  let l := reached json_loads B (map (pair model_cfg) ns) in
  trying (attempts json_loads B model_cfg ns w).2 = trying w ++ map label l /\
  usage (attempts json_loads B model_cfg ns w).2
    = usage w ++ map (fun e => name e.1) (filter (fun e => answered B e = true) l).
Proof.
  intros Hd. revert w. induction ns as [|n ns IH]; intros w; simpl.
  { by rewrite !app_nil_r. }
  pose proof (attempt_flow json_loads B model_cfg n w Hd) as Hflow.
  destruct (attempt_world json_loads B model_cfg n w) as (Htr & _ & _).
  pose proof (attempt_usage B model_cfg n w) as Hu.
  destruct (attempt json_loads B model_cfg n w) as [f w1]. cbn [fst snd] in *.
  destruct (yields json_loads B model_cfg n) as [v|] eqn:Hy; subst f.
  - cbn [fst snd]. rewrite Htr, Hu. split; [done|].
    rewrite filter_cons, filter_nil. by destruct (decide _) as [->| ->%not_true_is_false].
  - destruct (IH w1) as [Htr' Hu']. rewrite Htr', Hu', Htr, Hu, <- !app_assoc.
    split; [done|]. f_equal. rewrite filter_cons.
    by destruct (decide _) as [->| ->%not_true_is_false].
Qed.

Lemma models_loop_reach B models w :
  decodes_objects json_loads ->
  let l := reached json_loads B (schedule models) in
  trying (models_loop json_loads B models w).2 = trying w ++ map label l /\
  usage (models_loop json_loads B models w).2
    = usage w ++ map (fun e => name e.1) (filter (fun e => answered B e = true) l).
Proof.
  intros Hd. revert w. induction models as [|c models IH]; intros w.
  { simpl. by rewrite !app_nil_r. }
  cbn [models_loop schedule flat_map]. cbv zeta. rewrite reached_app.
  destruct (attempts_spec json_loads B c (seq 0 2) w Hd) as (_ & _ & tr & _ & Hm).
  destruct (attempts_reach B c (seq 0 2) w Hd) as [Htr Hu].
  destruct (attempts json_loads B c (seq 0 2) w) as [[v|] w1]; cbn [fst snd] in *.
  - destruct Hm as [_ ->]. done.
  - destruct Hm as [_ Hf]. rewrite Hf.
    destruct (IH w1) as [Htr' Hu']. cbv zeta in Htr', Hu'.
    rewrite Htr', Hu', Htr, Hu, (reached_all _ _ Hf), <- !app_assoc.
    by rewrite filter_app, !map_app.
Qed.

End DispatcherMore.

Lemma reached_prefix json_loads B l : reached json_loads B l `prefix_of` l.
Proof.
  induction l as [|[c n] l IH]; simpl; [done|].
  destruct (yields json_loads B c n).
  - apply (prefix_cons _ []), prefix_nil.
  - by apply prefix_cons.
Qed.

Lemma schedule_length models : length (schedule models) = (2 * length models)%nat.
Proof. induction models as [|c models IH]; simpl; [done|]. rewrite IH. lia. Qed.

(** X1.  [extract_json] hands the decoder the text from the first opening
    brace to the last closing brace: when the text has no closing brace, or
    its last closing brace comes before its first opening brace, that text
    is empty and nothing is extracted. *)
Theorem extract_json_needs_closing_brace (json_loads : string -> option json)
    (text : string) :
  json_loads EmptyString = None ->
  PyStr.rfind "}" text < PyStr.find "{" text ->
  extract_json json_loads text = None.
Proof.
  intros Hnil Hlt. unfold extract_json.
  unfold PyStr.find, PyStr.rfind in *.
  destruct (PyStr.index "{" text) as [i|]; [|done].
  destruct (_ || _); [done|].
  destruct (PyStr.rindex "}" text) as [j|].
  - replace (Z.of_nat j + 1) with (Z.of_nat (S j)) by lia.
    rewrite slice_backwards by lia. done.
  - change (-1 + 1) with (Z.of_nat 0). rewrite slice_backwards by lia. done.
Qed.

Lemma extract_json_needs_closing_brace_witness :
  extract_json JsonDecoder.loads "done } and then { 1: 2" = None.
Proof.
  apply (extract_json_needs_closing_brace JsonDecoder.loads "done } and then { 1: 2").
  - reflexivity.
  - vm_compute. reflexivity.
Defined.

(** X2.  One call of [generate_text] tries the combinations of the
    shuffled pass in order and stops at the first one that yields a
    mapping: the "Trying model" lines are exactly the combinations up to
    that one, [incr_usage] is called once for each of them whose client
    returned and for no other, at most 12 provider calls are made, and all
    12 are made when the call raises. *)
Theorem generate_text_accounting (json_loads : string -> option json)
    (B : Backend) (w : World) :
  decodes_objects json_loads ->
  (forall l, shuffle B l ≡ₚ l) ->
  lists w !! AI_MODELS_ref = Some AI_MODELS ->
  let l := reached json_loads B (schedule (shuffle B AI_MODELS)) in
  tried json_loads B w = map label l /\
  counted json_loads B w
    = map (fun e => name e.1) (filter (fun e => answered B e = true) l) /\
  (length (tried json_loads B w) <= 12)%nat /\
  ((generate_text json_loads B w).1 = RuntimeError ->
   length (tried json_loads B w) = 12%nat /\
   Forall (fun e => yields json_loads B e.1 e.2 = None) l) /\
  (forall v, (generate_text json_loads B w).1 = Ok v ->
     exists l0 e, l = l0 ++ [e] /\
       yields json_loads B e.1 e.2 = Some v /\
       Forall (fun e' => yields json_loads B e'.1 e'.2 = None) l0).
Proof.
  intros Hd Hperm Hl l.
  destruct (generate_text_spec json_loads B w Hd Hl) as (Hr & _ & _).
  assert (Hlen : length (schedule (shuffle B AI_MODELS)) = 12%nat).
  { rewrite schedule_length, (Hperm AI_MODELS). reflexivity. }
  assert (Hw : trying (generate_text json_loads B w).2 = trying w ++ map label l /\
               usage (generate_text json_loads B w).2
               = usage w ++ map (fun e => name e.1)
                              (filter (fun e => answered B e = true) l)).
  { unfold generate_text, list_copy, random_shuffle, count_call. cbv beta zeta iota.
    cbn [lists usage trying calls].
    rewrite (list_lookup_total_correct _ _ _ Hl).
    rewrite (list_lookup_total_middle (lists w) [] AI_MODELS (length (lists w)) eq_refl).
    assert (Hins : <[length (lists w) := shuffle B AI_MODELS]> (lists w ++ [AI_MODELS])
                   = lists w ++ [shuffle B AI_MODELS]).
    { rewrite <- (Nat.add_0_r (length (lists w))) at 1. by rewrite insert_app_r. }
    rewrite Hins.
    rewrite (list_lookup_total_middle (lists w) [] (shuffle B AI_MODELS)
               (length (lists w)) eq_refl).
    match goal with
    | |- context [models_loop _ _ _ ?w0] =>
        destruct (models_loop_reach json_loads B (shuffle B AI_MODELS) w0 Hd) as [Ht Hu]
    end.
    cbv zeta in Ht, Hu. rewrite Ht, Hu. done. }
  destruct Hw as [Ht Hu].
  assert (Htried : tried json_loads B w = map label l).
  { unfold tried. by rewrite Ht, drop_app_length. }
  split; [done|]. split; [unfold counted; by rewrite Hu, drop_app_length|].
  split; [|split].
  - rewrite Htried, length_map, <- Hlen. apply prefix_length, reached_prefix.
  - intros He. rewrite Hr in He. unfold l. rewrite (reached_all _ _ _ He) in *.
    rewrite Htried. subst l. rewrite (reached_all _ _ _ He), length_map.
    split; [done|]. apply Forall_forall. intros [c n] Hin.
    by apply (proj1 (first_yield_error json_loads B _) He).
  - intros v Hv. rewrite Hr in Hv. by apply reached_last.
Qed.

Lemma generate_text_accounting_witness :
  tried JsonDecoder.loads (Scenario2.groq_second (JsonDecoder.dq "{'blocks': []}"))
    initial_world
  = [("qwen/qwen3-32b", 0%nat); ("qwen/qwen3-32b", 1%nat)] /\
  counted JsonDecoder.loads (Scenario2.groq_second (JsonDecoder.dq "{'blocks': []}"))
    initial_world
  = ["qwen/qwen3-32b"; "qwen/qwen3-32b"].
Proof.
  destruct (generate_text_accounting JsonDecoder.loads
              (Scenario2.groq_second (JsonDecoder.dq "{'blocks': []}")) initial_world)
    as (Ht & Hc & _).
  - exact loads_decodes_objects.
  - intros l. simpl. symmetry. apply Permutation_rev.
  - reflexivity.
  - split; [rewrite Ht|rewrite Hc]; vm_compute; reflexivity.
Defined.

(** * The generation task, beyond its status row *)

Lemma same_outside_refl lesson_id d : same_outside lesson_id d d.
Proof. by repeat split. Qed.

Lemma same_outside_trans lesson_id d1 d2 d3 :
  same_outside lesson_id d1 d2 -> same_outside lesson_id d2 d3 ->
  same_outside lesson_id d1 d3.
Proof.
  intros (H1 & H2 & H3) (H1' & H2' & H3'). split; [congruence|]. split; [congruence|].
  intros k Hk. by rewrite H3', H3.
Qed.

Lemma save_outside at_ fs j :
  same_outside (status_key j) (db (sys j)) (db (sys (save at_ fs j))).
Proof.
  unfold save, save_generation_status. cbn [sys].
  destruct (generation_statuses (db (sys j)) !! status_key j); [|apply same_outside_refl].
  split; [done|]. split; [done|]. intros k Hk. cbn. by rewrite lookup_insert_ne.
Qed.

Lemma blocks_kept_refl lesson_id tbl : blocks_kept lesson_id tbl tbl.
Proof.
  split; [done|]. split; [|congruence].
  intros k b Hk _. exists (LessonBlock.order b). by rewrite set_order_same.
Qed.

Lemma set_order_twice n m b :
  LessonBlock.set_order n (LessonBlock.set_order m b) = LessonBlock.set_order n b.
Proof. done. Qed.

Lemma blocks_kept_trans lesson_id t1 t2 t3 :
  blocks_kept lesson_id t1 t2 -> blocks_kept lesson_id t2 t3 ->
  blocks_kept lesson_id t1 t3.
Proof.
  intros (A1 & A2 & A3) (B1 & B2 & B3). split; [|split].
  - intros k b Hk Hl. apply B1; [by apply A1|done].
  - intros k b Hk Hl. destruct (A2 k b Hk Hl) as [n Hn].
    destruct (B2 k _ Hn Hl) as [m Hm]. exists m. by rewrite Hm, set_order_twice.
  - intros k b' Hk Hnone.
    destruct (t2 !! k) as [b2|] eqn:H2; [|by eapply B3].
    pose proof (A3 k b2 H2 Hnone) as Hl2.
    destruct (B2 k b2 H2 Hl2) as [n Hn]. rewrite Hn in Hk. by injection Hk as <-.
Qed.

(** The count of the blocks of a lesson depends on which keys hold a
    block of the lesson only. *)
Lemma block_count_keys lesson_id tbl tbl' :
  (forall k, (exists b, tbl' !! k = Some b /\ LessonBlock.lesson b = lesson_id) <->
             (exists b, tbl !! k = Some b /\ LessonBlock.lesson b = lesson_id)) ->
  block_count lesson_id tbl' = block_count lesson_id tbl.
Proof.
  intros H. unfold block_count.
  rewrite <- (length_fmap fst (blocks_of_lesson lesson_id tbl')).
  rewrite <- (length_fmap fst (blocks_of_lesson lesson_id tbl)).
  apply Permutation_length, NoDup_Permutation; try apply blocks_of_lesson_keys.
  intros k. rewrite !list_elem_of_fmap. split.
  - intros ([k' b] & -> & Hin). apply blocks_of_lesson_elem in Hin.
    destruct (proj1 (H k') (ex_intro _ b Hin)) as [b0 Hb0].
    exists (k', b0). split; [done|]. by apply blocks_of_lesson_elem.
  - intros ([k' b] & -> & Hin). apply blocks_of_lesson_elem in Hin.
    destruct (proj2 (H k') (ex_intro _ b Hin)) as [b0 Hb0].
    exists (k', b0). split; [done|]. by apply blocks_of_lesson_elem.
Qed.

Lemma block_count_insert lesson_id tbl k b :
  tbl !! k = None -> LessonBlock.lesson b = lesson_id ->
  block_count lesson_id (<[k := b]> tbl) = S (block_count lesson_id tbl).
Proof.
  intros Hk Hb. unfold block_count.
  change (S (length (blocks_of_lesson lesson_id tbl)))
    with (length ((k, b) :: blocks_of_lesson lesson_id tbl)).
  apply Permutation_length, NoDup_Permutation.
  - eapply NoDup_fmap_1, blocks_of_lesson_keys.
  - apply NoDup_cons. split.
    + intros Hin. apply blocks_of_lesson_elem in Hin as [Hin _]. congruence.
    + eapply NoDup_fmap_1, blocks_of_lesson_keys.
  - intros [k' b']. rewrite elem_of_cons, !blocks_of_lesson_elem. split.
    + intros [Hl Hles]. destruct (decide (k' = k)) as [->|Hne].
      * rewrite lookup_insert_eq in Hl. injection Hl as <-. by left.
      * rewrite lookup_insert_ne in Hl by done. by right.
    + intros [[= -> ->]|[Hl Hles]]; [by rewrite lookup_insert_eq|].
      split; [|done]. rewrite lookup_insert_ne; [done|]. congruence.
Qed.

(** The renumbering loop, whatever fails: a row is left as it is or has
    a new order, and only rows of the list change. *)
Lemma fix_orders_rows fails blocks : forall idx tbl k,
  (fix_orders fails idx blocks tbl).1 !! k = tbl !! k \/
  k ∈ blocks.*1 /\
  exists b n, tbl !! k = Some b /\
              (fix_orders fails idx blocks tbl).1 !! k = Some (LessonBlock.set_order n b).
Proof.
  induction blocks as [|[k0 b0] rest IH]; intros idx tbl k; [by left|].
  cbn [fix_orders].
  destruct (LessonBlock.order b0 =? idx).
  { destruct (IH (idx + 1) tbl k) as [H|[Hin H]]; [by left|].
    right. split; [|done]. rewrite fmap_cons. apply elem_of_cons. by right. }
  destruct (fails k0); [by left|].
  specialize (IH (idx + 1) (alter (LessonBlock.set_order idx) k0 tbl) k).
  destruct (fix_orders fails (idx + 1) rest (alter (LessonBlock.set_order idx) k0 tbl))
    as [tbl' ws]. cbn [fst] in *.
  destruct (decide (k = k0)) as [->|Hne].
  - rewrite lookup_alter_eq in IH.
    destruct (tbl !! k0) as [b|] eqn:Hb; simpl in IH.
    + right. split; [rewrite fmap_cons; apply elem_of_cons; by left|].
      destruct IH as [H|[_ (b' & n & [= <-] & H)]]; eauto.
    + left. destruct IH as [H|[_ (b' & n & [=] & _)]]. done.
  - rewrite lookup_alter_ne in IH by done.
    destruct IH as [H|[Hin H]]; [by left|].
    right. split; [|done]. rewrite fmap_cons. apply elem_of_cons. by right.
Qed.

Lemma reconcile_kept fails lesson_id tbl :
  blocks_kept lesson_id tbl (reconcile fails lesson_id tbl).1 /\
  block_count lesson_id (reconcile fails lesson_id tbl).1 = block_count lesson_id tbl.
Proof.
  unfold reconcile.
  pose proof (fix_orders_rows fails (blocks_of_lesson lesson_id tbl) 1 tbl) as Hrows.
  set (tbl' := (fix_orders fails 1 (blocks_of_lesson lesson_id tbl) tbl).1) in *.
  split; [split; [|split]|].
  - intros k b Hk Hl. destruct (Hrows k) as [H|[Hin _]]; [congruence|].
    apply list_elem_of_fmap in Hin as ([k' b'] & -> & Hin).
    apply blocks_of_lesson_elem in Hin as [Hin Hl']. simpl in *. congruence.
  - intros k b Hk Hl. destruct (Hrows k) as [H|[_ (b' & n & Hb' & H)]].
    + exists (LessonBlock.order b). rewrite set_order_same. congruence.
    + exists n. congruence.
  - intros k b' Hk Hnone. destruct (Hrows k) as [H|[_ (b & n & Hb & _)]]; congruence.
  - apply block_count_keys. intros k.
    destruct (Hrows k) as [->|[_ (b & n & Hb & ->)]]; [done|]. rewrite Hb.
    split; intros (b1 & [= <-] & Hl); eexists; (split; [done|]); by destruct b.
Qed.

Section TaskMore.

Variable json_loads : string -> option json.
Variable py_str : json -> string.

Lemma create_block_spec E i b tbl tbl' :
  create_block E i b tbl = Some tbl' ->
  tbl !! uuid4 E i = None /\ tbl' = <[uuid4 E i := b]> tbl.
Proof.
  unfold create_block. destruct (create_fails E i); [done|].
  destruct (tbl !! uuid4 E i); [done|]. by intros [= <-].
Qed.

Lemma blocks_kept_insert lesson_id tbl k b :
  tbl !! k = None -> LessonBlock.lesson b = lesson_id ->
  blocks_kept lesson_id tbl (<[k := b]> tbl).
Proof.
  intros Hk Hb. split; [|split].
  - intros k' b' Hk' _. rewrite lookup_insert_ne; [done|congruence].
  - intros k' b' Hk' _. exists (LessonBlock.order b'). rewrite set_order_same.
    rewrite lookup_insert_ne; [done|congruence].
  - intros k' b' Hk' Hnone. destruct (decide (k' = k)) as [->|Hne].
    + rewrite lookup_insert_eq in Hk'. by injection Hk' as <-.
    + rewrite lookup_insert_ne in Hk' by done. congruence.
Qed.

(** One turn of the loop: one call of the dispatcher, nothing touched
    outside the lesson, and a block more exactly when the object counts
    one more [completed]. *)
Lemma section_step_effects E lesson_id i block_topic rest j :
  loop_state (S rest) j ->
  match section_step json_loads py_str E lesson_id i block_topic j with
  | Exc j' => j' = j
  | Returned _ => False
  | Val _ j' =>
      calls (world (sys j')) = S (calls (world (sys j))) /\
      same_outside (status_key j) (db (sys j)) (db (sys j')) /\
      blocks_kept lesson_id (lesson_blocks (db (sys j))) (lesson_blocks (db (sys j'))) /\
      Z.of_nat (block_count lesson_id (lesson_blocks (db (sys j'))))
        - GenerationStatus.completed (status_obj j')
      = Z.of_nat (block_count lesson_id (lesson_blocks (db (sys j))))
        - GenerationStatus.completed (status_obj j)
  end.
Proof.
  intros (r & Hr & Hrt & _ & _ & Ht). unfold section_step.
  destruct (negb (sliceable (hint_of py_str block_topic))); [done|].
  destruct (call_generate_text_frame json_loads E i j) as (_ & Ho & Hk & Hdb & Hj & Hw).
  pose proof (generate_text_calls json_loads (backend E i) (world (sys j))) as Hcalls.
  rewrite <- Hw in Hcalls.
  destruct (call_generate_text json_loads E i j) as [res j1]. cbn [fst snd] in *.
  (* the handler, on a job that has the row, the total and the world of [j1] *)
  assert (Hdec : forall at_ (j2 : Job),
    generation_statuses (db (sys j2)) !! status_key j2 = Some r ->
    status_key j2 = status_key j ->
    GenerationStatus.total (status_obj j2) = GenerationStatus.total (status_obj j) ->
    world (sys j2) = world (sys j1) ->
    same_outside (status_key j) (db (sys j)) (db (sys j2)) ->
    blocks_kept lesson_id (lesson_blocks (db (sys j))) (lesson_blocks (db (sys j2))) ->
    Z.of_nat (block_count lesson_id (lesson_blocks (db (sys j2))))
      - GenerationStatus.completed (status_obj j2)
    = Z.of_nat (block_count lesson_id (lesson_blocks (db (sys j))))
      - GenerationStatus.completed (status_obj j) ->
    let j' := decrement_total at_ j2 in
    calls (world (sys j')) = S (calls (world (sys j))) /\
    same_outside (status_key j) (db (sys j)) (db (sys j')) /\
    blocks_kept lesson_id (lesson_blocks (db (sys j))) (lesson_blocks (db (sys j'))) /\
    Z.of_nat (block_count lesson_id (lesson_blocks (db (sys j'))))
      - GenerationStatus.completed (status_obj j')
    = Z.of_nat (block_count lesson_id (lesson_blocks (db (sys j))))
      - GenerationStatus.completed (status_obj j)).
  { intros at_ j2 Hr2 Hk2 Ht2 Hw2 Hout2 Hkept2 Hcount2.
    destruct (decrement_total_stored at_ j2 r Hr2) as (_ & Ho' & _ & _ & Hb' & Hw');
      [lia|lia|].
    cbv zeta in *. split; [by rewrite Hw', Hw2|]. split; [|split].
    - eapply same_outside_trans; [exact Hout2|]. rewrite <- Hk2.
      unfold decrement_total. destruct (0 <? GenerationStatus.total (status_obj j2));
        [apply (save_outside at_ _ (set_total _ j2))|apply same_outside_refl].
    - by rewrite Hb'.
    - rewrite Hb', Ho'. exact Hcount2. }
  destruct (block_fields json_loads i res) as [[[title content] has_task]|].
  2:{ apply (Hdec AtSkip j1); [by rewrite Hdb, Hk|done|by rewrite Ho|done| | |].
      - rewrite Hdb. apply same_outside_refl.
      - rewrite Hdb. apply blocks_kept_refl.
      - by rewrite Hdb, Ho. }
  destruct (create_block E i _ _) as [tbl'|] eqn:Hcreate.
  2:{ apply (Hdec AtNotSaved j1); [by rewrite Hdb, Hk|done|by rewrite Ho|done| | |].
      - rewrite Hdb. apply same_outside_refl.
      - rewrite Hdb. apply blocks_kept_refl.
      - by rewrite Hdb, Ho. }
  apply create_block_spec in Hcreate as [Hfresh ->].
  cbv zeta. set (j2 := set_sys _ j1). set (j3 := set_completed _ j2).
  assert (Hout3 : same_outside (status_key j) (db (sys j)) (db (sys j3))).
  { unfold j3, j2. simpl. rewrite Hdb. by repeat split. }
  assert (Hkept3 : blocks_kept lesson_id (lesson_blocks (db (sys j)))
                     (lesson_blocks (db (sys j3)))).
  { unfold j3, j2. simpl. rewrite Hdb in *. by apply blocks_kept_insert. }
  assert (Hcount3 : Z.of_nat (block_count lesson_id (lesson_blocks (db (sys j3))))
                      - GenerationStatus.completed (status_obj j3)
                    = Z.of_nat (block_count lesson_id (lesson_blocks (db (sys j))))
                      - GenerationStatus.completed (status_obj j)).
  { unfold j3, j2. simpl. rewrite Hdb in *.
    rewrite block_count_insert by done. rewrite Ho. lia. }
  destruct (completed_save_fails E i).
  { apply (Hdec AtNotSaved j3); try done.
    - unfold j3, j2. simpl. by rewrite Hdb, Hk.
    - unfold j3, j2. simpl. by rewrite Ho. }
  assert (Hr3 : generation_statuses (db (sys j3)) !! status_key j3 = Some r).
  { unfold j3, j2. simpl. by rewrite Hdb, Hk. }
  destruct (save_stored AtSaved ["completed"; "updated_at"] j3 r Hr3)
    as (_ & Ho' & _ & _ & Hb' & Hw').
  split; [rewrite Hw'; exact Hcalls|]. split; [|split].
  - eapply same_outside_trans; [exact Hout3|].
    replace (status_key j) with (status_key j3) by exact Hk. apply save_outside.
  - by rewrite Hb'.
  - by rewrite Hb', Ho'.
Qed.

Lemma sections_loop_effects E lesson_id blocks_hints :
  forall i j,
    loop_state (length blocks_hints) j ->
    exists j',
      (sections_loop json_loads py_str E lesson_id i blocks_hints j = Val tt j' \/
       sections_loop json_loads py_str E lesson_id i blocks_hints j = Exc j') /\
      (exists ws, journal (sys j') = journal (sys j) ++ ws /\
                  calls (world (sys j')) = (calls (world (sys j)) + length ws)%nat) /\
      same_outside (status_key j) (db (sys j)) (db (sys j')) /\
      blocks_kept lesson_id (lesson_blocks (db (sys j))) (lesson_blocks (db (sys j'))) /\
      Z.of_nat (block_count lesson_id (lesson_blocks (db (sys j'))))
        - GenerationStatus.completed (status_obj j')
      = Z.of_nat (block_count lesson_id (lesson_blocks (db (sys j))))
        - GenerationStatus.completed (status_obj j).
Proof.
  induction blocks_hints as [|block_topic rest IH]; intros i j Hst.
  { exists j. split; [by left|].
    split; [exists []; by rewrite app_nil_r, Nat.add_0_r|].
    split; [apply same_outside_refl|]. split; [apply blocks_kept_refl|done]. }
  cbn [sections_loop].
  pose proof (section_step_effects E lesson_id i block_topic (length rest) j Hst) as Heff.
  pose proof (section_step_general json_loads py_str E lesson_id i block_topic
                (length rest) j Hst) as Hstep.
  destruct (section_step json_loads py_str E lesson_id i block_topic j) as [[] j1|j1|j1];
    [|done|].
  - destruct Hstep as (Hst1 & Hk1 & r & w & _ & Hw & _).
    destruct Heff as (Hc & Hout & Hkept & Hcount).
    destruct (IH (S i) j1 Hst1)
      as (j' & Hres & (ws & Hj & Hc') & Hout' & Hkept' & Hcount').
    exists j'. split; [done|].
    split; [exists (w :: ws); split; [rewrite Hj, Hw, <- app_assoc; done|simpl; lia]|].
    split; [eapply same_outside_trans; [done|by rewrite <- Hk1]|].
    split; [by eapply blocks_kept_trans|lia].
  - subst j1. exists j. split; [by right|].
    split; [exists []; by rewrite app_nil_r, Nat.add_0_r|].
    split; [apply same_outside_refl|]. split; [apply blocks_kept_refl|done].
Qed.

End TaskMore.

Section RunMore.

Variable json_loads : string -> option json.
Variable py_str : json -> string.

(** The task before its [try], for what it leaves alone. *)
Lemma start_job_effects lesson_id s j0 :
  start_job lesson_id s = Some j0 ->
  (exists ws, journal (sys j0) = journal s ++ ws /\
              Forall (fun w => section_write w = false) ws /\
              Forall (fun w => site w <> AtOutline) ws) /\
  same_outside lesson_id (db s) (db (sys j0)).
Proof.
  unfold start_job, get_or_create.
  destruct (lessons (db s) !! lesson_id); [|done].
  destruct (generation_statuses (db s) !! lesson_id) as [r|] eqn:Hr; intros [= <-].
  - split; [|apply (save_outside AtStart _
                      (set_completed 0 (set_status GenerationStatus.IN_PROGRESS
                         {| status_key := lesson_id; status_obj := r; sys := s |})))].
    unfold save, save_generation_status. cbn. rewrite Hr. cbn.
    eexists. split; [reflexivity|]. split; by repeat constructor.
  - split.
    + unfold save, save_generation_status. cbn. rewrite lookup_insert_eq. cbn.
      eexists. split; [rewrite <- app_assoc; reflexivity|].
      split; by repeat constructor.
    + eapply same_outside_trans;
        [|apply (save_outside AtStart _
                   (set_completed 0 (set_status GenerationStatus.IN_PROGRESS
                      {| status_key := lesson_id; status_obj := _; sys := _ |})))].
      split; [done|]. split; [done|]. intros k Hk. simpl. by rewrite lookup_insert_ne.
Qed.

(** A write of the status alone, outside the loop. *)
Lemma status_write_effects at_ st j r0 :
  section_write {| site := at_; fields := []; row := status_obj j |} = false ->
  generation_statuses (db (sys j)) !! status_key j = Some r0 ->
  let j' := save at_ ["status"; "updated_at"] (set_status st j) in
  (exists w, journal (sys j') = journal (sys j) ++ [w] /\ section_write w = false /\
             site w = at_) /\
  same_outside (status_key j) (db (sys j)) (db (sys j')) /\
  lesson_blocks (db (sys j')) = lesson_blocks (db (sys j)) /\
  world (sys j') = world (sys j) /\
  exists r,
    generation_statuses (db (sys j')) !! status_key j = Some r /\
    GenerationStatus.completed r = GenerationStatus.completed r0.
Proof.
  intros Hat Hr0.
  destruct (closing_write_stored at_ st j r0 Hr0) as (Hr' & Hj & _ & _ & _ & _ & Hb & Hw).
  cbv zeta in *. split; [|split; [|split; [done|split; [done|]]]].
  - eexists. split; [exact Hj|]. split; [|done]. unfold section_write in *. exact Hat.
  - apply (save_outside at_ _ (set_status st j)).
  - eexists. split; [exact Hr'|done].
Qed.

Lemma outline_phase_effects E j0 :
  synced j0 ->
  GenerationStatus.completed (status_obj j0) = 0 ->
  forall j1,
    (exists hints, outline_phase json_loads E j0 = Val hints j1) \/
    outline_phase json_loads E j0 = Returned j1 \/
    outline_phase json_loads E j0 = Exc j1 ->
    (exists ws, journal (sys j1) = journal (sys j0) ++ ws /\
                Forall (fun w => section_write w = false) ws) /\
    same_outside (status_key j0) (db (sys j0)) (db (sys j1)).
Proof.
  intros Hs Hc j1. unfold outline_phase.
  destruct (call_generate_text_frame json_loads E 0 j0) as (_ & Ho & Hk & Hdb & Hj & _).
  destruct (call_generate_text json_loads E 0 j0) as [r j]. cbn [fst snd] in *.
  assert (Hsj : synced j) by (unfold synced; by rewrite Hdb, Hk, Ho).
  assert (Hsave : forall at_ fs j', section_write {| site := at_; fields := []; row := status_obj j |} = false ->
     status_key j' = status_key j -> sys j' = sys j ->
     (exists ws, journal (sys (save at_ fs j')) = journal (sys j0) ++ ws /\
                 Forall (fun w => section_write w = false) ws) /\
     same_outside (status_key j0) (db (sys j0)) (db (sys (save at_ fs j')))).
  { intros at_ fs j' Hat Hk' Hsys. split.
    - unfold save, save_generation_status. cbn [sys]. rewrite Hsys.
      destruct (generation_statuses (db (sys j)) !! status_key j').
      + cbn [journal]. rewrite Hj. eexists. split; [reflexivity|].
        constructor; [|constructor]. exact Hat.
      + rewrite Hj. exists []. by rewrite app_nil_r.
    - rewrite <- Hk, <- Hk', <- Hdb, <- Hsys. apply save_outside. }
  assert (Hnone : (exists ws, journal (sys j) = journal (sys j0) ++ ws /\
                              Forall (fun w => section_write w = false) ws) /\
                  same_outside (status_key j0) (db (sys j0)) (db (sys j))).
  { split; [exists []; by rewrite app_nil_r|]. rewrite Hdb. apply same_outside_refl. }
  assert (Hstructure : forall structure,
    (exists hints,
      match structure with
      | Some (JObj m) =>
          match dict_get_default "blocks" (JArr []) m with
          | JArr blocks_hints =>
              Val blocks_hints
                (save AtOutline ["total"; "updated_at"]
                   (set_total (Z.of_nat (length blocks_hints)) j))
          | _ =>
              Returned (save AtBadBlocks ["status"; "updated_at"]
                          (set_status GenerationStatus.FAILED j))
          end
      | Some _ => Exc j
      | None =>
          Returned (save AtBadJson ["status"; "updated_at"]
                      (set_status GenerationStatus.FAILED j))
      end = Val hints j1) \/
      match structure with
      | Some (JObj m) =>
          match dict_get_default "blocks" (JArr []) m with
          | JArr blocks_hints =>
              Val blocks_hints
                (save AtOutline ["total"; "updated_at"]
                   (set_total (Z.of_nat (length blocks_hints)) j))
          | _ =>
              Returned (save AtBadBlocks ["status"; "updated_at"]
                          (set_status GenerationStatus.FAILED j))
          end
      | Some _ => Exc j
      | None =>
          Returned (save AtBadJson ["status"; "updated_at"]
                      (set_status GenerationStatus.FAILED j))
      end = Returned j1 \/
      match structure with
      | Some (JObj m) =>
          match dict_get_default "blocks" (JArr []) m with
          | JArr blocks_hints =>
              Val blocks_hints
                (save AtOutline ["total"; "updated_at"]
                   (set_total (Z.of_nat (length blocks_hints)) j))
          | _ =>
              Returned (save AtBadBlocks ["status"; "updated_at"]
                          (set_status GenerationStatus.FAILED j))
          end
      | Some _ => Exc j
      | None =>
          Returned (save AtBadJson ["status"; "updated_at"]
                      (set_status GenerationStatus.FAILED j))
      end = Exc j1 ->
    (exists ws, journal (sys j1) = journal (sys j0) ++ ws /\
                Forall (fun w => section_write w = false) ws) /\
    same_outside (status_key j0) (db (sys j0)) (db (sys j1))).
  { intros [structure|].
    2:{ intros [[h [=]]|[[= <-]|[=]]]. by apply Hsave. }
    destruct structure as [| | | | | |m];
      try (intros [[h [=]]|[[=]|[= <-]]]; exact Hnone).
    destruct (dict_get_default "blocks" (JArr []) m) as [| | | | |blocks_hints|];
      try (intros [[h [=]]|[[= <-]|[=]]]; by apply Hsave).
    intros [[h [= _ <-]]|[[=]|[=]]]. by apply Hsave. }
  destruct r as [structure_json|]; [|intros [[h [=]]|[[=]|[= <-]]]; exact Hnone].
  destruct (is_dict structure_json); [apply (Hstructure (Some structure_json))|].
  destruct structure_json as [| | | |text| |];
    first [apply (Hstructure None) | apply (Hstructure (json_loads text))].
Qed.

(** One run, for everything but the status of the row. *)
Lemma generate_lesson_task_effects E lesson_id s lesson :
  lessons (db s) !! lesson_id = Some lesson ->
  let s' := generate_lesson_task json_loads py_str E lesson_id s in
  exists r ws,
    generation_statuses (db s') !! lesson_id = Some r /\
    same_outside lesson_id (db s) (db s') /\
    blocks_kept lesson_id (lesson_blocks (db s)) (lesson_blocks (db s')) /\
    0 <= GenerationStatus.completed r /\
    Z.of_nat (block_count lesson_id (lesson_blocks (db s))) + GenerationStatus.completed r
      <= Z.of_nat (block_count lesson_id (lesson_blocks (db s'))) /\
    (accepts_completed E ->
     Z.of_nat (block_count lesson_id (lesson_blocks (db s')))
       = Z.of_nat (block_count lesson_id (lesson_blocks (db s)))
         + GenerationStatus.completed r) /\
    journal s' = journal s ++ ws /\
    calls (world s')
      = S (calls (world s) + length (filter (fun w => section_write w = true) ws)) /\
    (forall w, w ∈ ws -> site w = AtOutline ->
       Z.of_nat (length (filter (fun w => section_write w = true) ws))
         <= GenerationStatus.total (row w)).
Proof.
  intros Hl. cbv zeta. unfold generate_lesson_task.
  destruct (start_job_spec lesson_id s lesson Hl)
    as (j0 & ws0' & Hstart & Hk0 & Hs0 & Hc0 & _ & _ & _ & _ & Hb0 & Hw0).
  rewrite Hstart.
  destruct (start_job_effects lesson_id s j0 Hstart) as ((ws0 & Hj0 & Hq0 & Hsite0) & Hout0).
  unfold job_body.
  pose proof (outline_phase_spec json_loads E j0 Hs0 Hc0) as Hspec.
  pose proof (outline_phase_effects E j0 Hs0 Hc0) as Heff.
  rewrite Hk0 in Heff.
  (* a closing write of the status *)
  assert (Hclose : forall at_ st (j : Job) ws1 r0,
    section_write {| site := at_; fields := []; row := status_obj j |} = false ->
    at_ <> AtOutline ->
    generation_statuses (db (sys j)) !! status_key j = Some r0 ->
    status_key j = lesson_id ->
    0 <= GenerationStatus.completed r0 <= GenerationStatus.completed (status_obj j) ->
    (accepts_completed E ->
     GenerationStatus.completed r0 = GenerationStatus.completed (status_obj j)) ->
    journal (sys j) = journal s ++ ws1 ->
    same_outside lesson_id (db s) (db (sys j)) ->
    blocks_kept lesson_id (lesson_blocks (db s)) (lesson_blocks (db (sys j))) ->
    Z.of_nat (block_count lesson_id (lesson_blocks (db (sys j))))
      = Z.of_nat (block_count lesson_id (lesson_blocks (db s)))
        + GenerationStatus.completed (status_obj j) ->
    calls (world (sys j))
      = S (calls (world s) + length (filter (fun w => section_write w = true) ws1)) ->
    (forall w, w ∈ ws1 -> site w = AtOutline ->
       Z.of_nat (length (filter (fun w => section_write w = true) ws1))
         <= GenerationStatus.total (row w)) ->
    let j' := save at_ ["status"; "updated_at"] (set_status st j) in
    exists r ws,
      generation_statuses (db (sys j')) !! lesson_id = Some r /\
      same_outside lesson_id (db s) (db (sys j')) /\
      blocks_kept lesson_id (lesson_blocks (db s)) (lesson_blocks (db (sys j'))) /\
      0 <= GenerationStatus.completed r /\
      Z.of_nat (block_count lesson_id (lesson_blocks (db s))) + GenerationStatus.completed r
        <= Z.of_nat (block_count lesson_id (lesson_blocks (db (sys j')))) /\
      (accepts_completed E ->
       Z.of_nat (block_count lesson_id (lesson_blocks (db (sys j'))))
         = Z.of_nat (block_count lesson_id (lesson_blocks (db s)))
           + GenerationStatus.completed r) /\
      journal (sys j') = journal s ++ ws /\
      calls (world (sys j'))
        = S (calls (world s) + length (filter (fun w => section_write w = true) ws)) /\
      (forall w, w ∈ ws -> site w = AtOutline ->
         Z.of_nat (length (filter (fun w => section_write w = true) ws))
           <= GenerationStatus.total (row w))).
  { intros at_ st j ws1 r0 Hat Hne Hr0 Hk Hle Heq Hj Hout Hkept Hcount Hcalls Hbound.
    destruct (status_write_effects at_ st j r0 Hat Hr0)
      as ((w & Hjw & Hsw & Hsitew) & Hout' & Hb' & Hw' & r & Hr & Hcr).
    cbv zeta in *. rewrite Hk in Hout', Hr.
    exists r, (ws1 ++ [w]).
    split; [exact Hr|].
    split; [by eapply same_outside_trans|]. split; [by rewrite Hb'|].
    split; [lia|]. split; [rewrite Hb'; lia|].
    split; [intros HE; rewrite Hb', Hcr, (Heq HE); exact Hcount|].
    split; [by rewrite Hjw, Hj, <- app_assoc|].
    assert (Hf : filter (fun w => section_write w = true) (ws1 ++ [w])
                 = filter (fun w => section_write w = true) ws1).
    { rewrite filter_app, (filter_section_write_none [w]), app_nil_r; [done|].
      by constructor. }
    rewrite Hf. split; [by rewrite Hw'|].
    intros w' [Hin|Hin%list_elem_of_singleton]%elem_of_app Hsite; [by apply Hbound|].
    subst w'. congruence. }
  destruct (outline_phase json_loads E j0) as [blocks_hints j1|j1|j1].
  - (* the outline is accepted *)
    destruct Hspec as (Hinv1 & Hk1 & Hj1 & Hb1 & Hcalls1 & Htot1).
    destruct (Heff j1 ltac:(left; by eexists)) as (_ & Hout1).
    pose proof Hinv1 as (Hs1 & Hc1 & Ht1).
    destruct (sections_loop_effects json_loads py_str E lesson_id blocks_hints 1%nat j1
                (loop_invariant_state _ _ Hinv1))
      as (j2 & Hres & (ws' & Hj2' & Hcalls2) & Hout2 & Hkept2 & Hcount2).
    destruct (sections_loop_general json_loads py_str E lesson_id blocks_hints 1%nat j1
                (status_obj j1) (loop_invariant_state _ _ Hinv1) Hs1)
      as (j2' & ws & Hres' & Hk2 & Htr2 & _ & _ & Hj2 & Hsws & Hlen & _ & _ & Hacc).
    assert (j2' = j2) as ->.
    { destruct Hres as [Hres|Hres], Hres' as [(Hres' & _)|Hres']; congruence. }
    assert (ws' = ws) as -> by (rewrite Hj2 in Hj2'; by apply app_inv_head in Hj2').
    rewrite Hk1, Hk0 in Hk2, Hout2.
    destruct Htr2 as (r2 & Hr2 & _ & _ & Hc2).
    set (w1 := {| site := AtOutline; fields := ["total"; "updated_at"];
                  row := status_obj j1 |}) in *.
    assert (Hjall : journal (sys j2) = journal s ++ (ws0 ++ [w1] ++ ws)).
    { rewrite Hj2, Hj1, Hj0, <- !app_assoc. done. }
    assert (Hfall : filter (fun w => section_write w = true) (ws0 ++ [w1] ++ ws) = ws).
    { rewrite !filter_app, (filter_section_write_none ws0 Hq0),
        (filter_section_write_none [w1]), filter_section_write_all by (done || by constructor).
      done. }
    assert (Hcount : Z.of_nat (block_count lesson_id (lesson_blocks (db (sys j2))))
                     = Z.of_nat (block_count lesson_id (lesson_blocks (db s)))
                       + GenerationStatus.completed (status_obj j2)).
    { rewrite Hb1, Hb0 in Hcount2. lia. }
    assert (Hout : same_outside lesson_id (db s) (db (sys j2))).
    { eapply same_outside_trans; [exact Hout0|].
      eapply same_outside_trans; [exact Hout1|exact Hout2]. }
    assert (Hkept : blocks_kept lesson_id (lesson_blocks (db s)) (lesson_blocks (db (sys j2)))).
    { by rewrite Hb1, Hb0 in Hkept2. }
    assert (Hcalls : calls (world (sys j2))
                     = S (calls (world s)
                          + length (filter (fun w => section_write w = true)
                                      (ws0 ++ [w1] ++ ws)))).
    { rewrite Hfall, Hcalls2, Hcalls1, Hw0. lia. }
    assert (Hbound : forall w, w ∈ ws0 ++ [w1] ++ ws -> site w = AtOutline ->
              Z.of_nat (length (filter (fun w => section_write w = true)
                                  (ws0 ++ [w1] ++ ws)))
                <= GenerationStatus.total (row w)).
    { rewrite Hfall. intros w Hin Hsite.
      apply elem_of_app in Hin as [Hin|Hin].
      { exfalso. by apply (proj1 (Forall_forall _ _) Hsite0 w Hin). }
      apply elem_of_app in Hin as [Hin%list_elem_of_singleton|Hin].
      - subst w. cbn [row w1]. lia.
      - exfalso. apply (section_write_site w); [|done].
        by apply (proj1 (Forall_forall _ _) Hsws w Hin). }
    assert (Hsame : accepts_completed E ->
              GenerationStatus.completed r2 = GenerationStatus.completed (status_obj j2)).
    { intros HE. destruct (Hacc HE Hinv1) as (Hsy2 & _).
      unfold synced in Hsy2. congruence. }
    destruct Hres as [-> | ->].
    + pose proof (reconcile_orders_frame E lesson_id j2) as (Ho3 & Hk3 & Hj3 & Hg3 & Hw3).
      destruct (reconcile_kept (order_save_fails E) lesson_id (lesson_blocks (db (sys j2))))
        as [Hkept3 Hcount3].
      set (j3 := reconcile_orders E lesson_id j2) in *.
      assert (Hb3 : lesson_blocks (db (sys j3))
                    = (reconcile (order_save_fails E) lesson_id
                         (lesson_blocks (db (sys j2)))).1) by done.
      unfold finalize.
      apply (Hclose AtFinal _ j3 (ws0 ++ [w1] ++ ws) r2); try done.
      * rewrite Hb3. by eapply blocks_kept_trans.
      * rewrite Hb3, Hcount3, Ho3. done.
    + by apply (Hclose AtError _ j2 (ws0 ++ [w1] ++ ws) r2).
  - (* the outline is refused *)
    destruct Hspec as (Hs1 & Hk1 & _ & _ & Hc1 & (w & Hj1 & Hsite1 & _) & Hb1 & Hcalls1).
    destruct (Heff j1 ltac:(right; by left)) as ((ws1 & Hj1' & Hq1) & Hout1).
    assert (ws1 = [w]) as -> by (rewrite Hj1 in Hj1'; by apply app_inv_head in Hj1').
    assert (Hfall : filter (fun w => section_write w = true) (ws0 ++ [w]) = []).
    { rewrite filter_app, (filter_section_write_none ws0 Hq0),
        (filter_section_write_none [w] Hq1). done. }
    exists (status_obj j1), (ws0 ++ [w]).
    split; [unfold synced in Hs1; by rewrite Hk1, Hk0 in Hs1|].
    split; [by eapply same_outside_trans|].
    split; [rewrite Hb1, Hb0; apply blocks_kept_refl|].
    split; [lia|]. split; [rewrite Hb1, Hb0, Hc1; lia|].
    split; [intros _; rewrite Hb1, Hb0, Hc1; lia|].
    split; [by rewrite Hj1, Hj0, <- app_assoc|]. rewrite Hfall.
    split; [rewrite Hcalls1, Hw0; simpl; lia|].
    intros w' [Hin|Hin%list_elem_of_singleton]%elem_of_app Hsite; exfalso.
    + by apply (proj1 (Forall_forall _ _) Hsite0 w' Hin).
    + congruence.
  - (* the dispatcher raises, or the outline has no [get] *)
    destruct Hspec as (Hs1 & Hk1 & Ho1 & Hj1 & Hb1 & Hcalls1).
    destruct (Heff j1 ltac:(right; by right)) as (_ & Hout1).
    assert (Hfall : filter (fun w => section_write w = true) ws0 = [])
      by apply (filter_section_write_none ws0 Hq0).
    apply (Hclose AtError _ j1 ws0 (status_obj j1)); try done.
    + congruence.
    + rewrite Ho1, Hc0. lia.
    + congruence.
    + by eapply same_outside_trans.
    + rewrite Hb1, Hb0. apply blocks_kept_refl.
    + rewrite Hb1, Hb0, Ho1, Hc0. lia.
    + rewrite Hfall, Hcalls1, Hw0. simpl. lia.
    + intros w Hin Hsite. exfalso. by apply (proj1 (Forall_forall _ _) Hsite0 w Hin).
Qed.

End RunMore.

(** X3.  A run of [generate_lesson_task] on a lesson changes nothing
    else: the lessons, the improvement jobs and the status rows of the
    other lessons are as before; no block is deleted; the blocks of the
    other lessons are untouched; a block the lesson already had changes in
    its order at most; and every new block belongs to the lesson. *)
Theorem generate_lesson_task_frame (json_loads : string -> option json)
    (py_str : json -> string) (E : JobEnv) (lesson_id : N) (s : Sys) :
  let s' := generate_lesson_task json_loads py_str E lesson_id s in
  same_outside lesson_id (db s) (db s') /\
  blocks_kept lesson_id (lesson_blocks (db s)) (lesson_blocks (db s')).
Proof.
  cbv zeta. destruct (lessons (db s) !! lesson_id) as [lesson|] eqn:Hl.
  - destruct (generate_lesson_task_effects json_loads py_str E lesson_id s lesson Hl)
      as (r & ws & _ & Hout & Hkept & _). done.
  - unfold generate_lesson_task, start_job. rewrite Hl.
    split; [apply same_outside_refl|apply blocks_kept_refl].
Qed.

(** X4.  The stored [completed] never counts a block that is not
    stored: after a run on an existing lesson, however it ends, the lesson
    has at least as many blocks more than before as the [completed] of its
    stored status row, which is 0 or more; and exactly as many when the
    store has accepted every write of [completed]. *)
Theorem completed_counts_blocks (json_loads : string -> option json)
    (py_str : json -> string) (E : JobEnv) (lesson_id : N) (s : Sys) (lesson : Lesson.t) :
  lessons (db s) !! lesson_id = Some lesson ->
  let s' := generate_lesson_task json_loads py_str E lesson_id s in
  exists r,
    generation_statuses (db s') !! lesson_id = Some r /\
    0 <= GenerationStatus.completed r /\
    Z.of_nat (block_count lesson_id (lesson_blocks (db s))) + GenerationStatus.completed r
      <= Z.of_nat (block_count lesson_id (lesson_blocks (db s'))) /\
    (accepts_completed E ->
     Z.of_nat (block_count lesson_id (lesson_blocks (db s')))
       = Z.of_nat (block_count lesson_id (lesson_blocks (db s)))
         + GenerationStatus.completed r).
Proof.
  intros Hl.
  destruct (generate_lesson_task_effects json_loads py_str E lesson_id s lesson Hl)
    as (r & ws & Hr & _ & _ & Hc & Hle & Heq & _).
  by exists r.
Qed.

(** The run of [Scenario.five_hints]: three blocks and a [completed] of
    3. *)
Lemma completed_counts_blocks_witness :
  exists r,
    generation_statuses
      (db (generate_lesson_task JsonDecoder.loads Scenario.render
             Scenario.five_hints 7%N Scenario.fresh)) !! 7%N = Some r /\
    Z.of_nat (block_count 7%N
                (lesson_blocks
                   (db (generate_lesson_task JsonDecoder.loads Scenario.render
                          Scenario.five_hints 7%N Scenario.fresh))))
      = Z.of_nat (block_count 7%N (lesson_blocks (db Scenario.fresh)))
        + GenerationStatus.completed r.
Proof.
  destruct (completed_counts_blocks JsonDecoder.loads Scenario.render
              Scenario.five_hints 7%N Scenario.fresh Scenario.lesson_7)
    as (r & Hr & _ & _ & Heq); [reflexivity|].
  exists r. split; [exact Hr|]. apply Heq. intros i. reflexivity.
Defined.

(** The run of [Scenario.refused_only]: one block more, and a stored
    [completed] of 0. *)
Example refused_write_is_not_counted :
  let s' := generate_lesson_task JsonDecoder.loads Scenario.render
              Scenario.refused_only 7%N Scenario.fresh in
  block_count 7%N (lesson_blocks (db s')) = 1%nat /\
  GenerationStatus.completed <$> generation_statuses (db s') !! 7%N = Some 0.
Proof. vm_compute. auto. Qed.



Section PlainHints.

Variable json_loads : string -> option json.
Variable py_str : json -> string.

(** The hint of an entry that is not a mapping is a text. *)
Lemma hint_of_not_a_mapping v :
  is_dict v = false -> sliceable (hint_of py_str v) = true.
Proof. by destruct v. Qed.

(** So is the hint of a mapping whose topic is a non-empty text. *)
Lemma hint_of_topic m t :
  dict_get "block_topic" m = JStr t -> t <> EmptyString ->
  sliceable (hint_of py_str (JObj m)) = true.
Proof.
  intros Ht Hne. unfold hint_of, py_or. rewrite Ht. simpl. by destruct t.
Qed.


End PlainHints.



(** * progress_percent at the ends *)

Lemma div_core_same p :
  SFdiv_core_binary PyFloat.prec PyFloat.emax (Z.pos p) 0 (Z.pos p) 0
  = (2 ^ 53, -53, loc_Exact).
Proof.
  unfold SFdiv_core_binary.
  replace (Zdigits2 (Z.pos p) + 0 - (Zdigits2 (Z.pos p) + 0)) with 0 by lia.
  change (Z.min (fexp PyFloat.prec PyFloat.emax 0) (0 - 0)) with (-53).
  change (0 - 0 - -53) with 53. cbv beta zeta iota.
  rewrite Z.shiftl_mul_pow2 by lia.
  pose proof (Z_div_mod (Z.pos p * 2 ^ 53) (Z.pos p) ltac:(lia)) as Hdm.
  destruct (Z.div_eucl (Z.pos p * 2 ^ 53) (Z.pos p)) as [q r].
  destruct Hdm as [Heq Hr].
  set (K := 2 ^ 53) in *.
  assert (q = K) as ->.
  { destruct (Z.lt_trichotomy q K) as [Hlt|[->|Hgt]]; [exfalso|done|exfalso]; nia. }
  assert (r = 0) as -> by lia.
  unfold new_location. by destruct (Z.even (Z.pos p)).
Qed.

Lemma truediv_same t : 0 < t ->
  PyFloat.truediv t t = Some (S754_finite false 4503599627370496 (-52)).
Proof.
  intros Ht. unfold PyFloat.truediv.
  destruct (Z.eqb_spec t 0) as [|_]; [lia|].
  destruct t as [|p|p]; [lia| |lia].
  cbn [PyFloat.exact SFdiv xorb]. rewrite div_core_same. vm_compute. reflexivity.
Qed.

Lemma truediv_zero t : 0 < t -> PyFloat.truediv 0 t = Some (S754_zero false).
Proof.
  intros Ht. unfold PyFloat.truediv.
  destruct (Z.eqb_spec t 0) as [|_]; [lia|].
  destruct t as [|p|p]; [lia| |lia]. reflexivity.
Qed.

(** X7.  With a positive [total], [progress_percent] is 0 when nothing is
    completed and 100 when [completed] equals [total]: the float quotient
    of a count by itself is exactly 1.0. *)
Theorem progress_percent_ends (self : GenerationStatus.t) :
  0 < GenerationStatus.total self ->
  (GenerationStatus.completed self = 0 ->
   GenerationStatus.progress_percent self = Some 0) /\
  (GenerationStatus.completed self = GenerationStatus.total self ->
   GenerationStatus.progress_percent self = Some 100).
Proof.
  intros Ht. unfold GenerationStatus.progress_percent.
  destruct (Z.eqb_spec (GenerationStatus.total self) 0) as [|_]; [lia|].
  split; intros ->.
  - rewrite truediv_zero by done. reflexivity.
  - rewrite truediv_same by done. vm_compute. reflexivity.
Qed.

Lemma progress_percent_ends_witness :
  GenerationStatus.progress_percent
    {| GenerationStatus.total := 7; GenerationStatus.completed := 7;
       GenerationStatus.status := GenerationStatus.DONE |} = Some 100.
Proof.
  apply (progress_percent_ends
           {| GenerationStatus.total := 7; GenerationStatus.completed := 7;
              GenerationStatus.status := GenerationStatus.DONE |}).
  - simpl. lia.
  - reflexivity.
Defined.

(** * The users *)

Lemma spend_spec telegram_id counts : forall tbl u,
  tbl !! telegram_id = Some u ->
  0 <= User.remaining_generations u ->
  Forall (fun count => 0 <= count) counts ->
  exists u',
    (spend telegram_id counts tbl).2 !! telegram_id = Some u' /\
    (spend telegram_id counts tbl).1 = covered (User.remaining_generations u) counts /\
    User.remaining_generations u'
      = User.remaining_generations u - granted counts (spend telegram_id counts tbl).1 /\
    0 <= User.remaining_generations u' /\
    u' = User.set_remaining_generations (User.remaining_generations u') u /\
    (forall k, k <> telegram_id ->
               (spend telegram_id counts tbl).2 !! k = tbl !! k).
Proof.
  induction counts as [|count rest IH]; intros tbl u Hu Hpos Hall.
  { exists u. simpl. repeat split; try done; try lia. by destruct u. }
  apply Forall_cons in Hall as [Hc Hrest].
  cbn [spend]. rewrite Hu. unfold User.decrement_generation, User.save. rewrite Hu.
  destruct (Z.leb_spec count (User.remaining_generations u)) as [Hle|Hgt].
  - set (u1 := User.columns _ _ u).
    set (tbl1 := <[telegram_id := u1]> tbl).
    assert (Hu1 : tbl1 !! telegram_id = Some u1) by apply lookup_insert_eq.
    assert (Hr1 : User.remaining_generations u1 = User.remaining_generations u - count)
      by done.
    destruct (IH tbl1 u1 Hu1 ltac:(lia) Hrest) as (u' & Hu' & Hlen & Hrem & Hpos' & Hsame & Hother).
    destruct (spend telegram_id rest tbl1) as [oks tbl2]. cbn [fst snd] in *.
    exists u'. split; [done|]. split; [cbn [covered]; by rewrite (proj2 (Z.leb_le _ _) Hle), Hlen, Hr1|]. split; [simpl; lia|].
    split; [done|]. split.
    + rewrite Hsame. by destruct u.
    + intros k Hk. rewrite Hother by done. unfold tbl1. by rewrite lookup_insert_ne.
  - destruct (IH tbl u Hu Hpos Hrest) as (u' & Hu' & Hlen & Hrem & Hpos' & Hsame & Hother).
    destruct (spend telegram_id rest tbl) as [oks tbl2]. cbn [fst snd] in *.
    exists u'. split; [done|]. split; [cbn [covered]; by rewrite (proj2 (Z.leb_gt _ _) Hgt), Hlen|]. split; [simpl; lia|]. done.
Qed.

(** X8.  [decrement_generation] never overdraws: whatever counts (not
    negative) are asked for in successive calls on the stored row of a user
    with a balance that is not negative, a call is granted exactly when the
    balance at that time covers its count, the balance
    left is the balance before minus the counts that were granted, it is
    never negative, and nothing else changes: no other column of the row,
    no other row. *)
Theorem decrement_generation_never_overdraws (telegram_id : string) (counts : list Z)
    (tbl : gmap string User.t) (u : User.t) :
  tbl !! telegram_id = Some u ->
  0 <= User.remaining_generations u ->
  Forall (fun count => 0 <= count) counts ->
  let '(oks, tbl') := spend telegram_id counts tbl in
  oks = covered (User.remaining_generations u) counts /\
  granted counts oks <= User.remaining_generations u /\
  tbl' !! telegram_id
    = Some (User.set_remaining_generations
              (User.remaining_generations u - granted counts oks) u) /\
  forall k, k <> telegram_id -> tbl' !! k = tbl !! k.
Proof.
  intros Hu Hpos Hall.
  destruct (spend_spec telegram_id counts tbl u Hu Hpos Hall)
    as (u' & Hu' & Hlen & Hrem & Hpos' & Hsame & Hother).
  destruct (spend telegram_id counts tbl) as [oks tbl']. cbn [fst snd] in *.
  split; [done|]. split; [lia|]. split; [|done].
  by rewrite Hu', Hsame, Hrem.
Qed.

Lemma decrement_generation_never_overdraws_witness :
  spend "42" [1; 1; 1] BotScenario.one_user
  = ([true; true; false],
     {[ "42" := User.set_remaining_generations 0 BotScenario.teacher ]}).
Proof.
  pose proof (decrement_generation_never_overdraws "42" [1; 1; 1]
                BotScenario.one_user BotScenario.teacher) as H.
  assert (Hrun : exists oks tbl', spend "42" [1; 1; 1] BotScenario.one_user = (oks, tbl'))
    by (by eexists _, _).
  destruct Hrun as (oks & tbl' & Hrun). rewrite Hrun in *.
  destruct H as (Hoks & _ & Hrow & Hother).
  - reflexivity.
  - simpl. lia.
  - repeat constructor; lia.
  - f_equal; [exact Hoks|].
    apply map_eq. intros k. destruct (decide (k = "42")) as [->|Hne].
    + rewrite Hrow, Hoks. by rewrite lookup_singleton_eq.
    + rewrite Hother by done. unfold BotScenario.one_user.
      by rewrite !lookup_singleton_ne.
Defined.

(** * The rate limit *)

Lemma redis_get_insert now key e (r : gmap string RedisEntry) :
  redis_get now key (<[key := e]> r)
  = match expires e with
    | Some t => if t <=? now then None else Some e
    | None => Some e
    end.
Proof. unfold redis_get. by rewrite lookup_insert_eq. Qed.

Lemma redis_get_insert_ne now key key' e (r : gmap string RedisEntry) :
  key' <> key -> redis_get now key' (<[key := e]> r) = redis_get now key' r.
Proof. intros Hne. unfold redis_get. by rewrite lookup_insert_ne. Qed.

(** The first call of a window. *)
Lemma check_rate_limit_first now user_id key limit window (r : gmap string RedisEntry) :
  redis_get now (redis_key key user_id) r = None ->
  0 < window ->
  exists p r',
    check_rate_limit now user_id key limit window r = (p, r') /\
    (match p with Allowed => true | PermissionDenied _ => false end = (1 <=? limit)) /\
    r' !! redis_key key user_id = Some {| value := 1; expires := Some (now + window) |} /\
    forall k, k <> redis_key key user_id -> r' !! k = r !! k.
Proof.
  intros Hnone Hw. unfold check_rate_limit. fold (redis_key key user_id).
  unfold redis_incr. rewrite Hnone. cbn [Z.eqb Pos.eqb].
  unfold redis_expire. rewrite redis_get_insert. cbn [expires value].
  destruct (Z.ltb_spec 0 window) as [_|]; [|lia].
  rewrite insert_insert_eq.
  destruct (Z.ltb_spec limit 1) as [Hl|Hl]; eexists _, _; (split; [reflexivity|]);
    (split; [destruct (Z.leb_spec 1 limit); (done || lia)|]);
    (split; [apply lookup_insert_eq|]); intros k Hk; by rewrite lookup_insert_ne.
Qed.

(** A later call of the window. *)
Lemma check_rate_limit_next now user_id key limit window (r : gmap string RedisEntry) n t :
  r !! redis_key key user_id = Some {| value := n; expires := Some t |} ->
  now < t -> 1 <= n ->
  exists p r',
    check_rate_limit now user_id key limit window r = (p, r') /\
    (match p with Allowed => true | PermissionDenied _ => false end = (n + 1 <=? limit)) /\
    r' !! redis_key key user_id = Some {| value := n + 1; expires := Some t |} /\
    forall k, k <> redis_key key user_id -> r' !! k = r !! k.
Proof.
  intros Hr Hnow Hn. unfold check_rate_limit. fold (redis_key key user_id).
  unfold redis_incr, redis_get. rewrite Hr. cbn [expires value].
  destruct (Z.leb_spec t now) as [|_]; [lia|]. cbn [value expires].
  destruct (Z.eqb_spec (n + 1) 1) as [|_]; [lia|].
  destruct (Z.ltb_spec limit (n + 1)) as [Hl|Hl]; eexists _, _; (split; [reflexivity|]);
    (split; [destruct (Z.leb_spec (n + 1) limit); (done || lia)|]);
    (split; [apply lookup_insert_eq|]); intros k Hk; by rewrite lookup_insert_ne.
Qed.

Lemma rate_limit_calls_next user_id key limit window times :
  forall (r : gmap string RedisEntry) n t,
  r !! redis_key key user_id = Some {| value := Z.of_nat n; expires := Some t |} ->
  (1 <= n)%nat ->
  Forall (fun now => now < t) times ->
  (rate_limit_calls user_id key limit window times r).1
    = map (fun i => Z.of_nat i <=? limit) (seq (S n) (length times)) /\
  (rate_limit_calls user_id key limit window times r).2 !! redis_key key user_id
    = Some {| value := Z.of_nat (n + length times); expires := Some t |} /\
  forall k, k <> redis_key key user_id ->
            (rate_limit_calls user_id key limit window times r).2 !! k = r !! k.
Proof.
  induction times as [|now rest IH]; intros r n t Hr Hn Hall.
  { simpl. rewrite Nat.add_0_r. done. }
  apply Forall_cons in Hall as [Hnow Hrest]. cbn [rate_limit_calls].
  destruct (check_rate_limit_next now user_id key limit window r (Z.of_nat n) t Hr Hnow
              ltac:(lia)) as (p & r1 & -> & Hp & Hr1 & Hother1).
  replace (Z.of_nat n + 1) with (Z.of_nat (S n)) in * by lia.
  destruct (IH r1 (S n) t Hr1 ltac:(lia) Hrest) as (Hps & Hr2 & Hother2).
  destruct (rate_limit_calls user_id key limit window rest r1) as [ps r2].
  cbn [fst snd] in *. split; [simpl; by rewrite Hp, Hps|].
  split; [rewrite Hr2; do 2 f_equal; simpl; lia|].
  intros k Hk. by rewrite Hother2, Hother1.
Qed.

(** X9.  [check_rate_limit] keeps a fixed window: of the calls a user
    makes for an operation from a first call at [t0] (no live counter
    then) until [window] seconds later, exactly the first [limit] are
    admitted; refused calls are counted too, none of the calls moves the
    end of the window, at which the counter is gone, and no other counter
    is touched. *)
Theorem check_rate_limit_window (user_id : Z) (key : string) (limit window : Z)
    (t0 : Z) (times : list Z) (r : gmap string RedisEntry) :
  redis_get t0 (redis_key key user_id) r = None ->
  0 < window ->
  Forall (fun now => now < t0 + window) times ->
  let '(admitted, r') := rate_limit_calls user_id key limit window (t0 :: times) r in
  admitted = map (fun i => Z.of_nat i <=? limit) (seq 1 (S (length times))) /\
  r' !! redis_key key user_id
    = Some {| value := Z.of_nat (S (length times)); expires := Some (t0 + window) |} /\
  (forall now, t0 + window <= now -> redis_get now (redis_key key user_id) r' = None) /\
  forall k, k <> redis_key key user_id -> r' !! k = r !! k.
Proof.
  intros Hnone Hw Hall. cbn [rate_limit_calls].
  destruct (check_rate_limit_first t0 user_id key limit window r Hnone Hw)
    as (p & r1 & -> & Hp & Hr1 & Hother1).
  destruct (rate_limit_calls_next user_id key limit window times r1 1%nat (t0 + window)
              Hr1 ltac:(lia) Hall) as (Hps & Hr2 & Hother2).
  destruct (rate_limit_calls user_id key limit window times r1) as [ps r2].
  cbn [fst snd] in *.
  split; [cbn [seq map]; by rewrite Hp, Hps|]. split; [done|]. split.
  - intros now Hnow. unfold redis_get. rewrite Hr2. cbn [expires].
    destruct (Z.leb_spec (t0 + window) now); [done|lia].
  - intros k Hk. by rewrite Hother2, Hother1.
Qed.

Lemma check_rate_limit_window_witness :
  (rate_limit_calls 42 "lesson_generate" 1 30 [1000; 1010; 1029] ∅).1
  = [true; false; false].
Proof.
  pose proof (check_rate_limit_window 42 "lesson_generate" 1 30 1000 [1010; 1029] ∅) as H.
  destruct (rate_limit_calls 42 "lesson_generate" 1 30 [1000; 1010; 1029] ∅) as [a r'].
  destruct H as (Ha & _).
  - reflexivity.
  - lia.
  - repeat constructor; lia.
  - exact Ha.
Defined.

(** * get_or_create_user *)

Lemma same_text_refl a : same_text a a = true.
Proof. destruct a; simpl; [apply String.eqb_refl|done]. Qed.

Lemma same_text_eq a b : same_text a b = true -> a = b.
Proof.
  destruct a, b; simpl; try done. by intros ->%String.eqb_eq.
Qed.

(** A row that has the role and the username asked for is left as it
    is. *)
Lemma get_or_create_user_settled (tbl : gmap string User.t) new_id telegram_id role
    telegram_username u :
  tbl !! PyText.str_of_int telegram_id = Some u ->
  User.role u = role -> User.telegram_username u = telegram_username ->
  get_or_create_user new_id telegram_id role telegram_username tbl = (u, tbl).
Proof.
  intros Hu Hr Hn. unfold get_or_create_user. rewrite Hu.
  rewrite Hr, String.eqb_refl. cbn [negb]. rewrite Hn, same_text_refl. cbn [negb].
  rewrite orb_false_r. destruct (falsy_text telegram_username) eqn:Hfalsy; [|done].
  rewrite <- Hn.
  replace (User.set_telegram_username (User.telegram_username u) u) with u by (by destruct u).
  replace (User.columns ["role"; "telegram_username"] u u) with u by (by destruct u).
  by rewrite insert_id.
Qed.

(** X10.  After [get_or_create_user] the row of the user exists, is the
    object returned, and has the role and the username given.  The balance
    of a user who existed is kept, with the key and every other column; a
    new user starts with 15 generations.  No other row changes, and a
    second call with the same arguments changes nothing. *)
Theorem get_or_create_user_spec (new_id telegram_id : Z) (role : string)
    (telegram_username : option string) (tbl : gmap string User.t) :
  let key := PyText.str_of_int telegram_id in
  let '(user, tbl') := get_or_create_user new_id telegram_id role telegram_username tbl in
  tbl' !! key = Some user /\
  User.role user = role /\
  User.telegram_username user = telegram_username /\
  match tbl !! key with
  | Some stored =>
      user = User.set_telegram_username telegram_username (User.set_role role stored)
  | None =>
      User.remaining_generations user = 15 /\ User.id user = new_id
  end /\
  (forall k, k <> key -> tbl' !! k = tbl !! k) /\
  forall new_id', get_or_create_user new_id' telegram_id role telegram_username tbl'
                  = (user, tbl').
Proof.
  cbv zeta. unfold get_or_create_user.
  set (key := PyText.str_of_int telegram_id).
  destruct (tbl !! key) as [stored|] eqn:Hs.
  - destruct (String.eqb (User.role stored) role) eqn:Hrole; cbn [negb].
    + apply String.eqb_eq in Hrole.
      destruct (falsy_text telegram_username
                || negb (same_text (User.telegram_username stored) telegram_username)) eqn:Hc.
      * set (u := User.set_telegram_username telegram_username stored).
        replace (User.columns ["role"; "telegram_username"] u stored) with u
          by (by destruct stored).
        split; [apply lookup_insert_eq|]. split; [done|]. split; [done|].
        split; [unfold u; rewrite <- Hrole; by destruct stored|].
        split; [intros k Hk; by rewrite lookup_insert_ne|].
        intros n. apply get_or_create_user_settled; [apply lookup_insert_eq|done|done].
      * apply orb_false_elim in Hc as [Hf Hsame].
        apply negb_false_iff, same_text_eq in Hsame.
        split; [done|]. split; [done|]. split; [done|].
        split; [rewrite <- Hrole, <- Hsame; by destruct stored|].
        split; [done|]. intros n. by apply get_or_create_user_settled.
    + set (u := if falsy_text telegram_username
                   || negb (same_text (User.telegram_username (User.set_role role stored))
                              telegram_username)
                then User.set_telegram_username telegram_username (User.set_role role stored)
                else User.set_role role stored).
      assert (Hu : u = User.set_telegram_username telegram_username (User.set_role role stored)).
      { unfold u. destruct (_ || _) eqn:Hc; [done|].
        apply orb_false_elim in Hc as [_ Hsame].
        apply negb_false_iff, same_text_eq in Hsame. simpl in Hsame. rewrite <- Hsame.
        by destruct stored. }
      assert (Hres : (let '(user, changed) :=
                        if falsy_text telegram_username
                           || negb (same_text (User.telegram_username (User.set_role role stored))
                                      telegram_username)
                        then (User.set_telegram_username telegram_username
                                (User.set_role role stored), true)
                        else (User.set_role role stored, true) in
                      if changed then
                        (user, <[key := User.columns ["role"; "telegram_username"] user stored]> tbl)
                      else (user, tbl))
                     = (u, <[key := u]> tbl)).
      { unfold u. destruct (_ || _); cbv beta iota zeta; f_equal; f_equal; by destruct stored. }
      rewrite Hres. rewrite Hu.
      split; [apply lookup_insert_eq|]. split; [done|]. split; [done|]. split; [done|].
      split; [intros k Hk; by rewrite lookup_insert_ne|].
      intros n. apply get_or_create_user_settled; [apply lookup_insert_eq|done|done].
  - split; [apply lookup_insert_eq|]. split; [done|]. split; [done|]. split; [done|].
    split; [intros k Hk; by rewrite lookup_insert_ne|].
    intros n. apply get_or_create_user_settled; [apply lookup_insert_eq|done|done].
Qed.

(** * The data of the buttons *)

Section TextFacts.

Import PyStr PyText.

Lemma split_no_sep sep s : contains sep s = false -> split sep s = [s].
Proof.
  unfold contains. induction s as [|c s IH]; [done|]. cbn [index split].
  destruct (Ascii.eqb c sep); [done|].
  destruct (index sep s); [done|]. intros _. by rewrite IH.
Qed.

Lemma split_append sep a b :
  contains sep a = false ->
  split sep (a +:+ String sep b) = a :: split sep b.
Proof.
  unfold contains. induction a as [|c a IH]; rewrite ?append_nil, ?append_cons.
  - intros _. cbn [split]. by rewrite Ascii.eqb_refl.
  - cbn [index split]. destruct (Ascii.eqb c sep); [done|].
    destruct (index sep a); [done|]. intros _. by rewrite IH.
Qed.

Lemma split_once_append sep a b :
  contains sep a = false ->
  split_once sep (a +:+ String sep b) = [a; b].
Proof.
  intros Ha. unfold split_once.
  assert (Hi : index sep (a +:+ String sep b) = Some (String.length a)).
  { rewrite (index_append_absent _ _ _ (contains_false _ _ Ha)).
    cbn [index]. rewrite Ascii.eqb_refl. simpl. f_equal. lia. }
  rewrite Hi, take_append. do 2 f_equal.
  clear Hi Ha. induction a as [|c a IH]; rewrite ?append_nil, ?append_cons; [done|].
  exact IH.
Qed.

Lemma uint_no_colon d : contains ":" (NilEmpty.string_of_uint d) = false.
Proof.
  unfold contains. induction d; cbn [NilEmpty.string_of_uint index]; [done|..];
    cbn [Ascii.eqb Bool.eqb andb]; by destruct (index ":" _).
Qed.

Lemma str_of_int_no_colon n : contains ":" (str_of_int n) = false.
Proof.
  unfold str_of_int. destruct (Z.to_int n) as [d|d]; cbn [NilZero.string_of_int].
  - destruct d; try apply uint_no_colon. done.
  - unfold contains. cbn [index Ascii.eqb Bool.eqb andb].
    assert (H : contains ":" (NilZero.string_of_uint d) = false)
      by (destruct d; try apply uint_no_colon; done).
    unfold contains in H. by destruct (index ":" _).
Qed.

End TextFacts.

Lemma int_of_decimal_reads : reads_ints BotScenario.int_of_decimal.
Proof.
  intros n. unfold BotScenario.int_of_decimal, PyText.str_of_int.
  rewrite NilZero.isi.
  - simpl. by rewrite DecimalZ.of_to.
  - destruct n; simpl; try done. intros [= H]. by apply Unsigned.to_uint_nonnil in H.
  - destruct n; simpl; try done. intros [= H]. by apply Unsigned.to_uint_nonnil in H.
Qed.

(** * The keyboards and the handlers that read their data *)

Section Keyboards.

Import PyStr PyText.

Lemma split3 (tag lesson_id s : string) :
  contains ":" tag = false -> contains ":" lesson_id = false -> contains ":" s = false ->
  split ":" (tag +:+ ":" +:+ lesson_id +:+ ":" +:+ s) = [tag; lesson_id; s].
Proof.
  intros Ht Hl Hs.
  change (tag +:+ ":" +:+ lesson_id +:+ ":" +:+ s)
    with (tag +:+ String ":" (lesson_id +:+ ":" +:+ s)).
  rewrite (split_append _ _ _ Ht).
  change (lesson_id +:+ ":" +:+ s) with (lesson_id +:+ String ":" s).
  by rewrite (split_append _ _ _ Hl), (split_no_sep _ _ Hs).
Qed.

Lemma split2 (tag lesson_id : string) :
  contains ":" tag = false -> contains ":" lesson_id = false ->
  split ":" (tag +:+ ":" +:+ lesson_id) = [tag; lesson_id].
Proof.
  intros Ht Hl.
  change (tag +:+ ":" +:+ lesson_id) with (tag +:+ String ":" lesson_id).
  by rewrite (split_append _ _ _ Ht), (split_no_sep _ _ Hl).
Qed.

Lemma split4 (tag lesson_id s mode : string) :
  contains ":" tag = false -> contains ":" lesson_id = false -> contains ":" s = false ->
  contains ":" mode = false ->
  split ":" (tag +:+ ":" +:+ lesson_id +:+ ":" +:+ s +:+ ":" +:+ mode)
  = [tag; lesson_id; s; mode].
Proof.
  intros Ht Hl Hs Hm.
  change (tag +:+ ":" +:+ lesson_id +:+ ":" +:+ s +:+ ":" +:+ mode)
    with (tag +:+ String ":" (lesson_id +:+ ":" +:+ s +:+ ":" +:+ mode)).
  rewrite (split_append _ _ _ Ht).
  change (lesson_id +:+ ":" +:+ s +:+ ":" +:+ mode)
    with (lesson_id +:+ String ":" (s +:+ ":" +:+ mode)).
  rewrite (split_append _ _ _ Hl).
  change (s +:+ ":" +:+ mode) with (s +:+ String ":" mode).
  by rewrite (split_append _ _ _ Hs), (split_no_sep _ _ Hm).
Qed.

Variable py_int : string -> option Z.
Hypothesis py_int_reads : reads_ints py_int.

Lemma block_request_block (tag lesson_id : string) (i : Z) :
  contains ":" tag = false -> contains ":" lesson_id = false ->
  block_request py_int (tag +:+ ":" +:+ lesson_id +:+ ":" +:+ str_of_int i)
  = Ret (Some lesson_id, i).
Proof.
  intros Ht Hl. unfold block_request.
  rewrite (split3 _ _ _ Ht Hl (str_of_int_no_colon i)). cbn [lookup list_lookup].
  by rewrite py_int_reads.
Qed.

Lemma block_request_lesson (tag lesson_id : string) :
  contains ":" tag = false -> contains ":" lesson_id = false ->
  block_request py_int (tag +:+ ":" +:+ lesson_id) = Ret (Some lesson_id, 1).
Proof.
  intros Ht Hl. unfold block_request. by rewrite (split2 _ _ Ht Hl).
Qed.

End Keyboards.

(** X11.  The data of the navigation buttons reads back as it was
    written.  On block [block_index] of [total_blocks] (within range), for
    a lesson id without a colon: what the first statements of the
    handlers read from "Back" is the lesson and the block before, and the
    button is there only when there is a block before; from "Next" the
    block after, only when there is one; from "Actions" the block itself;
    and every index a button carries is within [1 .. total_blocks], where
    the clamping of the handlers changes nothing. *)
Theorem navigation_round_trip (py_int : string -> option Z) (lesson_id : string)
    (block_index total_blocks : Z) :
  reads_ints py_int ->
  PyStr.contains ":" lesson_id = false ->
  1 <= block_index <= total_blocks ->
  let kb := navigation_kb_for_block lesson_id block_index total_blocks in
  map (block_request py_int) (labelled "⬅️ Назад" kb)
    = (if 1 <? block_index then [Ret (Some lesson_id, block_index - 1)] else []) /\
  map (block_request py_int) (labelled "➡️ Далее" kb)
    = (if block_index <? total_blocks then [Ret (Some lesson_id, block_index + 1)] else []) /\
  map (block_request py_int) (labelled "⚙️ Действия" kb)
    = [Ret (Some lesson_id, block_index)] /\
  Forall (fun b =>
            callback_data b = "main_menu" \/
            exists i, block_request py_int (callback_data b) = Ret (Some lesson_id, i) /\
                      1 <= i <= total_blocks /\
                      PyText.clamp_index i total_blocks = i)
         (InlineKeyboardBuilder.buttons kb).
Proof.
  intros Hint Hl Hrange kb.
  assert (Hview : forall i, block_request py_int
            ("lesson_view:" +:+ lesson_id +:+ ":" +:+ PyText.str_of_int i)
            = Ret (Some lesson_id, i))
    by (intros i; by apply (block_request_block py_int Hint "lesson_view")).
  assert (Hact : forall i, block_request py_int
            ("lesson_actions:" +:+ lesson_id +:+ ":" +:+ PyText.str_of_int i)
            = Ret (Some lesson_id, i))
    by (intros i; by apply (block_request_block py_int Hint "lesson_actions")).
  assert (Hdet : block_request py_int ("lesson_detail:" +:+ lesson_id) = Ret (Some lesson_id, 1))
    by (by apply (block_request_lesson py_int "lesson_detail")).
  assert (Hdown : block_request py_int ("lesson_download:" +:+ lesson_id) = Ret (Some lesson_id, 1))
    by (by apply (block_request_lesson py_int "lesson_download")).
  assert (Hin : forall i, 1 <= i <= total_blocks -> PyText.clamp_index i total_blocks = i)
    by (intros i Hi; unfold PyText.clamp_index; lia).
  subst kb. unfold navigation_kb_for_block, labelled.
  destruct (Z.ltb_spec 1 block_index) as [Hb|Hb];
    destruct (Z.ltb_spec block_index total_blocks) as [Hn|Hn];
    cbn -[append block_request];
    rewrite ?Hview, ?Hact;
    (split; [done|]); (split; [done|]); (split; [done|]);
    repeat (apply Forall_cons; split;
            [first [by left
                   | right; eexists; split;
                     [first [apply Hview | apply Hact | apply Hdet | apply Hdown]
                     |split; [lia|apply Hin; lia]]]|]);
    constructor.
Qed.

Lemma navigation_round_trip_witness :
  map (block_request BotScenario.int_of_decimal)
      (labelled "➡️ Далее" (navigation_kb_for_block "L1" 2 3))
  = [Ret (Some "L1", 3)].
Proof.
  exact (proj1 (proj2 (navigation_round_trip BotScenario.int_of_decimal "L1" 2 3
                         int_of_decimal_reads eq_refl ltac:(lia)))).
Defined.

(** X12.  The data of the buttons of the two block menus reads back as
    it was written: every button of [actions_kb_for_block] and of
    [ai_menu_kb] gives the handlers the lesson and the block index the
    keyboard was built for, and each of the four improvement buttons
    splits into four parts whose last is a mode that has a description in
    [MODE_DESCRIPTIONS] and a name in [MODE_NAMES_RU] (both lookups find
    an entry and do not fall back on the mode itself). *)
Theorem block_menus_round_trip (py_int : string -> option Z) (lesson_id : string)
    (block_index : Z) :
  reads_ints py_int ->
  PyStr.contains ":" lesson_id = false ->
  Forall (fun b => block_request py_int (callback_data b) = Ret (Some lesson_id, block_index))
         (InlineKeyboardBuilder.buttons (actions_kb_for_block lesson_id block_index)) /\
  Forall (fun b =>
            block_request py_int (callback_data b) = Ret (Some lesson_id, block_index) /\
            (text b = "◀️ Назад" \/
             exists mode,
               PyText.split ":" (callback_data b)
                 = ["lesson_ai"; lesson_id; PyText.str_of_int block_index; mode] /\
               human_mode mode <> mode /\
               text_get mode mode MODE_NAMES_RU <> mode))
         (InlineKeyboardBuilder.buttons (ai_menu_kb lesson_id block_index)).
Proof.
  intros Hint Hl.
  assert (Hreq : forall tag, PyStr.contains ":" tag = false ->
            block_request py_int
              (tag +:+ ":" +:+ lesson_id +:+ ":" +:+ PyText.str_of_int block_index)
            = Ret (Some lesson_id, block_index))
    by (intros tag Ht; by apply block_request_block).
  assert (Hmode : forall mode, PyStr.contains ":" mode = false ->
            PyText.split ":"
              ("lesson_ai" +:+ ":" +:+ lesson_id +:+ ":" +:+ PyText.str_of_int block_index
               +:+ ":" +:+ mode)
            = ["lesson_ai"; lesson_id; PyText.str_of_int block_index; mode])
    by (intros mode Hm; apply split4; [done|done|apply str_of_int_no_colon|done]).
  assert (Hreq4 : forall mode, PyStr.contains ":" mode = false ->
            block_request py_int
              ("lesson_ai" +:+ ":" +:+ lesson_id +:+ ":" +:+ PyText.str_of_int block_index
               +:+ ":" +:+ mode)
            = Ret (Some lesson_id, block_index)).
  { intros mode Hm. unfold block_request. rewrite (Hmode mode Hm).
    cbn [lookup list_lookup]. by rewrite Hint. }
  split.
  - unfold actions_kb_for_block. cbn -[append block_request].
    repeat (apply Forall_cons; split;
            [first [apply (Hreq "lesson_edit") | apply (Hreq "lesson_ai_menu")
                   | apply (Hreq "lesson_delete_block") | apply (Hreq "lesson_view")]; done|]).
    constructor.
  - unfold ai_menu_kb. cbn -[append block_request PyText.split].
    repeat (apply Forall_cons; split;
            [split;
             [first [apply (Hreq4 "complexify") | apply (Hreq4 "simplify")
                    | apply (Hreq4 "more_tasks") | apply (Hreq4 "remove_tasks")
                    | apply (Hreq "lesson_actions")]; done
             |first [by left
                    | right; eexists; split;
                      [first [apply (Hmode "complexify") | apply (Hmode "simplify")
                             | apply (Hmode "more_tasks") | apply (Hmode "remove_tasks")]; done
                      |split; by vm_compute]]]|]).
    constructor.
Qed.

Lemma block_menus_round_trip_witness :
  Forall (fun b => block_request BotScenario.int_of_decimal (callback_data b)
                   = Ret (Some "L1", 2))
         (InlineKeyboardBuilder.buttons (actions_kb_for_block "L1" 2)).
Proof.
  exact (proj1 (block_menus_round_trip BotScenario.int_of_decimal "L1" 2
                  int_of_decimal_reads eq_refl)).
Defined.

(** * What a run of the task leaves for the screens *)

Section RunEnds.

Variable json_loads : string -> option json.
Variable py_str : json -> string.

(** An exception leaves the loop over the hints with hints still to
    process: the block it was raised for is not counted. *)
Lemma sections_loop_exc E lesson_id hints : forall i j j',
  loop_state (length hints) j ->
  sections_loop json_loads py_str E lesson_id i hints j = Exc j' ->
  status_key j' = status_key j /\
  exists rest,
    loop_state (S rest) j' /\
    (accepts_completed E -> loop_invariant (length hints) j -> loop_invariant (S rest) j').
Proof.
  induction hints as [|block_topic rest IH]; intros i j j' Hst; [done|].
  cbn [sections_loop length].
  pose proof (section_step_general json_loads py_str E lesson_id i block_topic
                (length rest) j Hst) as Hstep.
  destruct (section_step json_loads py_str E lesson_id i block_topic j) as [[] j1|j1|j1];
    [|done|].
  - destruct Hstep as (Hst1 & Hk1 & r & w & _ & _ & _ & _ & _ & Hacc1). intros Hloop.
    destruct (IH (S i) j1 j' Hst1 Hloop) as (Hk & rest' & Hst' & Hacc).
    split; [congruence|]. exists rest'. split; [done|].
    intros HE Hinv. destruct (Hacc1 HE Hinv) as (Hinv1 & _). by apply Hacc.
  - intros [= <-]. subst j1. split; [done|]. exists (length rest). by split.
Qed.

(** The row a run leaves: DONE with every block counted; or IN_PROGRESS
    with a [total] that [completed] has reached, after a refused write of
    [completed]; or FAILED with hints left to process; or FAILED before
    the outline was accepted, with no block counted and the total the row
    had before the run. *)
Lemma generate_lesson_task_ends E lesson_id s lesson :
  lessons (db s) !! lesson_id = Some lesson ->
  0 <= old_total lesson_id s ->
  exists r,
    generation_statuses (db (generate_lesson_task json_loads py_str E lesson_id s)) !! lesson_id
      = Some r /\
    left_by_run (accepts_completed E) (old_total lesson_id s) r.
Proof.
  intros Hl Hold.
  destruct (start_job_spec lesson_id s lesson Hl)
    as (j0 & ws0 & Hstart & Hk0 & Hs0 & Hc0 & Ht0 & _).
  fold (old_total lesson_id s) in Ht0.
  pose proof (finalization_row json_loads py_str E lesson_id s j0) as Hfin.
  unfold generate_lesson_task. rewrite Hstart.
  unfold job_body in *.
  pose proof (outline_phase_spec json_loads E j0 Hs0 Hc0) as Hout.
  destruct (outline_phase json_loads E j0) as [blocks_hints j1|j1|j1].
  - destruct Hout as (Hinv1 & Hk1 & _).
    destruct (sections_loop json_loads py_str E lesson_id 1 blocks_hints j1)
      as [[] j2|j2|j2] eqn:Hloop.
    + destruct (Hfin _ Hstart eq_refl) as (_ & r & Hr & Hst & Ht & Hle & Hc & Hacc & _).
      exists r. split; [done|]. split; [lia|]. split; [lia|].
      rewrite Hst. unfold final_status.
      destruct (Z.eqb_spec
                  (GenerationStatus.completed
                     (status_obj (finalize (reconcile_orders E lesson_id j2))))
                  (GenerationStatus.total
                     (status_obj (finalize (reconcile_orders E lesson_id j2)))))
        as [Heq|Hne].
      * left. split; [done|lia].
      * right. left.
        destruct (Z.eqb_spec
                    (GenerationStatus.completed
                       (status_obj (finalize (reconcile_orders E lesson_id j2)))) 0)
          as [Hzero|_]; [lia|].
        split; [done|]. split; [lia|]. intros HE. destruct (Hacc HE) as [_ Heq]. done.
    + destruct (sections_loop_general json_loads py_str E lesson_id blocks_hints 1%nat j1
                  (status_obj j1) (loop_invariant_state _ _ Hinv1) (proj1 Hinv1))
        as (j2' & ws & Hres & _).
      rewrite Hloop in Hres. by destruct Hres as [(? & _) | ?].
    + destruct (sections_loop_exc E lesson_id blocks_hints 1%nat j1 j2
                  (loop_invariant_state _ _ Hinv1) Hloop)
        as (Hk2 & rest & (r2 & Hr2 & Ht2 & _ & Hc2 & Hb2) & Hacc).
      destruct (closing_write_stored AtError GenerationStatus.FAILED j2 r2 Hr2)
        as (Hr3 & _).
      cbv zeta in Hr3. rewrite Hk2, Hk1, Hk0 in Hr3.
      eexists. split; [exact Hr3|]. unfold left_by_run. simpl. split; [lia|]. split; [lia|].
      right. right. left. split; [done|]. split; [lia|].
      intros HE. destruct (Hacc HE Hinv1) as (Hsy & _ & Hsum).
      assert (r2 = status_obj j2) as -> by (unfold synced in Hsy; congruence). lia.
  - destruct Hout as (Hs1 & Hk1 & Hst & Ht1 & Hc1 & _).
    unfold synced in Hs1. rewrite Hk1, Hk0 in Hs1.
    eexists. split; [exact Hs1|]. split; [lia|]. split; [lia|].
    right. right. right. rewrite Hst, Ht1, Hc1, Ht0. done.
  - destruct Hout as (Hs1 & Hk1 & Ho1 & _).
    destruct (closing_write AtError GenerationStatus.FAILED j1 Hs1)
      as (w & _ & _ & _ & Hs3 & Hk3 & Hst & Htot & Hcomp & _).
    unfold synced in Hs3. rewrite Hk3, Hk1, Hk0 in Hs3.
    eexists. split; [exact Hs3|]. unfold left_by_run. rewrite Hst, Htot, Hcomp, Ho1, Hc0, Ht0.
    split; [lia|]. split; [lia|]. right. right. right. done.
Qed.

End RunEnds.

Lemma elem_of_data (d : string) (kb : InlineKeyboardBuilder.t) :
  offers d kb <-> d ∈ map callback_data (InlineKeyboardBuilder.buttons kb).
Proof. done. Qed.




(** A run left by an exception after a refused write of [completed]: the
    second hint is stored and counted as 2 of 2, the third is a number,
    and the row is FAILED while the lesson is offered for viewing. *)
Example failed_job_can_be_viewed :
  let E := {| backend := fun k =>
                match k with
                | 0%nat => Scenario.answering (JsonDecoder.dq "{'blocks': ['a', 'b', {'prompt': 3}]}")
                | _ => Scenario.answering Scenario.section_text
                end;
              uuid4 := fun i => N.of_nat (100 - i);
              create_fails := fun _ => false;
              completed_save_fails := fun i => Nat.eqb i 1;
              order_save_fails := fun _ => false |} in
  let s' := generate_lesson_task JsonDecoder.loads (fun _ => "3") E 7%N Scenario.fresh in
  generation_statuses (db s') !! 7%N
    = Some {| GenerationStatus.total := 2; GenerationStatus.completed := 2;
              GenerationStatus.status := GenerationStatus.FAILED |} /\
  offers "lesson_view:L7:1"
    (lesson_actions_kb "L7" (generation_statuses (db s') !! 7%N)).
Proof. vm_compute. split; [reflexivity|]. apply list_elem_of_here. Qed.

(** * Running a handler *)

Lemma run_bind {A B : Type} (m : M A) (k : A -> M B) (b : Bot) :
  (x ← m; k x) b
  = match m b with
    | (Ret a, b') => k a b'
    | (Raise e, b') => (Raise e, b')
    end.
Proof. reflexivity. Qed.

Lemma run_rate_limit U key limit window b :
  rate_limit U key limit window b
  = (Ret (check_rate_limit (now U) (from_user_id U) key limit window (redis b)).1,
     with_redis (check_rate_limit (now U) (from_user_id U) key limit window (redis b)).2 b).
Proof. unfold rate_limit. by destruct (check_rate_limit _ _ _ _ _ _). Qed.

Lemma split_once_tag (tag rest : string) :
  PyStr.contains ":" tag = false ->
  PyText.split_once ":" (tag +:+ ":" +:+ rest) = [tag; rest].
Proof. intros Ht. by apply split_once_append. Qed.



(** * lesson_generate *)

Lemma get_or_create_user_existing new_id telegram_id role telegram_username
    (tbl : gmap string User.t) stored :
  tbl !! PyText.str_of_int telegram_id = Some stored ->
  get_or_create_user new_id telegram_id role telegram_username tbl
  = (User.set_telegram_username telegram_username (User.set_role role stored),
     <[PyText.str_of_int telegram_id :=
         User.set_telegram_username telegram_username (User.set_role role stored)]> tbl).
Proof.
  intros Hs. unfold get_or_create_user. rewrite Hs.
  destruct (String.eqb (User.role stored) role) eqn:Hrole; cbn [negb].
  - apply String.eqb_eq in Hrole.
    destruct (falsy_text telegram_username
              || negb (same_text (User.telegram_username stored) telegram_username)) eqn:Hc.
    + f_equal; [by destruct stored; simpl in *; subst|].
      f_equal. by destruct stored; simpl in *; subst.
    + apply orb_false_iff in Hc as [_ Hc]. apply negb_false_iff, same_text_eq in Hc.
      assert (Heq : User.set_telegram_username telegram_username (User.set_role role stored)
                    = stored) by (by destruct stored; simpl in *; subst).
      rewrite Heq. by rewrite insert_id.
  - destruct (falsy_text telegram_username
              || negb (same_text (User.telegram_username (User.set_role role stored))
                         telegram_username)) eqn:Hc.
    + done.
    + apply orb_false_iff in Hc as [_ Hc]. apply negb_false_iff, same_text_eq in Hc.
      simpl in Hc. f_equal; [by destruct stored; simpl in *; subst|].
      f_equal. by destruct stored; simpl in *; subst.
Qed.

Lemma decrement_generation_one key (user : User.t) (tbl : gmap string User.t) :
  tbl !! key = Some user ->
  0 < User.remaining_generations user ->
  User.decrement_generation key user 1 tbl
  = Some (true,
          User.set_remaining_generations (User.remaining_generations user - 1) user,
          <[key := User.set_remaining_generations (User.remaining_generations user - 1) user]>
            tbl).
Proof.
  intros Hu Hpos. unfold User.decrement_generation.
  destruct (Z.leb_spec 1 (User.remaining_generations user)); [|lia].
  unfold User.save. rewrite Hu. done.
Qed.

Section LessonGenerate.

Variable uuid_str : N -> string.
Variable uuid_parse : string -> option N.
Variable sanitize_html : option string -> string.

(** The handler up to the creation of the status row: the rate limit
    admits, the user is the creator of the lesson and has a generation
    left, the bookkeeping of the metrics does not raise. *)
Lemma lesson_generate_charges (U : Update) (b : Bot) (lesson_id : string) (k : N)
    (lesson : Lesson.t) (user : User.t) :
  (check_rate_limit (now U) (from_user_id U) "lesson_generate" 1 30 (redis b)).1 = Allowed ->
  data U = "lesson_generate:" +:+ lesson_id ->
  uuid_parse lesson_id = Some k ->
  lessons (db (store b)) !! k = Some lesson ->
  users b !! PyText.str_of_int (from_user_id U) = Some user ->
  creators b k = User.id user ->
  0 < User.remaining_generations user ->
  metrics_fail U = false ->
  let user' := User.set_remaining_generations (User.remaining_generations user - 1)
                 (User.set_telegram_username (from_username U)
                    (User.set_role UserRole.SCHOOL_TEACHER user)) in
  let b1 := with_users (<[PyText.str_of_int (from_user_id U) := user']> (users b))
              (with_redis
                 (check_rate_limit (now U) (from_user_id U) "lesson_generate" 1 30 (redis b)).2
                 b) in
  lesson_generate uuid_str uuid_parse sanitize_html U b
  = (create_generation_status k;;
     quietly U (edit_reply_markup None);;
     modify (fun b => with_queue (queue b ++ [generate_lesson_task_delay (uuid_str k)]) b);;
     safe_edit_text U
       ("⏳ Генерация урока «" +:+ sanitize_html (Some (Lesson.title lesson))
        +:+ "» началась...")
       (Some "HTML")
       (Some (as_markup
                (InlineKeyboardBuilder.adjust 1
                   (InlineKeyboardBuilder.button "🏠 На главную" "main_menu"
                      (InlineKeyboardBuilder.button "🔄 Обновить статус"
                         ("lesson_status:" +:+ uuid_str k) InlineKeyboardBuilder.new)))));;
     call U (callback_answer None false)) b1.
Proof.
  intros Hadmit Hdata Hparse Hl Hu Hcreator Hpos Hmetrics user' b1.
  unfold lesson_generate.
  rewrite run_bind, run_rate_limit, Hadmit, Hdata.
  change ("lesson_generate:" +:+ lesson_id) with ("lesson_generate" +:+ ":" +:+ lesson_id).
  rewrite (split_once_tag "lesson_generate" lesson_id eq_refl).
  cbn [lookup list_lookup].
  unfold touch_user, safe_get_lesson, can_generate, charge, track_generation.
  rewrite Hparse, Hmetrics.
  cbv [mbind M_bind bind get modify mret M_ret ret raise].
  cbn [store with_redis with_users users creators redis fst snd].
  rewrite (get_or_create_user_existing _ _ _ _ _ _ Hu). cbn [fst snd].
  rewrite Hl. cbn [option_map fst snd].
  unfold get_user_by_tg, can_generate_lesson.
  cbn [store with_redis with_users users creators redis fst snd].
  rewrite lookup_insert_eq. rewrite Hcreator. cbn [User.id User.set_telegram_username User.set_role].
  rewrite Z.eqb_refl. cbn [negb].
  cbn [User.remaining_generations User.set_telegram_username User.set_role].
  destruct (Z.leb_spec (User.remaining_generations user) 0) as [|_]; [lia|].
  cbn [store with_redis with_users users creators redis fst snd].
  rewrite (decrement_generation_one _ _ _ (lookup_insert_eq _ _ _)) by done.
  cbn [store with_redis with_users users creators redis fst snd
       User.remaining_generations User.set_telegram_username User.set_role].
  rewrite insert_insert_eq. reflexivity.
Qed.

Lemma run_create_generation_status_new (k : N) (b : Bot) :
  generation_statuses (db (store b)) !! k = None ->
  create_generation_status k b
  = (Ret tt,
     with_store
       (with_db
          (with_generation_statuses
             (<[k := {| GenerationStatus.total := 0; GenerationStatus.completed := 0;
                        GenerationStatus.status := GenerationStatus.PENDING |}]>
                (generation_statuses (db (store b))))
             (db (store b)))
          (store b)) b).
Proof.
  intros Hnone. unfold create_generation_status.
  cbv [mbind M_bind bind get modify]. by rewrite Hnone.
Qed.

Lemma run_create_generation_status_again (k : N) (b : Bot) r0 :
  generation_statuses (db (store b)) !! k = Some r0 ->
  create_generation_status k b = (Raise IntegrityError, b).
Proof.
  intros Hsome. unfold create_generation_status.
  cbv [mbind M_bind bind get modify]. by rewrite Hsome.
Qed.

End LessonGenerate.

(** X15.  [lesson_generate] starts a job.  For a lesson without a status
    row, when the rate limit admits the request, the user is the creator
    of the lesson and has a generation left, and the bookkeeping of the
    metrics does not raise: exactly one generation is taken from the user
    (no other user changes), the status row of the lesson is created as
    PENDING with total = completed = 0 (nothing else changes in the
    store), exactly one [generate_lesson_task] is queued, for this
    lesson, and the message is edited to a text with the button that
    refreshes the status of this lesson; all this whatever comes of the
    calls to Telegram, and the handler returns normally when they
    succeed.  When the queued task runs on this store it finds the lesson
    and takes the row out of PENDING: it leaves it DONE, FAILED or
    IN_PROGRESS with counters at 0 or above, DONE going with
    [completed = total]; and DONE or FAILED with
    [0 <= completed <= total] when the store accepts every write of
    [completed]. *)
Theorem lesson_generate_starts_job (uuid_str : N -> string)
    (uuid_parse : string -> option N) (sanitize_html : option string -> string)
    (U : Update) (b : Bot) (lesson_id : string) (k : N)
    (lesson : Lesson.t) (user : User.t) :
  (check_rate_limit (now U) (from_user_id U) "lesson_generate" 1 30 (redis b)).1 = Allowed ->
  data U = "lesson_generate:" +:+ lesson_id ->
  uuid_parse lesson_id = Some k ->
  lessons (db (store b)) !! k = Some lesson ->
  users b !! PyText.str_of_int (from_user_id U) = Some user ->
  creators b k = User.id user ->
  0 < User.remaining_generations user ->
  metrics_fail U = false ->
  generation_statuses (db (store b)) !! k = None ->
  let '(res, b') := lesson_generate uuid_str uuid_parse sanitize_html U b in
  users b' = <[PyText.str_of_int (from_user_id U) := charged U user]> (users b) /\
  store b'
    = with_db
        (with_generation_statuses
           (<[k := {| GenerationStatus.total := 0; GenerationStatus.completed := 0;
                      GenerationStatus.status := GenerationStatus.PENDING |}]>
              (generation_statuses (db (store b))))
           (db (store b)))
        (store b) /\
  queue b' = queue b ++ [generate_lesson_task_delay (uuid_str k)] /\
  (exists text kb rest,
      map fst (sent b')
        = map fst (sent b)
          ++ edit_reply_markup None
             :: edit_text text (Some "HTML") (Some (as_markup kb)) :: rest /\
      (rest = [] \/ rest = [callback_answer None false]) /\
      offers ("lesson_status:" +:+ uuid_str k) kb) /\
  ((forall n, telegram U n = TgOk) -> res = Ret tt) /\
  forall json_loads py_str E,
    exists r,
      generation_statuses (db (generate_lesson_task json_loads py_str E k (store b'))) !! k
        = Some r /\
      (GenerationStatus.status r = GenerationStatus.DONE \/
       GenerationStatus.status r = GenerationStatus.FAILED \/
       GenerationStatus.status r = GenerationStatus.IN_PROGRESS) /\
      0 <= GenerationStatus.completed r /\
      0 <= GenerationStatus.total r /\
      (GenerationStatus.status r = GenerationStatus.DONE ->
       GenerationStatus.completed r = GenerationStatus.total r) /\
      (accepts_completed E ->
       (GenerationStatus.status r = GenerationStatus.DONE \/
        GenerationStatus.status r = GenerationStatus.FAILED) /\
       GenerationStatus.completed r <= GenerationStatus.total r).
Proof.
  intros Hadmit Hdata Hparse Hl Hu Hcreator Hpos Hmetrics Hnone.
  rewrite (lesson_generate_charges uuid_str uuid_parse sanitize_html U b lesson_id k lesson user)
    by done.
  fold (charged U user).
  set (b1 := with_users _ _).
  rewrite run_bind, (run_create_generation_status_new k b1) by done.
  cbv [mbind M_bind bind get modify quietly safe_edit_text call tg mret M_ret ret raise].
  cbn [store with_redis with_users with_store with_queue with_sent users queue sent redis
       fst snd b1].
  set (r1 := telegram U (length (sent b))).
  set (r2 := telegram U _).
  set (s' := with_db _ (store b)).
  assert (Hworker : forall json_loads py_str E,
    exists r,
      generation_statuses (db (generate_lesson_task json_loads py_str E k s')) !! k = Some r /\
      (GenerationStatus.status r = GenerationStatus.DONE \/
       GenerationStatus.status r = GenerationStatus.FAILED \/
       GenerationStatus.status r = GenerationStatus.IN_PROGRESS) /\
      0 <= GenerationStatus.completed r /\
      0 <= GenerationStatus.total r /\
      (GenerationStatus.status r = GenerationStatus.DONE ->
       GenerationStatus.completed r = GenerationStatus.total r) /\
      (accepts_completed E ->
       (GenerationStatus.status r = GenerationStatus.DONE \/
        GenerationStatus.status r = GenerationStatus.FAILED) /\
       GenerationStatus.completed r <= GenerationStatus.total r)).
  { intros json_loads py_str E.
    assert (Hold : old_total k s' = 0).
    { unfold old_total, s'. cbn [db with_db generation_statuses with_generation_statuses].
      by rewrite lookup_insert_eq. }
    destruct (generate_lesson_task_ends json_loads py_str E k s' lesson)
      as (r & Hr & Hc & Ht & Hcases); [exact Hl|lia|].
    exists r. split; [done|].
    destruct Hcases as [(Hst & Heq) | [(Hst & Hle & Hno) | [(Hst & Htpos & Hlt) | (Hst & Hcz & Htz)]]].
    - split; [by left|]. split; [done|]. split; [done|]. split; [done|].
      intros _. split; [by left|lia].
    - split; [by right; right|]. split; [done|]. split; [done|].
      split; [intros Hd; congruence|]. intros HE. by destruct Hno.
    - split; [by right; left|]. split; [done|]. split; [done|].
      split; [intros Hd; congruence|]. intros HE. specialize (Hlt HE).
      split; [by right|lia].
    - split; [by right; left|]. split; [done|]. split; [done|].
      split; [intros Hd; congruence|]. intros _. split; [by right|lia]. }
  assert (Hoffer : offers ("lesson_status:" +:+ uuid_str k)
            (InlineKeyboardBuilder.adjust 1
               (InlineKeyboardBuilder.button "🏠 На главную" "main_menu"
                  (InlineKeyboardBuilder.button "🔄 Обновить статус"
                     ("lesson_status:" +:+ uuid_str k) InlineKeyboardBuilder.new))))
    by apply list_elem_of_here.
  destruct r2 eqn:Hr2.
  1,2: set (r3 := telegram U _);
       assert (Hret : (forall n, telegram U n = TgOk) ->
                      match r3 with
                      | TgOk => @Ret unit tt
                      | TgNotModified => Raise (TelegramBadRequest true)
                      | TgBadRequest => Raise (TelegramBadRequest false)
                      | TgError => Raise TelegramError
                      end = Ret tt)
         by (intros Hok; unfold r3; by rewrite Hok);
       destruct r3;
       cbn [store with_redis with_users with_store with_queue with_sent users queue sent
            redis fst snd];
       (split; [done|]); (split; [done|]); (split; [done|]);
       (split; [eexists _, _, [callback_answer None false];
                split; [rewrite !map_app, <- !app_assoc; reflexivity|split; [by right|done]]|]);
       (split; [exact Hret|exact Hworker]).
  all: cbn [store with_redis with_users with_store with_queue with_sent users queue sent
            redis fst snd];
       (split; [done|]); (split; [done|]); (split; [done|]);
       (split; [eexists _, _, [];
                split; [rewrite !map_app, <- !app_assoc; reflexivity|split; [by left|done]]|]);
       (split; [|exact Hworker]);
       intros Hok; unfold r2 in Hr2; by rewrite Hok in Hr2.
Qed.

(** X16.  [lesson_generate] on a lesson that has a status row (as after
    any run of the task): under the same conditions the generation is
    taken from the user, and then the creation of the row raises
    [IntegrityError] (the row of a lesson is unique): nothing is queued,
    nothing is sent to Telegram and the store is left as it was. *)
Theorem lesson_generate_again (uuid_str : N -> string)
    (uuid_parse : string -> option N) (sanitize_html : option string -> string)
    (U : Update) (b : Bot) (lesson_id : string) (k : N)
    (lesson : Lesson.t) (user : User.t) (r0 : GenerationStatus.t) :
  (check_rate_limit (now U) (from_user_id U) "lesson_generate" 1 30 (redis b)).1 = Allowed ->
  data U = "lesson_generate:" +:+ lesson_id ->
  uuid_parse lesson_id = Some k ->
  lessons (db (store b)) !! k = Some lesson ->
  users b !! PyText.str_of_int (from_user_id U) = Some user ->
  creators b k = User.id user ->
  0 < User.remaining_generations user ->
  metrics_fail U = false ->
  generation_statuses (db (store b)) !! k = Some r0 ->
  let '(res, b') := lesson_generate uuid_str uuid_parse sanitize_html U b in
  res = Raise IntegrityError /\
  users b' = <[PyText.str_of_int (from_user_id U) := charged U user]> (users b) /\
  store b' = store b /\
  queue b' = queue b /\
  sent b' = sent b.
Proof.
  intros Hadmit Hdata Hparse Hl Hu Hcreator Hpos Hmetrics Hsome.
  rewrite (lesson_generate_charges uuid_str uuid_parse sanitize_html U b lesson_id k lesson user)
    by done.
  fold (charged U user).
  set (b1 := with_users _ _).
  rewrite run_bind, (run_create_generation_status_again k b1 r0) by done.
  done.
Qed.

(** * lesson_delete_block *)

(** The renumbering loop when no save is refused: the blocks listed get
    the orders [i, i + 1, ...] and keep everything else; no other row
    changes. *)
Lemma save_orders_spec (remaining : list (N * LessonBlock.t)) :
  forall (i : Z) (tbl : gmap N LessonBlock.t),
    NoDup remaining.*1 ->
    (forall key block, (key, block) ∈ remaining -> tbl !! key = Some block) ->
    exists tbl',
      save_orders (fun _ => false) i remaining tbl = (Ret tt, tbl') /\
      (forall (j : nat) key block,
          remaining !! j = Some (key, block) ->
          tbl' !! key = Some (LessonBlock.set_order (i + Z.of_nat j) block)) /\
      (forall key, key ∉ remaining.*1 -> tbl' !! key = tbl !! key).
Proof.
  induction remaining as [|[key0 block0] rest IH]; intros i tbl Hnd Hin.
  { exists tbl. split; [done|]. split; [by intros j key block; rewrite lookup_nil|done]. }
  cbn [save_orders]. apply NoDup_cons in Hnd as [Hnotin Hnd]. cbn [fmap list_fmap fst] in *.
  assert (Hhead : tbl !! key0 = Some block0) by (apply Hin, list_elem_of_here).
  destruct (Z.eqb_spec (LessonBlock.order block0) i) as [Heq|Hne].
  - destruct (IH (i + 1) tbl Hnd) as (tbl' & Hrun & Hrows & Hother).
    { intros key block Hel. apply Hin. by apply list_elem_of_further. }
    exists tbl'. split; [done|]. split.
    + intros [|j] key block Hj; cbn in Hj.
      * injection Hj as <- <-. rewrite Hother by done. rewrite Hhead. f_equal.
        rewrite Z.add_0_r, <- Heq. symmetry. apply set_order_same.
      * rewrite (Hrows j key block Hj). do 2 f_equal. lia.
    + intros key Hkey. apply not_elem_of_cons in Hkey as [_ Hkey]. by apply Hother.
  - destruct (IH (i + 1) (<[key0 := LessonBlock.set_order i block0]> tbl) Hnd)
      as (tbl' & Hrun & Hrows & Hother).
    { intros key block Hel. rewrite lookup_insert_ne.
      - apply Hin. by apply list_elem_of_further.
      - intros <-. apply Hnotin. apply list_elem_of_fmap. by exists (key0, block). }
    exists tbl'. split; [done|]. split.
    + intros [|j] key block Hj; cbn in Hj.
      * injection Hj as <- <-. rewrite Hother by done. rewrite lookup_insert_eq.
        by rewrite Z.add_0_r.
      * rewrite (Hrows j key block Hj). do 2 f_equal. lia.
    + intros key Hkey. apply not_elem_of_cons in Hkey as [Hk0 Hkey].
      rewrite Hother by done. by rewrite lookup_insert_ne.
Qed.

Lemma only_talks_ret {A : Type} (a : A) : only_talks (mret a).
Proof. done. Qed.

Lemma only_talks_raise {A : Type} (e : exn) : only_talks (@raise A e).
Proof. done. Qed.

Lemma only_talks_get : only_talks get.
Proof. done. Qed.

Lemma only_talks_bind {A B : Type} (m : M A) (k : A -> M B) :
  only_talks m -> (forall a, only_talks (k a)) -> only_talks (x ← m; k x).
Proof.
  intros Hm Hk b. rewrite run_bind. specialize (Hm b).
  destruct (m b) as [[a|e] b1]; cbn [fst snd] in *; [|done].
  destruct (Hk a b1) as (-> & -> & -> & ->). done.
Qed.

Lemma only_talks_tg U c : only_talks (tg U c).
Proof. done. Qed.

Lemma only_talks_call U c : only_talks (call U c).
Proof.
  apply only_talks_bind; [apply only_talks_tg|]. by intros [].
Qed.

Lemma only_talks_quietly U c : only_talks (quietly U c).
Proof.
  apply only_talks_bind; [apply only_talks_tg|]. by intros [].
Qed.

Lemma only_talks_safe_edit_text U text parse_mode reply_markup :
  only_talks (safe_edit_text U text parse_mode reply_markup).
Proof.
  apply only_talks_bind; [apply only_talks_tg|]. by intros [].
Qed.

Lemma only_talks_except {A : Type} (m h : M A) :
  only_talks m -> only_talks h -> only_talks (except_bad_request m h).
Proof.
  intros Hm Hh b. unfold except_bad_request. specialize (Hm b).
  destruct (m b) as [[a|[]] b1]; cbn [fst snd] in *; try done.
  destruct (Hh b1) as (-> & -> & -> & ->). done.
Qed.

Ltac talks :=
  repeat first
    [ apply only_talks_call | apply only_talks_quietly | apply only_talks_safe_edit_text
    | apply only_talks_ret | apply only_talks_raise | apply only_talks_get
    | apply only_talks_except
    | apply only_talks_bind; [|intros ?]
    | match goal with
      | |- only_talks (match ?x with _ => _ end) => destruct x
      end ].

Lemma only_talks_safe_get_lesson uuid_parse lesson_id :
  only_talks (safe_get_lesson uuid_parse lesson_id).
Proof. unfold safe_get_lesson. talks. Qed.

Lemma only_talks_lesson_view_callback_simulate uuid_str uuid_parse sanitize_html
    order_by_order U lesson_id block_index :
  only_talks (lesson_view_callback_simulate uuid_str uuid_parse sanitize_html
                order_by_order U lesson_id block_index).
Proof.
  unfold lesson_view_callback_simulate.
  apply only_talks_bind; [apply only_talks_safe_get_lesson|]. intros lesson. talks.
Qed.

Section DeleteBlock.

Variable uuid_str : N -> string.
Variable uuid_parse : string -> option N.
Variable py_int : string -> option Z.
Variable sanitize_html : option string -> string.
Variable order_by_order : N -> gmap N LessonBlock.t -> list (N * LessonBlock.t).
Hypothesis order_by_order_lists : lists_blocks order_by_order.

Lemma listed_NoDup k tbl : NoDup (order_by_order k tbl).
Proof.
  destruct (order_by_order_lists k tbl) as [Hnd _].
  by apply (NoDup_fmap_1 fst).
Qed.

(** The listing after a row of the lesson is deleted: the other blocks. *)
Lemma listed_after_delete k tbl block_id block :
  (block_id, block) ∈ order_by_order k tbl ->
  order_by_order k tbl ≡ₚ (block_id, block) :: order_by_order k (delete block_id tbl).
Proof.
  intros Hel. apply NoDup_Permutation.
  - apply listed_NoDup.
  - apply NoDup_cons. split; [|apply listed_NoDup].
    intros Hin. apply (order_by_order_lists k (delete block_id tbl)) in Hin as [Hin _].
    by rewrite lookup_delete_eq in Hin.
  - intros [key blk]. rewrite elem_of_cons.
    rewrite (proj2 (order_by_order_lists k tbl) key blk).
    rewrite (proj2 (order_by_order_lists k (delete block_id tbl)) key blk).
    apply (order_by_order_lists k tbl) in Hel as [Hb Hlesson].
    destruct (decide (key = block_id)) as [->|Hne].
    + rewrite lookup_delete_eq. split.
      * intros [Hk _]. left. congruence.
      * intros [[= ->] | [? _]]; done.
    + rewrite lookup_delete_ne by done. split; [by right|].
      intros [[= ? _] | ?]; done.
Qed.

Lemma only_talks_lesson_delete_block_reply U k lesson block_index remaining :
  only_talks (lesson_delete_block_reply uuid_str uuid_parse sanitize_html order_by_order
                U k lesson block_index remaining).
Proof.
  unfold lesson_delete_block_reply.
  destruct (Z.of_nat (length remaining) =? 0).
  - talks.
  - apply only_talks_bind; [apply only_talks_quietly|]. intros _.
    apply only_talks_bind; [apply only_talks_call|]. intros _.
    apply only_talks_lesson_view_callback_simulate.
Qed.

(** The handler up to what it tells the user: the block is deleted and
    the loop renumbers the blocks that are left. *)
Lemma lesson_delete_block_run (U : Update) (b : Bot) (lesson_id : string)
    (block_index : Z) (k : N) (lesson : Lesson.t) :
  block_request py_int (data U) = Ret (Some lesson_id, block_index) ->
  lesson_id <> EmptyString ->
  uuid_parse lesson_id = Some k ->
  lessons (db (store b)) !! k = Some lesson ->
  order_by_order k (lesson_blocks (db (store b))) <> [] ->
  let tbl := lesson_blocks (db (store b)) in
  let blocks := order_by_order k tbl in
  let index := PyText.clamp_index block_index (Z.of_nat (length blocks)) in
  exists block_id block tbl',
    blocks !! Z.to_nat (index - 1) = Some (block_id, block) /\
    save_orders (fun _ => false) 1 (order_by_order k (delete block_id tbl))
      (delete block_id tbl) = (Ret tt, tbl') /\
    lesson_delete_block uuid_str uuid_parse py_int sanitize_html order_by_order
      (fun _ => false) U b
    = lesson_delete_block_reply uuid_str uuid_parse sanitize_html order_by_order
        U k lesson index (order_by_order k (delete block_id tbl))
        (with_store
           (with_db
              (with_lesson_blocks tbl' (delete_block block_id (db (store b))))
              (store b))
           b).
Proof.
  intros Hreq Hne Hparse Hl Hblocks tbl blocks index.
  assert (Hlen : (0 < length blocks)%nat)
    by (subst blocks tbl; destruct (order_by_order _ _); [done|simpl; lia]).
  destruct (lookup_lt_is_Some_2 blocks (Z.to_nat (index - 1)))
    as [[block_id block] Hblock]; [unfold index, PyText.clamp_index; lia|].
  destruct (save_orders_spec (order_by_order k (delete block_id tbl)) 1 (delete block_id tbl))
    as (tbl' & Hsave & _).
  { apply order_by_order_lists. }
  { intros key blk Hin. by apply (order_by_order_lists k (delete block_id tbl)) in Hin as [? _]. }
  exists block_id, block, tbl'.
  split; [exact Hblock|]. split; [exact Hsave|].
  unfold lesson_delete_block. rewrite Hreq.
  destruct lesson_id as [|c rest]; [done|].
  unfold safe_get_lesson. rewrite Hparse.
  cbv [mbind M_bind bind get modify mret M_ret ret].
  rewrite Hl. fold tbl. fold blocks.
  destruct (Z.eqb_spec (Z.of_nat (length blocks)) 0) as [|_]; [lia|].
  fold index. rewrite Hblock.
  cbn [store with_store db with_db lesson_blocks with_lesson_blocks delete_block
       with_improve_statuses].
  fold tbl. rewrite Hsave. reflexivity.
Qed.

End DeleteBlock.

(** X17.  [lesson_delete_block] deletes one block and closes the gap.
    For a request that names a lesson with blocks (whoever sends it: the
    handler asks for no permission), when no save is refused: the block
    deleted is the one at the index, cut to [1 .. n], of the listing by
    order; its improvement jobs go with it; the blocks of the lesson that
    are left are numbered [1 .. n - 1] in the order of the listing and
    keep everything but their order; blocks of other lessons, lessons,
    generation statuses, users and the queue are untouched, whatever
    comes of the calls to Telegram. *)
Theorem lesson_delete_block_renumbers (uuid_str : N -> string)
    (uuid_parse : string -> option N) (py_int : string -> option Z)
    (sanitize_html : option string -> string)
    (order_by_order : N -> gmap N LessonBlock.t -> list (N * LessonBlock.t))
    (U : Update) (b : Bot) (lesson_id : string) (block_index : Z) (k : N)
    (lesson : Lesson.t) :
  lists_blocks order_by_order ->
  block_request py_int (data U) = Ret (Some lesson_id, block_index) ->
  lesson_id <> EmptyString ->
  uuid_parse lesson_id = Some k ->
  lessons (db (store b)) !! k = Some lesson ->
  order_by_order k (lesson_blocks (db (store b))) <> [] ->
  let tbl := lesson_blocks (db (store b)) in
  let blocks := order_by_order k tbl in
  let b' := (lesson_delete_block uuid_str uuid_parse py_int sanitize_html order_by_order
               (fun _ => false) U b).2 in
  let tbl' := lesson_blocks (db (store b')) in
  exists block_id block,
    blocks !! Z.to_nat (PyText.clamp_index block_index (Z.of_nat (length blocks)) - 1)
      = Some (block_id, block) /\
    tbl' !! block_id = None /\
    improve_statuses (db (store b'))
      = filter (fun e => ImproveStatus.block e.2 <> block_id) (improve_statuses (db (store b))) /\
    (let remaining := order_by_order k (delete block_id tbl) in
     S (length remaining) = length blocks /\
     forall (j : nat) key blk,
       remaining !! j = Some (key, blk) ->
       tbl !! key = Some blk /\
       tbl' !! key = Some (LessonBlock.set_order (Z.of_nat j + 1) blk)) /\
    (forall key blk,
        tbl !! key = Some blk -> LessonBlock.lesson blk <> k -> tbl' !! key = Some blk) /\
    (forall key, tbl !! key = None -> tbl' !! key = None) /\
    lessons (db (store b')) = lessons (db (store b)) /\
    generation_statuses (db (store b')) = generation_statuses (db (store b)) /\
    users b' = users b /\
    queue b' = queue b.
Proof.
  intros Hlists Hreq Hne Hparse Hl Hblocks tbl blocks b' tbl'.
  destruct (lesson_delete_block_run uuid_str uuid_parse py_int sanitize_html order_by_order
              Hlists U b lesson_id block_index k lesson Hreq Hne Hparse Hl Hblocks)
    as (block_id & block & tbl1 & Hblock & Hsave & Hrun).
  fold tbl in Hblock, Hsave, Hrun. fold blocks in Hblock, Hrun.
  set (remaining := order_by_order k (delete block_id tbl)) in *.
  set (b1 := with_store _ b) in Hrun.
  destruct (only_talks_lesson_delete_block_reply uuid_str uuid_parse sanitize_html
              order_by_order U k lesson
              (PyText.clamp_index block_index (Z.of_nat (length blocks))) remaining b1)
    as (Hstore & Husers & Hqueue & _).
  rewrite <- Hrun in Hstore, Husers, Hqueue. fold b' in Hstore, Husers, Hqueue.
  assert (Htbl' : tbl' = tbl1) by (unfold tbl'; by rewrite Hstore).
  assert (Hel : (block_id, block) ∈ blocks) by (by eapply list_elem_of_lookup_2).
  destruct (save_orders_spec remaining 1 (delete block_id tbl))
    as (tbl2 & Hsave2 & Hrows & Hother).
  { apply Hlists. }
  { intros key blk Hin. by apply (Hlists k (delete block_id tbl)) in Hin as [? _]. }
  rewrite Hsave in Hsave2. injection Hsave2 as <-.
  assert (Hnotin : forall key, tbl !! key = None \/ key = block_id \/
                     (exists blk, tbl !! key = Some blk /\ LessonBlock.lesson blk <> k) ->
                     key ∉ remaining.*1).
  { intros key Hkey Hin. apply list_elem_of_fmap in Hin as ([key' blk] & -> & Hin).
    apply (Hlists k (delete block_id tbl)) in Hin as [Hin Hlesson]. cbn [fst] in *.
    destruct Hkey as [Hnone | [-> | (blk' & Hsome & Hother')]].
    - destruct (decide (key' = block_id)) as [->|Hd].
      + by rewrite lookup_delete_eq in Hin.
      + rewrite lookup_delete_ne in Hin by done. congruence.
    - by rewrite lookup_delete_eq in Hin.
    - destruct (decide (key' = block_id)) as [->|Hd].
      + by rewrite lookup_delete_eq in Hin.
      + rewrite lookup_delete_ne in Hin by done. congruence. }
  exists block_id, block. split; [done|]. rewrite Htbl', Hstore, Husers, Hqueue.
  split.
  { rewrite Hother by (apply Hnotin; by right; left). apply lookup_delete_eq. }
  split; [done|]. split.
  { split.
    - pose proof (listed_after_delete order_by_order Hlists k tbl block_id block Hel) as Hperm.
      fold blocks remaining in Hperm. by rewrite Hperm.
    - intros j key blk Hj. split.
      + apply list_elem_of_lookup_2 in Hj.
        apply (Hlists k (delete block_id tbl)) in Hj as [Hj _].
        destruct (decide (key = block_id)) as [->|Hd].
        * by rewrite lookup_delete_eq in Hj.
        * by rewrite lookup_delete_ne in Hj.
      + rewrite (Hrows j key blk Hj). do 2 f_equal. lia. }
  split.
  { intros key blk Hsome Hlesson.
    rewrite Hother by (apply Hnotin; right; right; by exists blk).
    rewrite lookup_delete_ne; [done|]. intros ->.
    apply (Hlists k tbl) in Hel as [Hb Hk]. congruence. }
  split.
  { intros key Hnone. rewrite Hother by (apply Hnotin; by left).
    destruct (decide (key = block_id)) as [->|Hd].
    - apply lookup_delete_eq.
    - by rewrite lookup_delete_ne. }
  done.
Qed.

Lemma blocks_of_lesson_lists : lists_blocks blocks_of_lesson.
Proof.
  intros lesson_id tbl. split; [apply blocks_of_lesson_keys|].
  intros key block. apply blocks_of_lesson_elem.
Qed.

(** * lesson_ai_apply *)

Ltac bot_simpl :=
  cbn [store with_redis with_users with_store with_queue with_sent users queue sent
       creators redis fst snd db with_db improve_statuses with_improve_statuses
       lesson_blocks with_lesson_blocks lessons generation_statuses
       with_generation_statuses negb option_map].


(** * improve_status_handler *)



Ltac tg_cases :=
  repeat match goal with
         | |- context [telegram ?U ?n] => destruct (telegram U n)
         end;
  bot_simpl; done.

(** X20.  [lesson_generate] queues nothing that is not paid for.  In
    every run of the handler the queue is left as it was, unless the rate
    limit admitted the request, the lesson exists and has no status row,
    the user (as [get_or_create_user] leaves the row) is the creator of
    the lesson and had a generation left, and the bookkeeping of the
    metrics did not raise; and then exactly one generation has been taken
    from that user and the one task queued is for that lesson. *)
Theorem lesson_generate_queues_paid (uuid_str : N -> string)
    (uuid_parse : string -> option N) (sanitize_html : option string -> string)
    (U : Update) (b : Bot) :
  let b' := (lesson_generate uuid_str uuid_parse sanitize_html U b).2 in
  let key := PyText.str_of_int (from_user_id U) in
  let users1 := (get_or_create_user (new_user_id U) (from_user_id U)
                   UserRole.SCHOOL_TEACHER (from_username U) (users b)).2 in
  queue b' = queue b \/
  exists lesson_id k lesson user,
    (check_rate_limit (now U) (from_user_id U) "lesson_generate" 1 30 (redis b)).1 = Allowed /\
    PyText.split_once ":" (data U) !! 1%nat = Some lesson_id /\
    uuid_parse lesson_id = Some k /\
    lessons (db (store b)) !! k = Some lesson /\
    generation_statuses (db (store b)) !! k = None /\
    users1 !! key = Some user /\
    creators b k = User.id user /\
    0 < User.remaining_generations user /\
    metrics_fail U = false /\
    users b'
      = <[key := User.set_remaining_generations (User.remaining_generations user - 1) user]>
          users1 /\
    queue b' = queue b ++ [generate_lesson_task_delay (uuid_str k)].
Proof.
  intros b' key users1. subst b'.
  cbv [lesson_generate mbind M_bind bind get modify mret M_ret ret raise rate_limit
       touch_user safe_get_lesson can_generate charge track_generation out_of_generations
       create_generation_status quietly safe_edit_text call tg can_generate_lesson
       get_user_by_tg].
  fold key.
  destruct (check_rate_limit _ _ _ _ _ _) as [p r] eqn:Hrl.
  destruct p as [|msg]; [|left; tg_cases].
  bot_simpl. fold users1.
  destruct (PyText.split_once ":" (data U) !! 1%nat) as [lesson_id|] eqn:Hdata; [|by left].
  destruct (uuid_parse lesson_id) as [k|] eqn:Hparse; [|by left].
  bot_simpl.
  destruct (lessons (db (store b)) !! k) as [lesson|] eqn:Hl; bot_simpl.
  2:{ left. destruct (users1 !! key); bot_simpl; [done|tg_cases]. }
  destruct (users1 !! key) as [user|] eqn:Hu; bot_simpl.
  2:{ left. tg_cases. }
  destruct (Z.eqb_spec (creators b k) (User.id user)) as [Hc|Hc]; bot_simpl.
  2:{ left. tg_cases. }
  destruct (Z.leb_spec (User.remaining_generations user) 0) as [Hrem|Hrem]; bot_simpl.
  { left. tg_cases. }
  rewrite (decrement_generation_one _ _ _ Hu Hrem). bot_simpl.
  destruct (metrics_fail U) eqn:Hmetrics; bot_simpl; [by left|].
  destruct (generation_statuses (db (store b)) !! k) as [r0|] eqn:Hrow; bot_simpl; [by left|].
  right. exists lesson_id, k, lesson, user.
  assert (Hadmit : (check_rate_limit (now U) (from_user_id U) "lesson_generate" 1 30
                      (redis b)).1 = Allowed) by (by rewrite Hrl).
  do 9 (split; [done|]).
  tg_cases.
Qed.

(** X21.  [lesson_ai_apply] queues nothing that is not paid for.  In
    every run of the handler the queue is left as it was, unless the data
    has four parts, the rate limit admitted the request, the lesson
    exists and has blocks, the user is its creator and had a generation
    left; and then exactly one generation has been taken from that user,
    and the one task queued is for the block at the index (cut to
    [1 .. n]) of the listing, with the mode of the data and the job just
    created for them. *)
Theorem lesson_ai_apply_queues_paid (uuid_parse : string -> option N)
    (py_int : string -> option Z)
    (order_by_order : N -> gmap N LessonBlock.t -> list (N * LessonBlock.t))
    (U : Update) (b : Bot) :
  let b' := (lesson_ai_apply uuid_parse py_int order_by_order U b).2 in
  let key := PyText.str_of_int (from_user_id U) in
  let parts := PyText.split ":" (data U) in
  queue b' = queue b \/
  exists lesson_id block_index_s mode block_index k lesson user block_id block,
    parts !! 1%nat = Some lesson_id /\
    parts !! 2%nat = Some block_index_s /\
    parts !! 3%nat = Some mode /\
    py_int block_index_s = Some block_index /\
    (check_rate_limit (now U) (from_user_id U) "start_generation" 1 30 (redis b)).1 = Allowed /\
    uuid_parse lesson_id = Some k /\
    lessons (db (store b)) !! k = Some lesson /\
    users b !! key = Some user /\
    creators b k = User.id user /\
    0 < User.remaining_generations user /\
    (let blocks := order_by_order k (lesson_blocks (db (store b))) in
     blocks !! Z.to_nat (PyText.clamp_index block_index (Z.of_nat (length blocks)) - 1)
       = Some (block_id, block)) /\
    users b'
      = <[key := User.set_remaining_generations (User.remaining_generations user - 1) user]>
          (users b) /\
    improve_statuses (db (store b')) !! new_improve_id U
      = Some (new_improvement U block_id mode) /\
    queue b' = queue b ++ [improve_block_task_delay block_id mode (new_improve_id U)].
Proof.
  intros b' key parts. subst b'.
  cbv [lesson_ai_apply mbind M_bind bind get modify mret M_ret ret raise rate_limit
       safe_get_lesson can_generate charge out_of_generations
       create_improve_status save_task_id quietly safe_edit_text call tg
       can_generate_lesson get_user_by_tg].
  fold key. fold parts.
  destruct (length parts <? 4)%nat; [left; tg_cases|].
  destruct (check_rate_limit _ _ _ _ _ _) as [p r] eqn:Hrl.
  destruct p as [|msg]; [|left; tg_cases].
  bot_simpl.
  destruct (parts !! 1%nat) as [lesson_id|] eqn:Hp1; [|by left].
  destruct (parts !! 2%nat) as [block_index_s|] eqn:Hp2; [|by left].
  destruct (parts !! 3%nat) as [mode|] eqn:Hp3; [|by left].
  destruct (py_int block_index_s) as [block_index|] eqn:Hint; [|by left].
  destruct (uuid_parse lesson_id) as [k|] eqn:Hparse; [|by left].
  bot_simpl.
  destruct (lessons (db (store b)) !! k) as [lesson|] eqn:Hl; bot_simpl; [|left; tg_cases].
  destruct (users b !! key) as [user|] eqn:Hu; bot_simpl; [|left; tg_cases].
  destruct (Z.eqb_spec (creators b k) (User.id user)) as [Hc|Hc]; bot_simpl; [|left; tg_cases].
  destruct (order_by_order k (lesson_blocks (db (store b)))) as [|p0 rest] eqn:Hblocks;
    [left; tg_cases|].
  rewrite <- Hblocks. rewrite Hu.
  destruct (Z.leb_spec (User.remaining_generations user) 0) as [Hrem|Hrem]; bot_simpl.
  { left. tg_cases. }
  rewrite (decrement_generation_one _ _ _ Hu Hrem). bot_simpl.
  destruct (order_by_order k (lesson_blocks (db (store b))) !! _)
    as [[block_id block]|] eqn:Hblock; bot_simpl; [|by left].
  destruct (improve_statuses (db (store b)) !! new_improve_id U) eqn:Hfresh; bot_simpl;
    [by left|].
  rewrite lookup_insert_eq. bot_simpl.
  right. exists lesson_id, block_index_s, mode, block_index, k, lesson, user, block_id, block.
  assert (Hadmit : (check_rate_limit (now U) (from_user_id U) "start_generation" 1 30
                      (redis b)).1 = Allowed) by (by rewrite Hrl).
  do 11 (split; [done|]).
  unfold save_improve_status. bot_simpl.
  repeat match goal with
         | |- context [telegram ?U ?n] => destruct (telegram U n)
         end;
    bot_simpl;
    (split; [done|]); (split; [|done]);
    by rewrite alter_insert_eq, lookup_insert_eq.
Qed.

(** X22.  The two handlers that poll a job only read.  Whatever the
    update and the state, whatever comes of the rate limit, of the
    parsing of the data and of the calls to Telegram, and however they
    end, [check_lesson_status] and [improve_status_handler] leave the
    store, the users and the queue as they were: polling costs no
    generation and starts no task. *)
Theorem status_handlers_read_only (uuid_str : N -> string)
    (uuid_parse : string -> option N) (py_int : string -> option Z)
    (sanitize_html : option string -> string) (U : Update) (b : Bot) :
  let b1 := (check_lesson_status uuid_parse U b).2 in
  let b2 := (improve_status_handler uuid_str py_int sanitize_html U b).2 in
  (store b1 = store b /\ users b1 = users b /\ queue b1 = queue b) /\
  (store b2 = store b /\ users b2 = users b /\ queue b2 = queue b).
Proof.
  cbv zeta. split.
  - cbv [check_lesson_status mbind M_bind bind get modify mret M_ret ret raise rate_limit
         quietly safe_edit_text call tg].
    destruct (check_rate_limit _ _ _ _ _ _) as [p r].
    destruct p as [|msg]; [|tg_cases].
    destruct (PyText.split_once ":" (data U) !! 1%nat) as [lesson_id|]; [|done].
    destruct (uuid_parse lesson_id) as [k|]; [|done].
    bot_simpl.
    destruct (generation_statuses (db (store b)) !! k) as [status|]; tg_cases.
  - cbv [improve_status_handler mbind M_bind bind get modify mret M_ret ret raise rate_limit
         quietly safe_edit_text call tg].
    destruct (PyText.split ":" (data U)) as [|p0 [|improve_id [|p2 rest]]]; try done.
    destruct (check_rate_limit _ _ _ _ _ _) as [p r].
    destruct p as [|msg]; [|tg_cases].
    destruct (py_int improve_id) as [id|]; [|done].
    bot_simpl.
    destruct (improve_statuses (db (store b)) !! id) as [improve_status|]; [|done].
    destruct (lesson_blocks (db (store b)) !! ImproveStatus.block improve_status)
      as [block|]; [|done].
    destruct (ImproveStatus.status improve_status); tg_cases.
Qed.

(** * The handlers on the states of [BotScenario] *)


Lemma lesson_generate_starts_job_witness :
  queue (lesson_generate BotScenario.uuid_text BotScenario.uuid_of_text BotScenario.plain
           (BotScenario.press "lesson_generate:L7") (BotScenario.bot Scenario.fresh)).2
  = [generate_lesson_task_delay "L7"].
Proof.
  pose proof (lesson_generate_starts_job BotScenario.uuid_text BotScenario.uuid_of_text
                BotScenario.plain (BotScenario.press "lesson_generate:L7")
                (BotScenario.bot Scenario.fresh) "L7" 7%N Scenario.lesson_7
                BotScenario.teacher) as H.
  destruct (lesson_generate _ _ _ _ _) as [res b'].
  destruct H as (_ & _ & Hq & _).
  - by vm_compute.
  - reflexivity.
  - reflexivity.
  - reflexivity.
  - reflexivity.
  - reflexivity.
  - simpl. lia.
  - reflexivity.
  - reflexivity.
  - exact Hq.
Defined.

Lemma lesson_generate_again_witness :
  (lesson_generate BotScenario.uuid_text BotScenario.uuid_of_text BotScenario.plain
     (BotScenario.press "lesson_generate:L7") (BotScenario.bot BotScenario.generated)).1
  = Raise IntegrityError.
Proof.
  assert (Hrow : exists r0,
            generation_statuses (db (store (BotScenario.bot BotScenario.generated))) !! 7%N
            = Some r0)
    by (vm_compute; by eexists).
  destruct Hrow as [r0 Hrow].
  pose proof (lesson_generate_again BotScenario.uuid_text BotScenario.uuid_of_text
                BotScenario.plain (BotScenario.press "lesson_generate:L7")
                (BotScenario.bot BotScenario.generated) "L7" 7%N Scenario.lesson_7
                BotScenario.teacher r0) as H.
  destruct (lesson_generate _ _ _ _ _) as [res b'].
  destruct H as (Hres & _).
  - by vm_compute.
  - reflexivity.
  - reflexivity.
  - by vm_compute.
  - reflexivity.
  - reflexivity.
  - simpl. lia.
  - reflexivity.
  - exact Hrow.
  - exact Hres.
Defined.

Lemma lesson_delete_block_renumbers_witness :
  lesson_blocks
    (db (store (lesson_delete_block BotScenario.uuid_text BotScenario.uuid_of_text
                  BotScenario.int_of_decimal BotScenario.plain blocks_of_lesson
                  (fun _ => false) (BotScenario.press "lesson_delete_block:L7:1")
                  (BotScenario.bot Scenario.with_block)).2)) !! 99%N
  = None.
Proof.
  destruct (lesson_delete_block_renumbers BotScenario.uuid_text BotScenario.uuid_of_text
              BotScenario.int_of_decimal BotScenario.plain blocks_of_lesson
              (BotScenario.press "lesson_delete_block:L7:1")
              (BotScenario.bot Scenario.with_block) "L7" 1 7%N Scenario.lesson_7)
    as (block_id & block & Hblock & Hgone & _).
  - exact blocks_of_lesson_lists.
  - by vm_compute.
  - done.
  - reflexivity.
  - reflexivity.
  - by vm_compute.
  - vm_compute in Hblock. injection Hblock as <- _. exact Hgone.
Defined.



